(** * MEDACAP project manager: task / subtask core

    A shallow embedding of the task domain model
    ([core/domain/shared/Result.ts], [ValueObjects.ts], [core/domain/task/Task.ts],
    [SubTask.ts]), of the Knex repositories that persist it and of the
    orchestration service [core/services/TaskService.ts], together with the
    properties of that core.

    Conventions of the embedding.
    - A JavaScript [number] that the code uses as an integer (priority) is a
      [Z]; the task progress, which the store keeps as [numeric(5,2)], is a
      [Q]; a [Date] is the [Z] of its epoch milliseconds. NaN, the
      infinities and the invalid date are not values of these types: what
      the entities do with them is outside the embedding. The number that
      [Number(id)] makes of an identifier is a binary64 float ([JS.number]).
    - An [Error] is the [string] of its message.
    - [new Date()] is the explicit argument [now]; [UUID.create()] is the
      explicit argument [fresh].
    - An optional property [p?: T] is an [option T], [None] standing for
      [undefined]. *)

From Stdlib Require Import List String Ascii Bool ZArith QArith Lia DecimalString.
From Stdlib Require Import NArith Floats Uint63 Permutation.
From Stdlib Require HexadecimalString.
Import ListNotations.

Local Open Scope string_scope.
Local Open Scope Z_scope.

(* ===================================================================== *)
(** ** core/domain/shared/Result.ts *)
(* ===================================================================== *)

Definition Error := string.

Inductive Result (T : Type) : Type :=
| success (value : T)
| failure (error : Error).
Arguments success {T} value.
Arguments failure {T} error.

Definition isSuccess {T} (r : Result T) : bool :=
  match r with success _ => true | failure _ => false end.

Definition isFailure {T} (r : Result T) : bool := negb (isSuccess r).

(** What awaiting a promise gives: the value it resolves to, or the error it
    rejects with, which is thrown. *)
Inductive Outcome (T : Type) : Type :=
| Ret (value : T)
| Throw (error : Error).
Arguments Ret {T} value.
Arguments Throw {T} error.

(** [await] of a call that returns a [Result], under a [try] whose [catch]
    returns [Result.failure(error)]: a thrown error ends as a failure. *)
Definition awaited {T} (o : Outcome (Result T)) : Result T :=
  match o with
  | Ret r => r
  | Throw e => failure e
  end.

(** The methods of a [Result]. [getValue] and [getErrorValue] throw when the
    result is of the other kind. *)
Module Result.

Definition getValue {T} (r : Result T) : Outcome T :=
  match r with
  | success v => Ret v
  | failure _ =>
      Throw "Cannot get value from failure result. Use getErrorValue() instead."
  end.

Definition getErrorValue {T} (r : Result T) : Outcome Error :=
  match r with
  | success _ =>
      Throw "Cannot get error from success result. Use getValue() instead."
  | failure e => Ret e
  end.

Definition map {T U} (fn : T -> U) (r : Result T) : Result U :=
  match r with
  | failure e => failure e
  | success v => success (fn v)
  end.

Definition flatMap {T U} (fn : T -> Result U) (r : Result T) : Result U :=
  match r with
  | failure e => failure e
  | success v => fn v
  end.

(** [match] *)
Definition match_ {T U} (onSuccess : T -> U) (onFailure : Error -> U) (r : Result T) : U :=
  match r with
  | success v => onSuccess v
  | failure e => onFailure e
  end.

End Result.

(* ===================================================================== *)
(** ** JavaScript string helpers *)
(* ===================================================================== *)

(** [!s] on a string: only the empty string is falsy. *)
Definition falsy (s : string) : bool :=
  match s with EmptyString => true | _ => false end.

(** [!o] on an optional string property: [undefined] and [""] are falsy. *)
Definition falsy_opt (o : option string) : bool :=
  match o with None => true | Some s => falsy s end.

(** White space removed by [String.prototype.trim] (ASCII part). *)
Definition is_space (c : ascii) : bool :=
  let n := nat_of_ascii c in
  (Nat.eqb n 32 || (Nat.leb 9 n && Nat.leb n 13))%bool.

Fixpoint trim_start (s : string) : string :=
  match s with
  | String c r => if is_space c then trim_start r else s
  | EmptyString => EmptyString
  end.

(** Drop the trailing white space: a character is kept when something that
    is kept follows it or when it is not white space itself. *)
Fixpoint trim_end (s : string) : string :=
  match s with
  | EmptyString => EmptyString
  | String c r =>
      match trim_end r with
      | EmptyString => if is_space c then EmptyString else String c EmptyString
      | r' => String c r'
      end
  end.

Definition trim (s : string) : string := trim_end (trim_start s).

(** [!title || title.trim().length === 0] *)
Definition blank (s : string) : bool :=
  (falsy s || Nat.eqb (String.length (trim s)) 0)%bool.

(* ===================================================================== *)
(** ** JavaScript numbers

    A [number] is a binary64 float. [Number(s)] reads a string the way the
    language defines the conversion: the white space around is dropped
    (its ASCII part here), the empty string is 0, and what is left must be
    one numeric literal, whose value is rounded to the nearest float:
    a decimal literal with an optional sign, fraction and exponent,
    [Infinity] with an optional sign, or an unsigned literal of base 16, 8
    or 2. Every other string is NaN. *)
(* ===================================================================== *)

Module JS.

Definition number : Type := float.

(** The value of a character as a digit of the radix. *)
Definition digit (radix : Z) (c : ascii) : option Z :=
  let n := Z.of_nat (nat_of_ascii c) in
  let v := if ((48 <=? n) && (n <=? 57))%bool then n - 48
           else if ((97 <=? n) && (n <=? 122))%bool then n - 87
           else if ((65 <=? n) && (n <=? 90))%bool then n - 55
           else radix in
  if v <? radix then Some v else None.

(** The longest run of digits at the head of [s], read after the value
    [acc]: the value, the number of digits read and the rest. *)
Fixpoint digits (radix : Z) (s : string) (acc : Z) (count : nat) : Z * nat * string :=
  match s with
  | String c r =>
      match digit radix c with
      | Some v => digits radix r (radix * acc + v) (S count)
      | None => (acc, count, s)
      end
  | EmptyString => (acc, count, s)
  end.

(** An optional sign: whether it is a minus, and the rest. *)
Definition sign (s : string) : bool * string :=
  match s with
  | String c r =>
      if Ascii.eqb c "-"%char then (true, r)
      else if Ascii.eqb c "+"%char then (false, r)
      else (false, s)
  | EmptyString => (false, s)
  end.

(** An optional exponent part that ends the literal. *)
Definition exponent (s : string) : option Z :=
  match s with
  | EmptyString => Some 0
  | String c r =>
      if (Ascii.eqb c "e"%char || Ascii.eqb c "E"%char)%bool then
        let (negative, r1) := sign r in
        match digits 10 r1 0 0 with
        | (v, S _, EmptyString) => Some (if negative then - v else v)
        | _ => None
        end
      else None
  end.

(** [m * 10^k] for a natural [m], rounded to the nearest float, to the even
    one of two that are equally near. *)
Definition rounded (m k : Z) : number :=
  match m with
  | Z.pos p =>
      SF2Prim
        (if 0 <=? k
         then binary_normalize prec emax (Z.pos p * 10 ^ k) 0 false
         else SFdiv prec emax (S754_finite false p 0)
                (S754_finite false (Z.to_pos (10 ^ (- k))) 0))
  | _ => PrimFloat.zero
  end.

Definition signed (negative : bool) (x : number) : number :=
  if negative then PrimFloat.opp x else x.

(** An unsigned decimal literal: [Infinity], or digits with an optional
    fraction and an optional exponent, one digit at least before or after
    the point. *)
Definition decimal (s : string) : option number :=
  if String.eqb s "Infinity" then Some PrimFloat.infinity
  else
    let '(i, ni, r1) := digits 10 s 0 0 in
    let '(m, nf, r2) :=
      match r1 with
      | String c r => if Ascii.eqb c "."%char then digits 10 r i 0 else (i, 0%nat, r1)
      | EmptyString => (i, 0%nat, r1)
      end in
    if Nat.eqb (ni + nf) 0 then None
    else
      match exponent r2 with
      | Some e => Some (rounded m (e - Z.of_nat nf))
      | None => None
      end.

(** The radix that a prefix [0x], [0o] or [0b] announces, and the rest. *)
Definition prefixed (s : string) : option (Z * string) :=
  match s with
  | String c0 (String c r) =>
      if Ascii.eqb c0 "0"%char then
        if (Ascii.eqb c "x"%char || Ascii.eqb c "X"%char)%bool then Some (16, r)
        else if (Ascii.eqb c "o"%char || Ascii.eqb c "O"%char)%bool then Some (8, r)
        else if (Ascii.eqb c "b"%char || Ascii.eqb c "B"%char)%bool then Some (2, r)
        else None
      else None
  | _ => None
  end.

(** One numeric literal, up to the end of the string. *)
Definition literal (s : string) : option number :=
  match prefixed s with
  | Some (radix, r) =>
      match digits radix r 0 0 with
      | (v, S _, EmptyString) => Some (rounded v 0)
      | _ => None
      end
  | None =>
      let (negative, r) := sign s in
      match decimal r with
      | Some x => Some (signed negative x)
      | None => None
      end
  end.

(** [Number(s)] *)
Definition Number (s : string) : number :=
  let t := trim s in
  if falsy t then PrimFloat.zero
  else match literal t with
       | Some x => x
       | None => PrimFloat.nan
       end.

(** What a [where] clause is given to compare an identifier column with:
    the callers of the repositories pass a string in some places and
    [Number(id)] in others. *)
Inductive value : Type :=
| Str (s : string)
| Num (n : number).

(** [column = value] on a stored identifier. A string is compared as it is;
    a number is compared with the number that the stored identifier reads
    as, and NaN is equal to nothing. *)
Definition selects (key : value) (stored : string) : bool :=
  match key with
  | Str s => String.eqb stored s
  | Num n => PrimFloat.eqb (Number stored) n
  end.

End JS.

Coercion JS.Str : string >-> JS.value.

(* ===================================================================== *)
(** ** core/domain/shared/ValueObjects.ts *)
(* ===================================================================== *)

Module UUID.

Definition is_hex (c : ascii) : bool :=
  let n := nat_of_ascii c in
  ((Nat.leb 48 n && Nat.leb n 57)
   || (Nat.leb 97 n && Nat.leb n 102)
   || (Nat.leb 65 n && Nat.leb n 70))%bool.

(** Consume exactly [n] hexadecimal digits. *)
Fixpoint hex_run (n : nat) (s : string) : option string :=
  match n with
  | O => Some s
  | S k =>
      match s with
      | String c r => if is_hex c then hex_run k r else None
      | EmptyString => None
      end
  end.

Definition dash (s : string) : option string :=
  match s with
  | String c r => if Ascii.eqb c "-"%char then Some r else None
  | EmptyString => None
  end.

Definition andThen {A B} (o : option A) (f : A -> option B) : option B :=
  match o with Some a => f a | None => None end.

(** [/^[0-9a-f]{8}-[0-9a-f]{4}-[0-9a-f]{4}-[0-9a-f]{4}-[0-9a-f]{12}$/i] *)
Definition isValid (value : string) : bool :=
  match
    andThen (hex_run 8 value) (fun s1 =>
    andThen (dash s1) (fun s2 =>
    andThen (hex_run 4 s2) (fun s3 =>
    andThen (dash s3) (fun s4 =>
    andThen (hex_run 4 s4) (fun s5 =>
    andThen (dash s5) (fun s6 =>
    andThen (hex_run 4 s6) (fun s7 =>
    andThen (dash s7) (fun s8 =>
    hex_run 12 s8))))))))
  with
  | Some EmptyString => true
  | _ => false
  end.

(** [new UUID(value)]: the value, or the thrown error. *)
Definition new (value : string) : Result string :=
  if isValid value then success value
  else failure ("Invalid UUID format: " ++ value).

(** [v.toString(16)] of a non-negative integer. *)
Definition toString16 (v : N) : string :=
  HexadecimalString.NilZero.string_of_uint (N.to_hex_uint v).

(** The replacement function of [create] for one [x] or [y] of the
    template; [r] is the draw [(Math.random() * 16) | 0]. *)
Definition replacement (c : ascii) (r : N) : string :=
  let v := if Ascii.eqb c "x"%char then r else N.lor (N.land r 3) 8 in
  toString16 v.

(** [template.replace(/[xy]/g, ...)]: the matches are replaced from left to
    right, the n-th one with the n-th draw. *)
Fixpoint replace_xy (template : string) (random : nat -> N) (n : nat) : string :=
  match template with
  | EmptyString => EmptyString
  | String c rest =>
      if (Ascii.eqb c "x"%char || Ascii.eqb c "y"%char)%bool
      then replacement c (random n) ++ replace_xy rest random (S n)
      else String c (replace_xy rest random n)
  end.

(** [UUID.create()]; [random] gives the successive draws. *)
Definition create (random : nat -> N) : Result string :=
  new (replace_xy "xxxxxxxx-xxxx-4xxx-yxxx-xxxxxxxxxxxx" random 0).

End UUID.

Module PhaseCode.

Definition validCodes : list string := ["M"; "E"; "D"; "A"; "C"; "A2"; "P"].

Definition isValid (value : string) : bool :=
  existsb (String.eqb value) validCodes.

Definition new (value : string) : Result string :=
  if isValid value then success value
  else failure ("Invalid phase code: " ++ value).

End PhaseCode.

Module Priority.

(** [value >= 1 && value <= 5 && Number.isInteger(value)]; the last
    conjunct holds of every [Z]. *)
Definition isValid (value : Z) : bool := ((1 <=? value) && (value <=? 5))%bool.

Definition new (value : Z) : Result Z :=
  if isValid value then success value
  else failure ("Invalid priority value: " ++ NilEmpty.string_of_int (Z.to_int value)
                ++ ". Must be between 1 and 5.").

End Priority.

(** The letters of the RACI matrix ([type RaciLetter = 'R' | 'A' | 'C' | 'I']). *)
Module RaciLetter.

Inductive t : Type := R | A | C | I.

Definition eqb (x y : t) : bool :=
  match x, y with
  | R, R | A, A | C, C | I, I => true
  | _, _ => false
  end.


(** The value object over strings: [validLetters], [isValid], the
    constructor and [getValue]. *)
Definition validLetters : list string := ["R"; "A"; "C"; "I"].

Definition isValid (value : string) : bool :=
  existsb (String.eqb value) validLetters.

Definition getValue (l : t) : string :=
  match l with
  | R => "R"
  | A => "A"
  | C => "C"
  | I => "I"
  end.

(** The letter that a valid string holds. *)
Definition held (value : string) : t :=
  if String.eqb value "R" then R
  else if String.eqb value "A" then A
  else if String.eqb value "C" then C
  else I.

(** [new RaciLetter(value)]: the letter, or the thrown error. *)
Definition new (value : string) : Result t :=
  if isValid value then success (held value)
  else failure ("Invalid RACI letter: " ++ value).

End RaciLetter.

(** Comparisons of the progress value. *)
Definition Qltb (a b : Q) : bool := negb (Qle_bool b a).

(* ===================================================================== *)
(** ** core/domain/task/Task.ts *)
(* ===================================================================== *)

Record TaskProps : Type := mkTaskProps {
  p_id : option string;
  p_phaseCode : string;
  p_pageId : option string;
  p_title : string;
  p_description : option string;
  p_priority : Z;
  p_ownerUuid : option string;
  p_progress : Q;
  p_createdBy : string;
  p_createdAt : option Z;
  p_updatedAt : option Z;
  p_plannedStart : option Z;
  p_plannedEnd : option Z
}.

(** The private state of a [Task]. [TaskDTO] has the same fields and
    [toObject] copies them one by one. *)
Record Task : Type := mkTask {
  id : string;
  phaseCode : string;
  pageId : option string;
  title : string;
  description : option string;
  priority : Z;
  ownerUuid : option string;
  progress : Q;
  createdBy : string;
  createdAt : Z;
  updatedAt : Z;
  plannedStart : option Z;
  plannedEnd : option Z
}.

Definition TaskDTO := Task.

Module TaskEntity.

(** [start && end && start > end]: a [Date] object is always truthy. *)
Definition dates_out_of_order (s e : option Z) : bool :=
  match s, e with
  | Some a, Some b => b <? a
  | _, _ => false
  end.

(** [props.ownerUuid ? new UUID(props.ownerUuid) : undefined] *)
Definition owner_of (o : option string) : Result (option string) :=
  match o with
  | None => success None
  | Some s =>
      if falsy s then success None
      else match UUID.new s with
           | success u => success (Some u)
           | failure e => failure e
           end
  end.

(** The private constructor; each [new] of a value object may throw, in
    the order of the assignments. *)
Definition construct (now : Z) (fresh : string) (props : TaskProps) : Result Task :=
  match (if falsy_opt (p_id props) then success fresh
         else UUID.new (match p_id props with Some s => s | None => "" end)) with
  | failure e => failure e
  | success i =>
  match PhaseCode.new (p_phaseCode props) with
  | failure e => failure e
  | success ph =>
  match Priority.new (p_priority props) with
  | failure e => failure e
  | success pr =>
  match owner_of (p_ownerUuid props) with
  | failure e => failure e
  | success ow =>
  match UUID.new (p_createdBy props) with
  | failure e => failure e
  | success cb =>
      success {| id := i; phaseCode := ph; pageId := p_pageId props;
                 title := p_title props; description := p_description props;
                 priority := pr; ownerUuid := ow; progress := p_progress props;
                 createdBy := cb;
                 createdAt := match p_createdAt props with Some d => d | None => now end;
                 updatedAt := match p_updatedAt props with Some d => d | None => now end;
                 plannedStart := p_plannedStart props;
                 plannedEnd := p_plannedEnd props |}
  end end end end end.

(** [Task.create] *)
Definition create (now : Z) (fresh : string) (props : TaskProps) : Result Task :=
  if blank (p_title props) then failure "Task title is required"
  else if falsy (p_phaseCode props) then failure "Phase code is required"
  else if falsy (p_createdBy props) then failure "Creator is required"
  else if ((p_priority props <? 1) || (5 <? p_priority props))%bool
       then failure "Priority must be between 1 and 5"
  else if (Qltb (p_progress props) 0 || Qltb 100 (p_progress props))%bool
       then failure "Progress must be between 0 and 100"
  else if dates_out_of_order (p_plannedStart props) (p_plannedEnd props)
       then failure "Planned start date must be before planned end date"
  else construct now fresh props.

Definition toObject (t : Task) : TaskDTO := t.

Definition set_updatedAt (now : Z) (t : Task) : Task :=
  {| id := id t; phaseCode := phaseCode t; pageId := pageId t; title := title t;
     description := description t; priority := priority t; ownerUuid := ownerUuid t;
     progress := progress t; createdBy := createdBy t; createdAt := createdAt t;
     updatedAt := now; plannedStart := plannedStart t; plannedEnd := plannedEnd t |}.

Definition set_phaseCode (v : string) (t : Task) : Task :=
  {| id := id t; phaseCode := v; pageId := pageId t; title := title t;
     description := description t; priority := priority t; ownerUuid := ownerUuid t;
     progress := progress t; createdBy := createdBy t; createdAt := createdAt t;
     updatedAt := updatedAt t; plannedStart := plannedStart t; plannedEnd := plannedEnd t |}.

Definition set_title (v : string) (t : Task) : Task :=
  {| id := id t; phaseCode := phaseCode t; pageId := pageId t; title := v;
     description := description t; priority := priority t; ownerUuid := ownerUuid t;
     progress := progress t; createdBy := createdBy t; createdAt := createdAt t;
     updatedAt := updatedAt t; plannedStart := plannedStart t; plannedEnd := plannedEnd t |}.

Definition set_description (v : option string) (t : Task) : Task :=
  {| id := id t; phaseCode := phaseCode t; pageId := pageId t; title := title t;
     description := v; priority := priority t; ownerUuid := ownerUuid t;
     progress := progress t; createdBy := createdBy t; createdAt := createdAt t;
     updatedAt := updatedAt t; plannedStart := plannedStart t; plannedEnd := plannedEnd t |}.

Definition set_priority (v : Z) (t : Task) : Task :=
  {| id := id t; phaseCode := phaseCode t; pageId := pageId t; title := title t;
     description := description t; priority := v; ownerUuid := ownerUuid t;
     progress := progress t; createdBy := createdBy t; createdAt := createdAt t;
     updatedAt := updatedAt t; plannedStart := plannedStart t; plannedEnd := plannedEnd t |}.

Definition set_ownerUuid (v : option string) (t : Task) : Task :=
  {| id := id t; phaseCode := phaseCode t; pageId := pageId t; title := title t;
     description := description t; priority := priority t; ownerUuid := v;
     progress := progress t; createdBy := createdBy t; createdAt := createdAt t;
     updatedAt := updatedAt t; plannedStart := plannedStart t; plannedEnd := plannedEnd t |}.

Definition set_progress (v : Q) (t : Task) : Task :=
  {| id := id t; phaseCode := phaseCode t; pageId := pageId t; title := title t;
     description := description t; priority := priority t; ownerUuid := ownerUuid t;
     progress := v; createdBy := createdBy t; createdAt := createdAt t;
     updatedAt := updatedAt t; plannedStart := plannedStart t; plannedEnd := plannedEnd t |}.

Definition set_planned (s e : option Z) (t : Task) : Task :=
  {| id := id t; phaseCode := phaseCode t; pageId := pageId t; title := title t;
     description := description t; priority := priority t; ownerUuid := ownerUuid t;
     progress := progress t; createdBy := createdBy t; createdAt := createdAt t;
     updatedAt := updatedAt t; plannedStart := s; plannedEnd := e |}.

(** The setters. A method mutates [this] and returns a [Result<void>]:
    here it returns the result and the state of the entity afterwards. *)

Definition updatePhase (now : Z) (v : string) (t : Task) : Result unit * Task :=
  match PhaseCode.new v with
  | success ph => (success tt, set_updatedAt now (set_phaseCode ph t))
  | failure e => (failure e, t)
  end.

Definition updateTitle (now : Z) (v : string) (t : Task) : Result unit * Task :=
  if blank v then (failure "Task title is required", t)
  else (success tt, set_updatedAt now (set_title v t)).

Definition updateDescription (now : Z) (v : option string) (t : Task)
  : Result unit * Task :=
  (success tt, set_updatedAt now (set_description v t)).

Definition updatePriority (now : Z) (v : Z) (t : Task) : Result unit * Task :=
  match Priority.new v with
  | success pr => (success tt, set_updatedAt now (set_priority pr t))
  | failure e => (failure e, t)
  end.

Definition updateOwner (now : Z) (v : option string) (t : Task) : Result unit * Task :=
  match owner_of v with
  | success ow => (success tt, set_updatedAt now (set_ownerUuid ow t))
  | failure e => (failure e, t)
  end.

Definition updateProgress (now : Z) (v : Q) (t : Task) : Result unit * Task :=
  if (Qltb v 0 || Qltb 100 v)%bool
  then (failure "Progress must be between 0 and 100", t)
  else (success tt, set_updatedAt now (set_progress v t)).

Definition updatePlannedDates (now : Z) (s e : option Z) (t : Task)
  : Result unit * Task :=
  if dates_out_of_order s e
  then (failure "Planned start date must be before planned end date", t)
  else (success tt, set_updatedAt now (set_planned s e t)).

(** The invariants of the entity. *)
Definition invariant (t : Task) : Prop :=
  1 <= priority t <= 5
  /\ (0 <= progress t /\ progress t <= 100)%Q
  /\ (forall s e, plannedStart t = Some s -> plannedEnd t = Some e -> s <= e)
  /\ blank (title t) = false.

(** One call of a mutating method, with its argument. *)
Inductive Mutation : Type :=
| UpdatePhase (v : string)
| UpdateTitle (v : string)
| UpdateDescription (v : option string)
| UpdatePriority (v : Z)
| UpdateOwner (v : option string)
| UpdateProgress (v : Q)
| UpdatePlannedDates (s e : option Z).

Definition apply (now : Z) (m : Mutation) (t : Task) : Result unit * Task :=
  match m with
  | UpdatePhase v => updatePhase now v t
  | UpdateTitle v => updateTitle now v t
  | UpdateDescription v => updateDescription now v t
  | UpdatePriority v => updatePriority now v t
  | UpdateOwner v => updateOwner now v t
  | UpdateProgress v => updateProgress now v t
  | UpdatePlannedDates s e => updatePlannedDates now s e t
  end.

(** The value of a mutation is acceptable to the invariants. *)
Definition acceptable (m : Mutation) : Prop :=
  match m with
  | UpdateTitle v => blank v = false
  | UpdatePriority v => 1 <= v <= 5
  | UpdateProgress v => (0 <= v /\ v <= 100)%Q
  | UpdatePlannedDates (Some s) (Some e) => s <= e
  | _ => True
  end.

End TaskEntity.

(* ===================================================================== *)
(** ** core/domain/task/SubTask.ts *)
(* ===================================================================== *)

Record SubTaskProps : Type := mkSubTaskProps {
  sp_id : option string;
  sp_taskId : string;
  sp_title : string;
  sp_description : option string;
  sp_completed : bool;
  sp_createdBy : string;
  sp_createdAt : option Z;
  sp_updatedAt : option Z
}.

(** The private state of a [SubTask]; [SubTaskDTO] has the same fields. *)
Record SubTask : Type := mkSubTask {
  st_id : string;
  st_taskId : string;
  st_title : string;
  st_description : option string;
  st_completed : bool;
  st_createdBy : string;
  st_createdAt : Z;
  st_updatedAt : Z
}.

Definition SubTaskDTO := SubTask.

Module SubTaskEntity.

Definition construct (now : Z) (fresh : string) (props : SubTaskProps) : Result SubTask :=
  match (if falsy_opt (sp_id props) then success fresh
         else UUID.new (match sp_id props with Some s => s | None => "" end)) with
  | failure e => failure e
  | success i =>
  match UUID.new (sp_taskId props) with
  | failure e => failure e
  | success tid =>
  match UUID.new (sp_createdBy props) with
  | failure e => failure e
  | success cb =>
      success {| st_id := i; st_taskId := tid; st_title := sp_title props;
                 st_description := sp_description props;
                 st_completed := sp_completed props; st_createdBy := cb;
                 st_createdAt := match sp_createdAt props with Some d => d | None => now end;
                 st_updatedAt := match sp_updatedAt props with Some d => d | None => now end |}
  end end end.

(** [SubTask.create] *)
Definition create (now : Z) (fresh : string) (props : SubTaskProps) : Result SubTask :=
  if blank (sp_title props) then failure "SubTask title is required"
  else if falsy (sp_taskId props) then failure "Task ID is required"
  else construct now fresh props.

Definition set_completed (now : Z) (b : bool) (s : SubTask) : SubTask :=
  {| st_id := st_id s; st_taskId := st_taskId s; st_title := st_title s;
     st_description := st_description s; st_completed := b;
     st_createdBy := st_createdBy s; st_createdAt := st_createdAt s;
     st_updatedAt := now |}.

Definition markCompleted (now : Z) (s : SubTask) : SubTask := set_completed now true s.

Definition markIncomplete (now : Z) (s : SubTask) : SubTask := set_completed now false s.

Definition toObject (s : SubTask) : SubTaskDTO := s.


Definition set_title (now : Z) (v : string) (s : SubTask) : SubTask :=
  {| st_id := st_id s; st_taskId := st_taskId s; st_title := v;
     st_description := st_description s; st_completed := st_completed s;
     st_createdBy := st_createdBy s; st_createdAt := st_createdAt s;
     st_updatedAt := now |}.

Definition set_description (now : Z) (v : option string) (s : SubTask) : SubTask :=
  {| st_id := st_id s; st_taskId := st_taskId s; st_title := st_title s;
     st_description := v; st_completed := st_completed s;
     st_createdBy := st_createdBy s; st_createdAt := st_createdAt s;
     st_updatedAt := now |}.

Definition updateTitle (now : Z) (v : string) (s : SubTask) : Result unit * SubTask :=
  if blank v then (failure "SubTask title is required", s)
  else (success tt, set_title now v s).

Definition updateDescription (now : Z) (v : option string) (s : SubTask)
  : Result unit * SubTask :=
  (success tt, set_description now v s).

Definition toggleCompleted (now : Z) (s : SubTask) : SubTask :=
  set_completed now (negb (st_completed s)) s.

End SubTaskEntity.

(* ===================================================================== *)
(** ** core/domain/task/Raci.ts *)
(* ===================================================================== *)

Record RaciProps : Type := mkRaciProps {
  rp_entityId : string;
  rp_userUuid : string;
  rp_letter : string
}.

(** The private state of a [Raci]. *)
Record Raci : Type := mkRaci {
  ra_entityId : string;
  ra_userUuid : string;
  ra_letter : RaciLetter.t
}.

Definition RaciDTO := RaciProps.

Module RaciEntity.

Definition construct (props : RaciProps) : Result Raci :=
  match UUID.new (rp_entityId props) with
  | failure e => failure e
  | success e =>
  match UUID.new (rp_userUuid props) with
  | failure err => failure err
  | success u =>
  match RaciLetter.new (rp_letter props) with
  | failure err => failure err
  | success l => success {| ra_entityId := e; ra_userUuid := u; ra_letter := l |}
  end end end.

(** [Raci.create] *)
Definition create (props : RaciProps) : Result Raci :=
  if falsy (rp_entityId props) then failure "Entity ID is required"
  else if falsy (rp_userUuid props) then failure "User UUID is required"
  else if falsy (rp_letter props) then failure "RACI letter is required"
  else construct props.

Definition updateLetter (v : string) (r : Raci) : Result unit * Raci :=
  match RaciLetter.new v with
  | success l =>
      (success tt,
       {| ra_entityId := ra_entityId r; ra_userUuid := ra_userUuid r; ra_letter := l |})
  | failure e => (failure e, r)
  end.

Definition toObject (r : Raci) : RaciDTO :=
  {| rp_entityId := ra_entityId r; rp_userUuid := ra_userUuid r;
     rp_letter := RaciLetter.getValue (ra_letter r) |}.

End RaciEntity.

(* ===================================================================== *)
(** ** ports/db/RaciRepository.ts and the authorization policy of
       core/services/TaskService.ts *)
(* ===================================================================== *)

Record RaciEntry : Type := mkRaciEntry {
  re_id : string;
  re_taskId : option string;
  re_subtaskId : option string;
  userUuid : string;
  letter : RaciLetter.t
}.

(** The answers of the repository ports that the policy reads, and the
    coercion [Number(taskId)] applied to the identifier before the RACI
    lookup. *)
Record Ports : Type := mkPorts {
  Number : string -> JS.number;
  taskRepository_findById : string -> Outcome (Result Task);
  raciRepository_findByTaskId : JS.number -> Outcome (Result (list RaciEntry))
}.

Record LockInfo : Type := mkLockInfo {
  locked : bool;
  lockedBy : option string
}.

(** [['CP', 'RF'].includes(userRole)] *)
Definition elevated (userRole : string) : bool :=
  existsb (String.eqb userRole) ["CP"; "RF"].

(** [task.getOwnerUuid() === userUuid] *)
Definition isOwner (task : Task) (user : string) : bool :=
  match ownerUuid task with
  | Some o => String.eqb o user
  | None => false
  end.

(** [['R', 'A'].includes(raci.letter)] *)
Definition letter_R_or_A (l : RaciLetter.t) : bool :=
  existsb (RaciLetter.eqb l) [RaciLetter.R; RaciLetter.A].

(** [lockInfo.lockedBy !== userUuid] *)
Definition lockedBy_other (info : LockInfo) (user : string) : bool :=
  match lockedBy info with
  | Some u => negb (String.eqb u user)
  | None => true
  end.

Definition lock_conflict_message (taskId : string) : Error :=
  "Task " ++ taskId ++ " is currently being edited by another user".

(* ===================================================================== *)
(** ** core/domain/profile/Profile.ts *)
(* ===================================================================== *)

Record Profile : Type := mkProfile {
  code : string;
  name : string
}.

Module ProfileEntity.

(** [/^[A-Z0-9_]+$/] on one character. *)
Definition code_char (c : ascii) : bool :=
  let n := nat_of_ascii c in
  ((Nat.leb 65 n && Nat.leb n 90) || (Nat.leb 48 n && Nat.leb n 57) || Nat.eqb n 95)%bool.

Fixpoint all_chars (f : ascii -> bool) (s : string) : bool :=
  match s with
  | EmptyString => true
  | String c r => (f c && all_chars f r)%bool
  end.

(** [Profile.create] *)
Definition create (c n : string) : Result Profile :=
  if blank c then failure "Profile code is required"
  else if blank n then failure "Profile name is required"
  else if Nat.ltb 8 (String.length c)
       then failure "Profile code must be less than 8 characters"
  else if negb (all_chars code_char c)
       then failure "Profile code must contain only uppercase letters, numbers, and underscores"
  else if Nat.ltb 64 (String.length n)
       then failure "Profile name must be less than 64 characters"
  else success {| code := c; name := n |}.

End ProfileEntity.

(* ===================================================================== *)
(** ** The relational store

    The tables are the ones the repositories and the service address
    ([task], [subtask], [task_raci], [subtask_raci], [task_profile],
    [profile]), with the columns their statements name. A table is the list
    of its rows in insertion order. Primary keys are those of the schema
    migration: [id] for [task] and [subtask], [(task_id, user_uuid)] for
    [task_raci], [(subtask_id, user_uuid)] for [subtask_raci] and
    [(task_id, profile_code)] for [task_profile]; an insertion that would
    repeat a key throws. *)
(* ===================================================================== *)

Record TaskRow : Type := mkTaskRow {
  tk_id : string;
  tk_phase_code : string;
  tk_page_id : option string;
  tk_title : string;
  tk_description : option string;
  tk_priority : Z;
  tk_owner_uuid : option string;
  tk_progress : Q;
  tk_created_by : string;
  tk_created_at : Z;
  tk_updated_at : Z;
  tk_planned_start : option Z;
  tk_planned_end : option Z
}.

Record SubTaskRow : Type := mkSubTaskRow {
  sb_id : string;
  sb_task_id : string;
  sb_title : string;
  sb_description : option string;
  sb_completed : bool;
  sb_created_by : string;
  sb_created_at : Z;
  sb_updated_at : Z
}.

(** A row of [task_raci] or of [subtask_raci]; [rc_entity] is the
    [task_id], respectively the [subtask_id]. *)
Record RaciRow : Type := mkRaciRow {
  rc_entity : string;
  rc_user_uuid : string;
  rc_letter : RaciLetter.t;
  rc_created_at : option Z;
  rc_updated_at : option Z
}.

Record TaskProfileRow : Type := mkTaskProfileRow {
  tp_task_id : string;
  tp_profile_code : string;
  tp_created_at : Z
}.

Record ProfileRow : Type := mkProfileRow {
  pf_code : string;
  pf_name : string
}.

Record DB : Type := mkDB {
  task : list TaskRow;
  subtask : list SubTaskRow;
  task_raci : list RaciRow;
  subtask_raci : list RaciRow;
  task_profile : list TaskProfileRow;
  profile : list ProfileRow
}.

Definition with_task (v : list TaskRow) (d : DB) : DB :=
  {| task := v; subtask := subtask d; task_raci := task_raci d;
     subtask_raci := subtask_raci d; task_profile := task_profile d;
     profile := profile d |}.

Definition with_subtask (v : list SubTaskRow) (d : DB) : DB :=
  {| task := task d; subtask := v; task_raci := task_raci d;
     subtask_raci := subtask_raci d; task_profile := task_profile d;
     profile := profile d |}.

Definition with_task_raci (v : list RaciRow) (d : DB) : DB :=
  {| task := task d; subtask := subtask d; task_raci := v;
     subtask_raci := subtask_raci d; task_profile := task_profile d;
     profile := profile d |}.

Definition with_subtask_raci (v : list RaciRow) (d : DB) : DB :=
  {| task := task d; subtask := subtask d; task_raci := task_raci d;
     subtask_raci := v; task_profile := task_profile d;
     profile := profile d |}.

Definition with_task_profile (v : list TaskProfileRow) (d : DB) : DB :=
  {| task := task d; subtask := subtask d; task_raci := task_raci d;
     subtask_raci := subtask_raci d; task_profile := v;
     profile := profile d |}.

(** *** The values of an [update]

    The query builder leaves out of an [update] every key of the object
    whose value is [undefined]: the column keeps what it holds. *)

Definition orKept {V} (v stored : option V) : option V :=
  match v with
  | Some _ => v
  | None => stored
  end.

(** *** Row predicates of the [where] clauses *)

Definition raci_key (e u : string) (r : RaciRow) : bool :=
  (String.eqb (rc_entity r) e && String.eqb (rc_user_uuid r) u)%bool.

Definition raci_of (e : string) (r : RaciRow) : bool := String.eqb (rc_entity r) e.

(** The same clause when the caller may have passed a number. *)
Definition raci_for (key : JS.value) (r : RaciRow) : bool :=
  JS.selects key (rc_entity r).

Definition task_is (i : string) (r : TaskRow) : bool := String.eqb (tk_id r) i.

Definition subtask_is (i : string) (r : SubTaskRow) : bool := String.eqb (sb_id r) i.

Definition subtask_of (t : string) (r : SubTaskRow) : bool := String.eqb (sb_task_id r) t.

Definition profile_link (t c : string) (r : TaskProfileRow) : bool :=
  (String.eqb (tp_task_id r) t && String.eqb (tp_profile_code r) c)%bool.

Definition profile_of (t : string) (r : TaskProfileRow) : bool :=
  String.eqb (tp_task_id r) t.

(** *** The subtask trigger

    The schema migration declares a trigger [subtask_progress] on [subtask],
    [AFTER INSERT OR UPDATE OF done ... FOR EACH ROW], whose function
    [fn_task_progress] rewrites the [progress] of the parent task. Whether a
    statement of the repositories fires it depends on the schema in force
    (the trigger is bound to a column [done], the repositories assign
    [completed]); the store therefore takes as a parameter what it does to
    the row of the parent task after a subtask row is written, given the
    subtask rows of that task. *)

Definition Trigger := list SubTaskRow -> TaskRow -> TaskRow.

(** No trigger fires. *)
Definition no_trigger : Trigger := fun _ parent => parent.

(** [ROUND(COALESCE(AVG(CASE WHEN done THEN 100 ELSE 0 END), 0), 2)] over the
    subtasks of the task: the percentage of completed subtasks, rounded half
    up to two decimals, and [0] when the task has no subtask. *)
Definition average_done (rows : list SubTaskRow) : Q :=
  let total := Z.of_nat (List.length rows) in
  let done := Z.of_nat (List.length (filter sb_completed rows)) in
  if total =? 0 then 0%Q
  else Qmake ((2 * (10000 * done) + total) / (2 * total)) 100.

Definition set_tk_progress (v : Q) (r : TaskRow) : TaskRow :=
  {| tk_id := tk_id r; tk_phase_code := tk_phase_code r; tk_page_id := tk_page_id r;
     tk_title := tk_title r; tk_description := tk_description r;
     tk_priority := tk_priority r; tk_owner_uuid := tk_owner_uuid r;
     tk_progress := v; tk_created_by := tk_created_by r;
     tk_created_at := tk_created_at r; tk_updated_at := tk_updated_at r;
     tk_planned_start := tk_planned_start r; tk_planned_end := tk_planned_end r |}.

Definition set_tk_updated_at (v : Z) (r : TaskRow) : TaskRow :=
  {| tk_id := tk_id r; tk_phase_code := tk_phase_code r; tk_page_id := tk_page_id r;
     tk_title := tk_title r; tk_description := tk_description r;
     tk_priority := tk_priority r; tk_owner_uuid := tk_owner_uuid r;
     tk_progress := tk_progress r; tk_created_by := tk_created_by r;
     tk_created_at := tk_created_at r; tk_updated_at := v;
     tk_planned_start := tk_planned_start r; tk_planned_end := tk_planned_end r |}.

(** The trigger of the migration, when it fires at instant [now]:
    [fn_task_progress] runs [UPDATE task SET progress = ... WHERE id =
    NEW.task_id], always, and the [BEFORE UPDATE] trigger [task_updated] of
    [task] stamps [updated_at]. *)
Definition fn_task_progress (now : Z) : Trigger := fun rows parent =>
  set_tk_updated_at now (set_tk_progress (average_done rows) parent).

(** The effect of the trigger for a written subtask row of task [t]. *)
Definition fire (rule : Trigger) (t : string) (d : DB) : DB :=
  with_task
    (map (fun r => if task_is t r
                   then rule (filter (subtask_of t) (subtask d)) r
                   else r)
         (task d))
    d.

(** *** Statements *)

Definition insert_task (r : TaskRow) (d : DB) : Result DB :=
  if existsb (task_is (tk_id r)) (task d)
  then failure "duplicate key value violates unique constraint task_pkey"
  else success (with_task (task d ++ [r]) d).

Definition insert_subtask (rule : Trigger) (r : SubTaskRow) (d : DB) : Result DB :=
  if existsb (subtask_is (sb_id r)) (subtask d)
  then failure "duplicate key value violates unique constraint subtask_pkey"
  else success (fire rule (sb_task_id r) (with_subtask (subtask d ++ [r]) d)).

Definition insert_task_raci (r : RaciRow) (d : DB) : Result DB :=
  if existsb (raci_key (rc_entity r) (rc_user_uuid r)) (task_raci d)
  then failure "duplicate key value violates unique constraint task_raci_pkey"
  else success (with_task_raci (task_raci d ++ [r]) d).

Definition insert_subtask_raci (r : RaciRow) (d : DB) : Result DB :=
  if existsb (raci_key (rc_entity r) (rc_user_uuid r)) (subtask_raci d)
  then failure "duplicate key value violates unique constraint subtask_raci_pkey"
  else success (with_subtask_raci (subtask_raci d ++ [r]) d).

Definition insert_task_profile (r : TaskProfileRow) (d : DB) : Result DB :=
  if existsb (profile_link (tp_task_id r) (tp_profile_code r)) (task_profile d)
  then failure "duplicate key value violates unique constraint task_profile_pkey"
  else success (with_task_profile (task_profile d ++ [r]) d).

(** An [insert] of an array of rows is one statement: it inserts all of
    them or throws. *)
Fixpoint insert_all {Row} (ins : Row -> DB -> Result DB) (rows : list Row) (d : DB)
  : Result DB :=
  match rows with
  | [] => success d
  | r :: rest =>
      match ins r d with
      | failure e => failure e
      | success d' => insert_all ins rest d'
      end
  end.

(** [.orderBy('created_at', 'desc').first()]: the row with the greatest
    [created_at]; among equal ones the earliest of the table. *)
Fixpoint latest {Row} (key : Row -> Z) (rows : list Row) : option Row :=
  match rows with
  | [] => None
  | r :: rest =>
      match latest key rest with
      | Some r' => if key r <? key r' then Some r' else Some r
      | None => Some r
      end
  end.

(** *** Deletions

    The foreign keys of the schema migration are declared [ON DELETE
    CASCADE]: [subtask.task_id], [task_raci.task_id] and
    [task_profile.task_id] towards [task], [subtask_raci.subtask_id] towards
    [subtask]. A [delete] answers the number of rows of its own table that
    it removed. The subtask trigger is declared for [INSERT] and [UPDATE]
    only: a deletion does not fire it. *)

(** The RACI row belongs to one of the deleted subtasks. *)
Definition orphaned (gone : list SubTaskRow) (r : RaciRow) : bool :=
  existsb (fun s => String.eqb (sb_id s) (rc_entity r)) gone.

(** [delete from subtask where p], with its cascade. *)
Definition delete_subtasks (p : SubTaskRow -> bool) (d : DB) : nat * DB :=
  let gone := filter p (subtask d) in
  (List.length gone,
   with_subtask_raci (filter (fun r => negb (orphaned gone r)) (subtask_raci d))
     (with_subtask (filter (fun r => negb (p r)) (subtask d)) d)).

(** The identifier is the one of a deleted task. *)
Definition of_deleted (gone : list TaskRow) (i : string) : bool :=
  existsb (fun t => String.eqb (tk_id t) i) gone.

(** [delete from task where p], with its cascades. *)
Definition delete_tasks (p : TaskRow -> bool) (d : DB) : nat * DB :=
  let gone := filter p (task d) in
  (List.length gone,
   snd (delete_subtasks (fun s => of_deleted gone (sb_task_id s))
          (with_task_profile
             (filter (fun r => negb (of_deleted gone (tp_task_id r))) (task_profile d))
             (with_task_raci
                (filter (fun r => negb (of_deleted gone (rc_entity r))) (task_raci d))
                (with_task (filter (fun r => negb (p r)) (task d)) d))))).

(* ===================================================================== *)
(** ** Effects: the store, the real-time broker and thrown errors

    One trace records, in the order they happen, the events handed to the
    real-time broker ([ports/ws/IRealtimeBroker.ts]) and the boundaries of
    the database transactions. An asynchronous function is a function of
    the world that returns a value or throws. *)
(* ===================================================================== *)

Inductive Event : Type :=
| TransactionBegin
| TransactionCommit
| TransactionRollback
| TaskCreated (t : TaskDTO)
| TaskUpdated (t : TaskDTO)
| TaskDeleted (taskId : string)
| SubTaskUpdated (s : SubTaskDTO)
| TaskLocked (taskId uuid who : string)
| TaskUnlocked (taskId : string).

Record World : Type := mkWorld {
  db : DB;
  trace : list Event
}.

Definition M (T : Type) : Type := World -> Outcome T * World.

Definition ret {T} (v : T) : M T := fun w => (Ret v, w).

Definition bind {T U} (m : M T) (k : T -> M U) : M U :=
  fun w =>
    match m w with
    | (Ret v, w') => k v w'
    | (Throw e, w') => (Throw e, w')
    end.

Declare Scope knex_scope.
Delimit Scope knex_scope with knex.
Notation "x <- c1 ;; c2" := (bind c1 (fun x => c2))
  (at level 61, c1 at next level, right associativity) : knex_scope.
Notation "c1 ;; c2" := (bind c1 (fun _ => c2))
  (at level 61, right associativity) : knex_scope.
Local Open Scope knex_scope.

Definition throw {T} (e : Error) : M T := fun w => (Throw e, w).

(** A [select]: it reads the store. *)
Definition query {T} (f : DB -> T) : M T := fun w => (Ret (f (db w)), w).

(** An [insert], [update] or [delete]: it changes the store or throws and
    leaves it as it was. *)
Definition exec (f : DB -> Result DB) : M unit :=
  fun w =>
    match f (db w) with
    | success d => (Ret tt, {| db := d; trace := trace w |})
    | failure e => (Throw e, w)
    end.

(** A [delete] or an [update] whose number of affected rows the caller
    reads. *)
Definition affected (f : DB -> nat * DB) : M nat :=
  fun w => (Ret (fst (f (db w))), {| db := snd (f (db w)); trace := trace w |}).

(** A call of the real-time broker. *)
Definition emit (ev : Event) : M unit :=
  fun w => (Ret tt, {| db := db w; trace := trace w ++ [ev] |}).

(** [try { return await m } catch (error) { return Result.failure(error) }] *)
Definition catch {T} (m : M (Result T)) : M (Result T) :=
  fun w =>
    match m w with
    | (Throw e, w') => (Ret (failure e), w')
    | r => r
    end.

(** [for (const x of xs) { await body(x) }] *)
Fixpoint forEach {T} (xs : list T) (body : T -> M unit) : M unit :=
  match xs with
  | [] => ret tt
  | x :: rest => body x ;; forEach rest body
  end.

(** One call of a use case happens at one instant, draws one fresh
    identifier, and its [COMMIT], if it comes to one, succeeds ([None]) or
    fails with an error. *)
Record Env : Type := mkEnv {
  env_now : Z;
  env_fresh : string;
  env_commit : option Error
}.

(** [knex.transaction(callback)]: the callback runs on the store; when its
    promise resolves the transaction is committed, whatever the value; when
    it rejects, or when the commit fails, the store is rolled back to what it
    was at the beginning and the error is thrown again. *)
Definition knex_transaction {T} (E : Env) (callback : M T) : M T :=
  fun w =>
    match callback {| db := db w; trace := trace w ++ [TransactionBegin] |} with
    | (Ret v, w') =>
        match env_commit E with
        | None => (Ret v, {| db := db w'; trace := trace w' ++ [TransactionCommit] |})
        | Some e => (Throw e, {| db := db w; trace := trace w' ++ [TransactionRollback] |})
        end
    | (Throw e, w') => (Throw e, {| db := db w; trace := trace w' ++ [TransactionRollback] |})
    end.

(* ===================================================================== *)
(** ** adapters/db/knex: the repositories *)
(* ===================================================================== *)

Module BaseKnexRepository.

(** [transaction]: [knex.transaction] under a [try]/[catch]. *)
Definition transaction {T} (E : Env) (callback : M (Result T)) : M (Result T) :=
  catch (knex_transaction E callback).

(** [executeQuery] *)
Definition executeQuery {T} (queryFn : M (Result T)) : M (Result T) := catch queryFn.

End BaseKnexRepository.

(** [adapters/db/knex/KnexTransactionService.ts] *)
Module KnexTransactionService.

(** [executeInTransaction]: a failure of the handler is thrown inside the
    transaction. *)
Definition executeInTransaction {T} (E : Env) (handler : M (Result T)) : M (Result T) :=
  catch (
    result <- knex_transaction E (
                opResult <- handler ;;
                match opResult with
                | failure e => throw e
                | success v => ret v
                end) ;;
    ret (success result)).

End KnexTransactionService.

Module TaskKnexRepository.

Definition toDomain (E : Env) (record : TaskRow) : Result Task :=
  TaskEntity.create (env_now E) (env_fresh E)
    {| p_id := Some (tk_id record);
       p_phaseCode := tk_phase_code record;
       p_pageId := tk_page_id record;
       p_title := tk_title record;
       p_description := tk_description record;
       p_priority := tk_priority record;
       p_ownerUuid := tk_owner_uuid record;
       p_progress := tk_progress record;
       p_createdBy := tk_created_by record;
       p_createdAt := Some (tk_created_at record);
       p_updatedAt := Some (tk_updated_at record);
       p_plannedStart := tk_planned_start record;
       p_plannedEnd := tk_planned_end record |}.

Definition findById (E : Env) (d : DB) (i : string) : Result Task :=
  match find (task_is i) (task d) with
  | None => failure ("Task with ID " ++ i ++ " not found")
  | Some record => toDomain E record
  end.


(** The [update] of [save]. *)
Definition updated (E : Env) (dto : TaskDTO) (r : TaskRow) : TaskRow :=
  {| tk_id := tk_id r; tk_phase_code := phaseCode dto;
     tk_page_id := orKept (pageId dto) (tk_page_id r);
     tk_title := title dto;
     tk_description := orKept (description dto) (tk_description r);
     tk_priority := priority dto;
     tk_owner_uuid := orKept (ownerUuid dto) (tk_owner_uuid r);
     tk_progress := progress dto; tk_created_by := tk_created_by r;
     tk_created_at := tk_created_at r; tk_updated_at := env_now E;
     tk_planned_start := orKept (plannedStart dto) (tk_planned_start r);
     tk_planned_end := orKept (plannedEnd dto) (tk_planned_end r) |}.

(** The row that [save] inserts. *)
Definition inserted (E : Env) (dto : TaskDTO) : TaskRow :=
  {| tk_id := id dto; tk_phase_code := phaseCode dto; tk_page_id := pageId dto;
     tk_title := title dto; tk_description := description dto;
     tk_priority := priority dto; tk_owner_uuid := ownerUuid dto;
     tk_progress := progress dto; tk_created_by := createdBy dto;
     tk_created_at := createdAt dto; tk_updated_at := env_now E;
     tk_planned_start := plannedStart dto; tk_planned_end := plannedEnd dto |}.

(** [save]; [inTrx] tells whether the caller passed its transaction. *)
Definition save (E : Env) (t : Task) (inTrx : bool) : M (Result Task) :=
  BaseKnexRepository.executeQuery (
    let dto := TaskEntity.toObject t in
    exists_ <- query (fun d => find (task_is (id dto)) (task d)) ;;
    match exists_ with
    | Some _ =>
        exec (fun d =>
                success (with_task
                           (map (fun r => if task_is (id dto) r then updated E dto r else r)
                                (task d)) d))
    | None => exec (insert_task (inserted E dto))
    end ;;
    if inTrx then
      record <- query (fun d => find (task_is (id dto)) (task d)) ;;
      match record with
      | None => ret (failure ("Task with ID " ++ id dto ++ " not found after save"))
      | Some r => ret (toDomain E r)
      end
    else query (fun d => findById E d (id dto))).

Definition delete (i : string) : M (Result unit) :=
  BaseKnexRepository.executeQuery (
    deleted <- affected (delete_tasks (task_is i)) ;;
    if Nat.eqb deleted 0 then ret (failure ("Task with ID " ++ i ++ " not found"))
    else ret (success tt)).

Definition deleteMany (ids : list string) : M (Result unit) :=
  BaseKnexRepository.executeQuery (
    if Nat.eqb (List.length ids) 0 then ret (success tt)
    else
      affected (delete_tasks (fun r => existsb (String.eqb (tk_id r)) ids)) ;;
      ret (success tt)).

End TaskKnexRepository.

Module SubTaskKnexRepository.

Definition toDomain (E : Env) (record : SubTaskRow) : Result SubTask :=
  SubTaskEntity.create (env_now E) (env_fresh E)
    {| sp_id := Some (sb_id record);
       sp_taskId := sb_task_id record;
       sp_title := sb_title record;
       sp_description := sb_description record;
       sp_completed := sb_completed record;
       sp_createdBy := sb_created_by record;
       sp_createdAt := Some (sb_created_at record);
       sp_updatedAt := Some (sb_updated_at record) |}.

Definition findById (E : Env) (d : DB) (i : string) : Result SubTask :=
  match find (subtask_is i) (subtask d) with
  | None => failure ("SubTask with ID " ++ i ++ " not found")
  | Some record => toDomain E record
  end.

(** The [update] of [save]: title, description, completed, updated_at. *)
Definition saved (E : Env) (dto : SubTaskDTO) (r : SubTaskRow) : SubTaskRow :=
  {| sb_id := sb_id r; sb_task_id := sb_task_id r;
     sb_title := st_title dto;
     sb_description := orKept (st_description dto) (sb_description r);
     sb_completed := st_completed dto; sb_created_by := sb_created_by r;
     sb_created_at := sb_created_at r; sb_updated_at := env_now E |}.

(** The trigger runs once for each row the statement wrote. *)
Definition fire_each (rule : Trigger) (written : list SubTaskRow) (d : DB) : DB :=
  fold_left (fun acc r => fire rule (sb_task_id r) acc) written d.

Definition update_where_id (rule : Trigger) (E : Env) (dto : SubTaskDTO) (d : DB)
  : Result DB :=
  success
    (fire_each rule (filter (subtask_is (st_id dto)) (subtask d))
       (with_subtask
          (map (fun r => if subtask_is (st_id dto) r then saved E dto r else r) (subtask d))
          d)).

Definition save (rule : Trigger) (E : Env) (s : SubTask) : M (Result SubTask) :=
  BaseKnexRepository.executeQuery (
    let dto := SubTaskEntity.toObject s in
    exists_ <- query (fun d => find (subtask_is (st_id dto)) (subtask d)) ;;
    match exists_ with
    | Some _ => exec (update_where_id rule E dto)
    | None =>
        exec (insert_subtask rule
                {| sb_id := st_id dto; sb_task_id := st_taskId dto;
                   sb_title := st_title dto; sb_description := st_description dto;
                   sb_completed := st_completed dto; sb_created_by := st_createdBy dto;
                   sb_created_at := env_now E; sb_updated_at := env_now E |})
    end ;;
    query (fun d => findById E d (st_id dto))).


Definition delete (i : string) : M (Result unit) :=
  BaseKnexRepository.executeQuery (
    deleted <- affected (delete_subtasks (subtask_is i)) ;;
    if Nat.eqb deleted 0 then ret (failure ("SubTask with ID " ++ i ++ " not found"))
    else ret (success tt)).

Definition deleteByTaskId (taskId : string) : M (Result unit) :=
  BaseKnexRepository.executeQuery (
    affected (delete_subtasks (subtask_of taskId)) ;;
    ret (success tt)).

(** The [update] of [toggleDone]: completed, updated_at. *)
Definition toggled (E : Env) (done : bool) (r : SubTaskRow) : SubTaskRow :=
  {| sb_id := sb_id r; sb_task_id := sb_task_id r;
     sb_title := sb_title r; sb_description := sb_description r;
     sb_completed := done; sb_created_by := sb_created_by r;
     sb_created_at := sb_created_at r; sb_updated_at := env_now E |}.

Definition toggle_where_id (rule : Trigger) (E : Env) (i : string) (done : bool) (d : DB)
  : nat * DB :=
  (List.length (filter (subtask_is i) (subtask d)),
   fire_each rule (filter (subtask_is i) (subtask d))
     (with_subtask
        (map (fun r => if subtask_is i r then toggled E done r else r) (subtask d))
        d)).

Definition toggleDone (rule : Trigger) (E : Env) (i : string) (done : bool)
  : M (Result SubTask) :=
  BaseKnexRepository.executeQuery (
    updated <- affected (toggle_where_id rule E i done) ;;
    if Nat.eqb updated 0 then ret (failure ("SubTask with ID " ++ i ++ " not found"))
    else query (fun d => findById E d i)).

(** [Number(count)] of the count of rows that a [count] query answers. *)
Definition toNumber (n : nat) : float :=
  PrimFloat.of_uint63 (Uint63.of_Z (Z.of_nat n)).

(** The number that an integer is. *)
Definition of_integer (n : Z) : float :=
  if n <? 0 then PrimFloat.opp (PrimFloat.of_uint63 (Uint63.of_Z (- n)))
  else PrimFloat.of_uint63 (Uint63.of_Z n).

(** [Math.round]: the integer closest to [x], the greater one when two are
    equally close; what is integral, infinite or not a number is returned
    as it is. *)
Definition Math_round (x : float) : float :=
  match Prim2SF x with
  | S754_finite s m e =>
      if 0 <=? e then x
      else
        let unit := 2 ^ (- e) in
        let n := (2 * (if s then Z.neg m else Z.pos m) + unit) / (2 * unit) in
        if ((n =? 0) && s)%bool then PrimFloat.neg_zero else of_integer n
  | _ => x
  end.

(** [calculateTaskProgress] *)
Definition calculateTaskProgress (d : DB) (taskId : string) : Result float :=
  let total := List.length (filter (subtask_of taskId) (subtask d)) in
  if PrimFloat.eqb (toNumber total) PrimFloat.zero then success PrimFloat.zero
  else
    let completed :=
      List.length (filter sb_completed (filter (subtask_of taskId) (subtask d))) in
    success (Math_round (PrimFloat.mul (PrimFloat.div (toNumber completed) (toNumber total))
                           (toNumber 100))).

End SubTaskKnexRepository.

Module RaciKnexRepository.

Definition task_entry (record : RaciRow) : RaciEntry :=
  {| re_id := "task-" ++ rc_entity record ++ "-" ++ rc_user_uuid record;
     re_taskId := Some (rc_entity record);
     re_subtaskId := None;
     userUuid := rc_user_uuid record;
     letter := rc_letter record |}.

Definition subtask_entry (record : RaciRow) : RaciEntry :=
  {| re_id := "subtask-" ++ rc_entity record ++ "-" ++ rc_user_uuid record;
     re_taskId := None;
     re_subtaskId := Some (rc_entity record);
     userUuid := rc_user_uuid record;
     letter := rc_letter record |}.

(** [findByTaskId] and [findBySubTaskId] declare a [number] and hand what
    they receive to the [where] clause: the controllers pass the string
    identifier, the service passes [Number(id)]. *)
Definition findByTaskId (d : DB) (taskId : JS.value) : Result (list RaciEntry) :=
  success (map task_entry (filter (raci_for taskId) (task_raci d))).

Definition findBySubTaskId (d : DB) (subtaskId : JS.value) : Result (list RaciEntry) :=
  success (map subtask_entry (filter (raci_for subtaskId) (subtask_raci d))).

(** [update({ letter, updated_at: new Date() })] *)
Definition relettered (E : Env) (l : RaciLetter.t) (r : RaciRow) : RaciRow :=
  {| rc_entity := rc_entity r; rc_user_uuid := rc_user_uuid r; rc_letter := l;
     rc_created_at := rc_created_at r; rc_updated_at := Some (env_now E) |}.

Definition reletter (E : Env) (e u : string) (l : RaciLetter.t) (rows : list RaciRow)
  : list RaciRow :=
  map (fun r => if raci_key e u r then relettered E l r else r) rows.

Definition new_row (e u : string) (l : RaciLetter.t) : RaciRow :=
  {| rc_entity := e; rc_user_uuid := u; rc_letter := l;
     rc_created_at := None; rc_updated_at := None |}.

Definition saveTaskRaci (E : Env) (taskId user : string) (l : RaciLetter.t)
  : M (Result unit) :=
  BaseKnexRepository.executeQuery (
    existing <- query (fun d => find (raci_key taskId user) (task_raci d)) ;;
    match existing with
    | Some _ =>
        exec (fun d => success (with_task_raci (reletter E taskId user l (task_raci d)) d))
    | None => exec (insert_task_raci (new_row taskId user l))
    end ;;
    ret (success tt)).

Definition saveSubTaskRaci (E : Env) (subtaskId user : string) (l : RaciLetter.t)
  : M (Result unit) :=
  BaseKnexRepository.executeQuery (
    existing <- query (fun d => find (raci_key subtaskId user) (subtask_raci d)) ;;
    match existing with
    | Some _ =>
        exec (fun d =>
                success (with_subtask_raci (reletter E subtaskId user l (subtask_raci d)) d))
    | None => exec (insert_subtask_raci (new_row subtaskId user l))
    end ;;
    ret (success tt)).

Definition deleteAllForTask (taskId : string) : M (Result unit) :=
  BaseKnexRepository.executeQuery (
    exec (fun d =>
            success (with_task_raci
                       (filter (fun r => negb (raci_of taskId r)) (task_raci d)) d)) ;;
    ret (success tt)).

Definition deleteAllForSubTask (subtaskId : string) : M (Result unit) :=
  BaseKnexRepository.executeQuery (
    exec (fun d =>
            success (with_subtask_raci
                       (filter (fun r => negb (raci_of subtaskId r)) (subtask_raci d)) d)) ;;
    ret (success tt)).

Definition performCopyFromTaskToSubTask (taskId subtaskId : string) : M (Result unit) :=
  taskRacis <- query (fun d => filter (raci_of taskId) (task_raci d)) ;;
  if Nat.eqb (List.length taskRacis) 0 then ret (success tt)
  else
    exec (fun d =>
            success (with_subtask_raci
                       (filter (fun r => negb (raci_of subtaskId r)) (subtask_raci d)) d)) ;;
    let subtaskRacis :=
      map (fun raci => new_row subtaskId (rc_user_uuid raci) (rc_letter raci)) taskRacis in
    (if Nat.ltb 0 (List.length subtaskRacis)
     then exec (insert_all insert_subtask_raci subtaskRacis)
     else ret tt) ;;
    ret (success tt).

(** [copyFromTaskToSubTask]; [inTrx] tells whether the caller passed its
    transaction. *)
Definition copyFromTaskToSubTask (E : Env) (taskId subtaskId : string) (inTrx : bool)
  : M (Result unit) :=
  catch (
    if inTrx then performCopyFromTaskToSubTask taskId subtaskId
    else BaseKnexRepository.transaction E
           (performCopyFromTaskToSubTask taskId subtaskId)).

End RaciKnexRepository.

Module ProfileKnexRepository.

Definition toDomain (record : ProfileRow) : Result Profile :=
  ProfileEntity.create (pf_code record) (pf_name record).

Definition findByCode (d : DB) (c : string) : Result Profile :=
  match find (fun r => String.eqb (pf_code r) c) (profile d) with
  | None => failure ("Profile with code " ++ c ++ " not found")
  | Some record => toDomain record
  end.


(** The loop that maps the records to entities and returns the first
    failure. *)
Fixpoint entities (records : list ProfileRow) : Result (list Profile) :=
  match records with
  | [] => success []
  | record :: rest =>
      match toDomain record with
      | failure e => failure e
      | success p =>
          match entities rest with
          | failure e => failure e
          | success ps => success (p :: ps)
          end
      end
  end.

(** [profile] joined with [task_profile] on the code, for one task. *)
Definition joined (d : DB) (taskId : string) : list ProfileRow :=
  flat_map (fun p => map (fun _ => p)
                         (filter (profile_link taskId (pf_code p)) (task_profile d)))
           (profile d).

Definition findByTaskId (d : DB) (taskId : string) : Result (list Profile) :=
  entities (joined d taskId).

Definition associateWithTask (E : Env) (taskId : string) (profileCodes : list string)
  : M (Result unit) :=
  catch (
    BaseKnexRepository.transaction E (
      exec (fun d => success (with_task_profile
                                (filter (fun r => negb (profile_of taskId r))
                                        (task_profile d)) d)) ;;
      (if Nat.ltb 0 (List.length profileCodes)
       then exec (insert_all insert_task_profile
                    (map (fun c => {| tp_task_id := taskId; tp_profile_code := c;
                                      tp_created_at := env_now E |}) profileCodes))
       else ret tt) ;;
      ret (success tt))).

(** The [where] of [removeFromTask]: the task, and the codes when some are
    given. *)
Definition removed (taskId : string) (profileCodes : option (list string))
  (r : TaskProfileRow) : bool :=
  (profile_of taskId r
   && match profileCodes with
      | Some codes =>
          if Nat.ltb 0 (List.length codes)
          then existsb (String.eqb (tp_profile_code r)) codes
          else true
      | None => true
      end)%bool.

Definition removeFromTask (taskId : string) (profileCodes : option (list string))
  : M (Result unit) :=
  BaseKnexRepository.executeQuery (
    exec (fun d => success (with_task_profile
                              (filter (fun r => negb (removed taskId profileCodes r))
                                      (task_profile d)) d)) ;;
    ret (success tt)).

End ProfileKnexRepository.

(* ===================================================================== *)
(** ** core/services/TaskService.ts *)
(* ===================================================================== *)

Record RaciInput : Type := mkRaciInput {
  in_R : option (list string);
  in_A : option (list string);
  in_C : option (list string);
  in_I : option (list string)
}.

Record CreateTaskInput : Type := mkCreateTaskInput {
  ci_phaseCode : string;
  ci_pageId : option string;
  ci_title : string;
  ci_description : option string;
  ci_priority : Z;
  ci_ownerUuid : option string;
  ci_profilesImpacted : option (list string);
  ci_raci : option RaciInput
}.

Record UpdateTaskInput : Type := mkUpdateTaskInput {
  ui_phaseCode : option string;
  ui_pageId : option string;
  ui_title : option string;
  ui_description : option string;
  ui_priority : option Z;
  ui_ownerUuid : option string;
  ui_plannedStart : option Z;
  ui_plannedEnd : option Z;
  ui_profilesImpacted : option (list string);
  ui_raci : option RaciInput
}.

Record RaciMap : Type := mkRaciMap {
  raci_R : list string;
  raci_A : list string;
  raci_C : list string;
  raci_I : list string
}.

(** [TaskWithRaciDTO]: the fields of the task, then the RACI map, the
    subtasks and the profile codes. *)
Record TaskWithRaciDTO : Type := mkTaskWithRaciDTO {
  twr_task : TaskDTO;
  twr_raci : RaciMap;
  twr_subtasks : list SubTaskDTO;
  twr_profilesImpacted : list string
}.

Record SubTaskWithRaciDTO : Type := mkSubTaskWithRaciDTO {
  swr_subtask : SubTaskDTO;
  swr_raci : RaciMap
}.

Record CreateTaskResponse : Type := mkCreateTaskResponse {
  ctr_task : TaskWithRaciDTO;
  ctr_message : string
}.

Record UpdateTaskResponse : Type := mkUpdateTaskResponse {
  utr_task : TaskWithRaciDTO;
  utr_message : string
}.

Record CreateSubTaskResponse : Type := mkCreateSubTaskResponse {
  csr_subtask : SubTaskWithRaciDTO;
  csr_message : string
}.

Module TaskService.

(** [isTaskLocked]: no lock is stored; the answer is constant. *)
Definition isTaskLocked (taskId userUuid : string) : Result LockInfo :=
  success {| locked := false; lockedBy := None |}.

(** [lockTaskForEditing] and [unlockTaskAfterEditing]: no lock is stored;
    they tell the broker. *)
Definition lockTaskForEditing (taskId userUuid userName : string) : M (Result unit) :=
  catch (emit (TaskLocked taskId userUuid userName) ;; ret (success tt)).

Definition unlockTaskAfterEditing (taskId : string) : M (Result unit) :=
  catch (emit (TaskUnlocked taskId) ;; ret (success tt)).

(** The loop over [raciAssignments] that sets [hasPermission] and breaks. *)
Definition hasPermission (raciAssignments : list RaciEntry) (user : string) : bool :=
  existsb (fun raci => (String.eqb (userUuid raci) user
                        && letter_R_or_A (letter raci))%bool) raciAssignments.

Definition canModifyTask (P : Ports) (taskId user userRole : string) : Result bool :=
  if elevated userRole then success true
  else
    match awaited (taskRepository_findById P taskId) with
    | failure e => failure e
    | success task =>
        if isOwner task user then success true
        else
          match awaited (raciRepository_findByTaskId P (Number P taskId)) with
          | failure e => failure e
          | success raciAssignments =>
              if negb (hasPermission raciAssignments user) then success false
              else
                match isTaskLocked taskId user with
                | failure e => failure e
                | success lockInfo =>
                    if (locked lockInfo && lockedBy_other lockInfo user)%bool
                    then failure (lock_conflict_message taskId)
                    else success true
                end
          end
    end.

Definition canChangePhase (P : Ports) (taskId user userRole : string) : Result bool :=
  if elevated userRole then success true
  else
    match awaited (taskRepository_findById P taskId) with
    | failure e => failure e
    | success task =>
        if isOwner task user then success true else success false
    end.


(** The repositories the service was constructed with, read at the store
    [d], and the [Number] of the language: the RACI repository receives the
    number that the identifier reads as. *)
Definition ports (E : Env) (d : DB) : Ports :=
  {| Number := JS.Number;
     taskRepository_findById := fun i => Ret (TaskKnexRepository.findById E d i);
     raciRepository_findByTaskId :=
       fun n => Ret (RaciKnexRepository.findByTaskId d (JS.Num n)) |}.

Definition users_of (raci : RaciInput) (l : RaciLetter.t) : option (list string) :=
  match l with
  | RaciLetter.R => in_R raci
  | RaciLetter.A => in_A raci
  | RaciLetter.C => in_C raci
  | RaciLetter.I => in_I raci
  end.

Definition letters : list RaciLetter.t :=
  [RaciLetter.R; RaciLetter.A; RaciLetter.C; RaciLetter.I].

Definition stamped_row (E : Env) (e u : string) (l : RaciLetter.t) : RaciRow :=
  {| rc_entity := e; rc_user_uuid := u; rc_letter := l;
     rc_created_at := Some (env_now E); rc_updated_at := Some (env_now E) |}.

(** The loops that insert one [task_raci] row for each user of each letter. *)
Definition insertRaci (E : Env) (taskId : string) (raci : RaciInput) : M unit :=
  forEach letters (fun l =>
    match users_of raci l with
    | Some users =>
        if Nat.ltb 0 (List.length users)
        then forEach users (fun u => exec (insert_task_raci (stamped_row E taskId u l)))
        else ret tt
    | None => ret tt
    end).

Definition profileRows (E : Env) (taskId : string) (codes : list string)
  : list TaskProfileRow :=
  map (fun c => {| tp_task_id := taskId; tp_profile_code := c;
                   tp_created_at := env_now E |}) codes.

Definition users_with (l : RaciLetter.t) (rows : list RaciRow) : list string :=
  map rc_user_uuid (filter (fun r => RaciLetter.eqb (rc_letter r) l) rows).

(** The RACI map of a response, built from the rows of a [select]. *)
Definition organise (rows : list RaciRow) : RaciMap :=
  {| raci_R := users_with RaciLetter.R rows;
     raci_A := users_with RaciLetter.A rows;
     raci_C := users_with RaciLetter.C rows;
     raci_I := users_with RaciLetter.I rows |}.

Definition entries_with (l : RaciLetter.t) (es : list RaciEntry) : list string :=
  map userUuid (filter (fun r => RaciLetter.eqb (letter r) l) es).

(** The RACI map of a response, built from the entries of a repository. *)
Definition organise_entries (es : list RaciEntry) : RaciMap :=
  {| raci_R := entries_with RaciLetter.R es;
     raci_A := entries_with RaciLetter.A es;
     raci_C := entries_with RaciLetter.C es;
     raci_I := entries_with RaciLetter.I es |}.

Definition with_id (i : string) (t : TaskDTO) : TaskDTO :=
  {| id := i; phaseCode := phaseCode t; pageId := pageId t; title := title t;
     description := description t; priority := priority t; ownerUuid := ownerUuid t;
     progress := progress t; createdBy := createdBy t; createdAt := createdAt t;
     updatedAt := updatedAt t; plannedStart := plannedStart t;
     plannedEnd := plannedEnd t |}.

Definition task_row (t : Task) : TaskRow :=
  {| tk_id := id t; tk_phase_code := phaseCode t; tk_page_id := pageId t;
     tk_title := title t; tk_description := description t;
     tk_priority := priority t; tk_owner_uuid := ownerUuid t;
     tk_progress := progress t; tk_created_by := createdBy t;
     tk_created_at := createdAt t; tk_updated_at := updatedAt t;
     tk_planned_start := plannedStart t; tk_planned_end := plannedEnd t |}.

(** *** createTask *)

(** The first profile code of the input that the profile repository does
    not find. *)
Definition unknownProfile (d : DB) (input : CreateTaskInput) : option string :=
  match ci_profilesImpacted input with
  | Some codes =>
      if Nat.ltb 0 (List.length codes)
      then find (fun c => isFailure (ProfileKnexRepository.findByCode d c)) codes
      else None
  | None => None
  end.

Definition newTask (E : Env) (input : CreateTaskInput) (creator : string) : Result Task :=
  TaskEntity.create (env_now E) (env_fresh E)
    {| p_id := None;
       p_phaseCode := ci_phaseCode input;
       p_pageId := ci_pageId input;
       p_title := ci_title input;
       p_description := ci_description input;
       p_priority := ci_priority input;
       p_ownerUuid := ci_ownerUuid input;
       p_progress := 0;
       p_createdBy := creator;
       p_createdAt := Some (env_now E);
       p_updatedAt := Some (env_now E);
       p_plannedStart := None;
       p_plannedEnd := None |}.

(** [trx('task').where({ title, created_by, created_at })
    .orderBy('created_at', 'desc').first()] *)
Definition savedTaskRecord (t : Task) (d : DB) : option TaskRow :=
  latest tk_created_at
    (filter (fun r => (String.eqb (tk_title r) (title t)
                       && String.eqb (tk_created_by r) (createdBy t)
                       && (tk_created_at r =? createdAt t))%bool) (task d)).

(** The statements of the callback up to the last [select]: the task row,
    the look-up of its identifier, the RACI rows, the profile rows. They
    return the identifier and the RACI rows read back. *)
Definition createTask_statements (E : Env) (input : CreateTaskInput) (t : Task)
  : M (string * list RaciRow) :=
  exec (insert_task (task_row t)) ;;
  saved <- query (savedTaskRecord t) ;;
  match saved with
  | None => throw "Cannot read properties of undefined (reading 'id')"
  | Some record =>
      let taskId := tk_id record in
      match ci_raci input with
      | Some raci => insertRaci E taskId raci
      | None => ret tt
      end ;;
      match ci_profilesImpacted input with
      | Some codes =>
          if Nat.ltb 0 (List.length codes)
          then exec (insert_all insert_task_profile (profileRows E taskId codes))
          else ret tt
      | None => ret tt
      end ;;
      raciAssignments <- query (fun d => filter (raci_of taskId) (task_raci d)) ;;
      ret (taskId, raciAssignments)
  end.

Definition createTask_callback (E : Env) (input : CreateTaskInput) (creator : string)
  : M (Result CreateTaskResponse) :=
  match newTask E input creator with
  | failure e => ret (failure e)
  | success t =>
      r <- createTask_statements E input t ;;
      let '(taskId, raciAssignments) := r in
      let taskWithRaci :=
        {| twr_task := TaskEntity.toObject t;
           twr_raci := organise raciAssignments;
           twr_subtasks := [];
           twr_profilesImpacted :=
             match ci_profilesImpacted input with Some l => l | None => [] end |} in
      emit (TaskCreated (with_id taskId (TaskEntity.toObject t))) ;;
      ret (success {| ctr_task := taskWithRaci;
                      ctr_message := "Tâche créée avec succès" |})
  end.

Definition createTask (E : Env) (input : CreateTaskInput) (creator : string)
  : M (Result CreateTaskResponse) :=
  catch (
    unknown <- query (fun d => unknownProfile d input) ;;
    match unknown with
    | Some profileCode => ret (failure ("Le profil " ++ profileCode ++ " n'existe pas"))
    | None => BaseKnexRepository.transaction E (createTask_callback E input creator)
    end).

(** *** updateTask *)

Definition forbidden (userRole what taskId needs : string) : Error :=
  "Forbidden - user " ++ userRole ++ " cannot " ++ what ++ " " ++ taskId ++ " " ++ needs.

(** One optional setter of the sequence: a property that is [undefined]
    leaves the entity as it is. *)
Definition whenDefined {V} (v : option V) (setter : V -> Task -> Result unit * Task)
  (t : Task) : Result unit * Task :=
  match v with
  | Some x => setter x t
  | None => (success tt, t)
  end.

(** The change of phase, behind its own gate. *)
Definition changePhase (P : Ports) (E : Env) (taskId user userRole : string)
  (v : option string) (t : Task) : Result unit * Task :=
  match v with
  | Some ph =>
      if negb (String.eqb ph (phaseCode t)) then
        match canChangePhase P taskId user userRole with
        | failure e => (failure e, t)
        | success false =>
            (failure (forbidden userRole "change phase for task" taskId
                        "(needs to be owner, CP or RF)"), t)
        | success true => TaskEntity.updatePhase (env_now E) ph t
        end
      else (success tt, t)
  | None => (success tt, t)
  end.

Definition changeDates (E : Env) (s e : option Z) (t : Task) : Result unit * Task :=
  match s, e with
  | None, None => (success tt, t)
  | _, _ => TaskEntity.updatePlannedDates (env_now E) s e t
  end.

(** Run the setters in order; the first failure ends the sequence. *)
Fixpoint inOrder (steps : list (Task -> Result unit * Task)) (t : Task) : Result Task :=
  match steps with
  | [] => success t
  | step :: rest =>
      match step t with
      | (failure e, _) => failure e
      | (success _, t') => inOrder rest t'
      end
  end.

Definition applyInput (P : Ports) (E : Env) (taskId user userRole : string)
  (input : UpdateTaskInput) (t : Task) : Result Task :=
  inOrder
    [ whenDefined (ui_title input) (TaskEntity.updateTitle (env_now E));
      whenDefined (ui_description input)
        (fun v => TaskEntity.updateDescription (env_now E) (Some v));
      whenDefined (ui_priority input) (TaskEntity.updatePriority (env_now E));
      changePhase P E taskId user userRole (ui_phaseCode input);
      whenDefined (ui_ownerUuid input)
        (fun v => TaskEntity.updateOwner (env_now E) (Some v));
      changeDates E (ui_plannedStart input) (ui_plannedEnd input) ]
    t.

(** [update({ phase_code, page_id, title, ..., progress, updated_at: now,
    planned_start, planned_end })] on the row of the task. *)
Definition updated_row (E : Env) (t : Task) (r : TaskRow) : TaskRow :=
  {| tk_id := tk_id r; tk_phase_code := phaseCode t;
     tk_page_id := orKept (pageId t) (tk_page_id r);
     tk_title := title t;
     tk_description := orKept (description t) (tk_description r);
     tk_priority := priority t;
     tk_owner_uuid := orKept (ownerUuid t) (tk_owner_uuid r);
     tk_progress := progress t; tk_created_by := tk_created_by r;
     tk_created_at := tk_created_at r; tk_updated_at := env_now E;
     tk_planned_start := orKept (plannedStart t) (tk_planned_start r);
     tk_planned_end := orKept (plannedEnd t) (tk_planned_end r) |}.

Definition update_task (E : Env) (taskId : string) (t : Task) (d : DB) : Result DB :=
  success (with_task (map (fun r => if task_is taskId r then updated_row E t r else r)
                          (task d)) d).

Definition delete_task_raci (taskId : string) (d : DB) : Result DB :=
  success (with_task_raci (filter (fun r => negb (raci_of taskId r)) (task_raci d)) d).

Definition delete_task_profile (taskId : string) (d : DB) : Result DB :=
  success (with_task_profile
             (filter (fun r => negb (profile_of taskId r)) (task_profile d)) d).

Definition subtask_dto (st : SubTaskRow) : SubTaskDTO :=
  {| st_id := sb_id st; st_taskId := sb_task_id st; st_title := sb_title st;
     st_description := None; st_completed := sb_completed st;
     st_createdBy := sb_created_by st; st_createdAt := sb_created_at st;
     st_updatedAt := sb_updated_at st |}.

(** [task_profile] joined with [profile] on the code. *)
Definition profiles_joined (taskId : string) (d : DB) : list string :=
  flat_map (fun link =>
              map pf_code
                  (filter (fun p => String.eqb (pf_code p) (tp_profile_code link))
                          (profile d)))
           (filter (profile_of taskId) (task_profile d)).

Definition updateTask_statements (E : Env) (taskId : string) (input : UpdateTaskInput)
  (t : Task) : M TaskWithRaciDTO :=
  exec (update_task E taskId t) ;;
  match ui_raci input with
  | Some raci => exec (delete_task_raci taskId) ;; insertRaci E taskId raci
  | None => ret tt
  end ;;
  match ui_profilesImpacted input with
  | Some codes =>
      exec (delete_task_profile taskId) ;;
      if Nat.ltb 0 (List.length codes)
      then exec (insert_all insert_task_profile (profileRows E taskId codes))
      else ret tt
  | None => ret tt
  end ;;
  raciAssignments <- query (fun d => filter (raci_of taskId) (task_raci d)) ;;
  subtasks <- query (fun d => filter (subtask_of taskId) (subtask d)) ;;
  profiles <- query (profiles_joined taskId) ;;
  ret {| twr_task := TaskEntity.toObject t;
         twr_raci := organise raciAssignments;
         twr_subtasks := map subtask_dto subtasks;
         twr_profilesImpacted := profiles |}.

Definition updateTask_callback (E : Env) (taskId : string) (input : UpdateTaskInput)
  (t : Task) : M (Result UpdateTaskResponse) :=
  taskWithDetails <- updateTask_statements E taskId input t ;;
  emit (TaskUpdated (TaskEntity.toObject t)) ;;
  ret (success {| utr_task := taskWithDetails;
                  utr_message := "Tâche mise à jour avec succès" |}).

Definition updateTask (E : Env) (taskId : string) (input : UpdateTaskInput)
  (user userRole : string) : M (Result UpdateTaskResponse) :=
  catch (
    d <- query (fun d => d) ;;
    match TaskKnexRepository.findById E d taskId with
    | failure e => ret (failure e)
    | success t =>
        match canModifyTask (ports E d) taskId user userRole with
        | failure e => ret (failure e)
        | success false =>
            ret (failure (forbidden userRole "modify task" taskId
                            "(needs R or A or be owner/CP/RF)"))
        | success true =>
            match applyInput (ports E d) E taskId user userRole input t with
            | failure e => ret (failure e)
            | success t' =>
                BaseKnexRepository.transaction E
                  (updateTask_callback E taskId input t')
            end
        end
    end).

(** *** createSubTask *)

Definition subtask_row (E : Env) (s : SubTask) : SubTaskRow :=
  {| sb_id := st_id s; sb_task_id := st_taskId s; sb_title := st_title s;
     sb_description := None; sb_completed := st_completed s;
     sb_created_by := st_createdBy s;
     sb_created_at := env_now E; sb_updated_at := env_now E |}.

(** The subtask rows that the look-up of [createSubTask] selects. *)
Definition same_subtask (s : SubTask) (r : SubTaskRow) : bool :=
  (String.eqb (sb_title r) (st_title s)
   && String.eqb (sb_task_id r) (st_taskId s)
   && String.eqb (sb_created_by r) (st_createdBy s))%bool.

(** [trx('subtask').where({ title, task_id, created_by })
    .orderBy('created_at', 'desc').first()] *)
Definition savedSubtaskRecord (s : SubTask) (d : DB) : option SubTaskRow :=
  latest sb_created_at (filter (same_subtask s) (subtask d)).

(** The statements of the callback: the subtask row, the look-up of its
    identifier, the copy of the RACI rows of the task. They return the
    identifier and the RACI rows of the subtask read back. *)
Definition createSubTask_statements (rule : Trigger) (E : Env) (taskId : string)
  (s : SubTask) : M (string * list RaciRow) :=
  exec (insert_subtask rule (subtask_row E s)) ;;
  saved <- query (savedSubtaskRecord s) ;;
  match saved with
  | None => throw "Cannot read properties of undefined (reading 'id')"
  | Some record =>
      let subtaskId := sb_id record in
      taskRacis <- query (fun d => filter (raci_of taskId) (task_raci d)) ;;
      (if Nat.ltb 0 (List.length taskRacis)
       then exec (insert_all insert_subtask_raci
                    (map (fun raci => stamped_row E subtaskId (rc_user_uuid raci)
                                        (rc_letter raci)) taskRacis))
       else ret tt) ;;
      subtaskRacis <- query (fun d => filter (raci_of subtaskId) (subtask_raci d)) ;;
      ret (subtaskId, subtaskRacis)
  end.

Definition createSubTask_callback (rule : Trigger) (E : Env) (taskId : string)
  (s : SubTask) : M (Result CreateSubTaskResponse) :=
  r <- createSubTask_statements rule E taskId s ;;
  let '(subtaskId, subtaskRacis) := r in
  let subtaskDTO :=
    {| st_id := subtaskId; st_taskId := st_taskId s; st_title := st_title s;
       st_description := None; st_completed := st_completed s;
       st_createdBy := st_createdBy s;
       st_createdAt := env_now E; st_updatedAt := env_now E |} in
  emit (SubTaskUpdated subtaskDTO) ;;
  ret (success {| csr_subtask := {| swr_subtask := subtaskDTO;
                                    swr_raci := organise subtaskRacis |};
                  csr_message := "Sous-tâche créée avec succès" |}).

Definition createSubTask (rule : Trigger) (E : Env) (taskId : string)
  (subtaskTitle : string) (done : option bool) (user userRole : string)
  : M (Result CreateSubTaskResponse) :=
  catch (
    d <- query (fun d => d) ;;
    match TaskKnexRepository.findById E d taskId with
    | failure _ => ret (failure ("Task with ID " ++ taskId ++ " not found"))
    | success _ =>
        match canModifyTask (ports E d) taskId user userRole with
        | failure e => ret (failure e)
        | success false =>
            ret (failure (forbidden userRole "add subtask to task" taskId
                            "(needs R or A or be owner/CP/RF)"))
        | success true =>
            match SubTaskEntity.create (env_now E) (env_fresh E)
                    {| sp_id := None; sp_taskId := taskId; sp_title := subtaskTitle;
                       sp_description := None;
                       sp_completed := match done with Some b => b | None => false end;
                       sp_createdBy := user;
                       sp_createdAt := None; sp_updatedAt := None |} with
            | failure e => ret (failure e)
            | success s =>
                BaseKnexRepository.transaction E
                  (createSubTask_callback rule E taskId s)
            end
        end
    end).

(** *** updateSubTaskStatus *)

Definition updateSubTaskStatus (rule : Trigger) (E : Env) (subtaskId : string)
  (done : bool) (user userRole : string) : M (Result SubTaskWithRaciDTO) :=
  catch (
    d <- query (fun d => d) ;;
    match SubTaskKnexRepository.findById E d subtaskId with
    | failure e => ret (failure e)
    | success s =>
        let taskId := st_taskId s in
        match canModifyTask (ports E d) taskId user userRole with
        | failure e => ret (failure e)
        | success false =>
            ret (failure (forbidden userRole "update subtask" subtaskId
                            "(needs R or A or be owner/CP/RF)"))
        | success true =>
            let s' := if done then SubTaskEntity.markCompleted (env_now E) s
                      else SubTaskEntity.markIncomplete (env_now E) s in
            updatedSubtaskResult <- SubTaskKnexRepository.save rule E s' ;;
            match updatedSubtaskResult with
            | failure e => ret (failure e)
            | success updatedSubtask =>
                raciResult <-
                  query (fun d => RaciKnexRepository.findBySubTaskId d
                                    (JS.Num (JS.Number (st_id updatedSubtask)))) ;;
                let raciAssignments :=
                  match raciResult with success l => l | failure _ => [] end in
                emit (SubTaskUpdated (SubTaskEntity.toObject updatedSubtask)) ;;
                updatedTask <- query (fun d => TaskKnexRepository.findById E d taskId) ;;
                match updatedTask with
                | success t => emit (TaskUpdated (TaskEntity.toObject t))
                | failure _ => ret tt
                end ;;
                ret (success {| swr_subtask := SubTaskEntity.toObject updatedSubtask;
                                swr_raci := organise_entries raciAssignments |})
            end
        end
    end).


(** *** deleteTask *)

Definition deleteTask (E : Env) (taskId user userRole : string) : M (Result unit) :=
  catch (
    d <- query (fun d => d) ;;
    match TaskKnexRepository.findById E d taskId with
    | failure e => ret (failure e)
    | success task =>
        let hasPermission := (elevated userRole || isOwner task user)%bool in
        if negb hasPermission
        then ret (failure (forbidden userRole "delete task" taskId
                             "(needs to be owner, CP or RF)"))
        else
          deleteResult <- TaskKnexRepository.delete taskId ;;
          match deleteResult with
          | failure e => ret (failure e)
          | success _ =>
              emit (TaskDeleted taskId) ;;
              ret (success tt)
          end
    end).

(** *** getTaskById *)


End TaskService.

(* ===================================================================== *)
(** ** Predicates of the specification *)
(* ===================================================================== *)

(** The user holds letter R or A in the entries. *)
Definition holds_R_or_A (entries : list RaciEntry) (user : string) : Prop :=
  exists e, In e entries /\ userUuid e = user
            /\ (letter e = RaciLetter.R \/ letter e = RaciLetter.A).

(** Every letter the user holds in the entries is C or I (none at all when
    the user has no entry). *)
Definition holds_only_C_or_I (entries : list RaciEntry) (user : string) : Prop :=
  forall e, In e entries -> userUuid e = user ->
            letter e = RaciLetter.C \/ letter e = RaciLetter.I.


(** A computation leaves an observation of the world as it was, whether it
    returns or throws. *)
Definition stable {T X} (obs : World -> X) (m : M T) : Prop :=
  forall w o w', m w = (o, w') -> obs w' = obs w.

(** The notifications handed to the broker, among the events of a trace. *)
Definition is_notification (ev : Event) : bool :=
  match ev with
  | TransactionBegin | TransactionCommit | TransactionRollback => false
  | _ => true
  end.

(** The ordering the specification asks for: every notification of the
    trace comes after the commit of the transaction that was open before it
    ([committed] tells whether the last transaction seen has committed). *)
Fixpoint notified_after_commit (committed : bool) (tr : list Event) : bool :=
  match tr with
  | [] => true
  | TransactionBegin :: rest => notified_after_commit false rest
  | TransactionCommit :: rest => notified_after_commit true rest
  | TransactionRollback :: rest => notified_after_commit false rest
  | _ :: rest => (committed && notified_after_commit committed rest)%bool
  end.

(** The responses of the use cases, from what their statements return. *)
Definition createTask_response (input : CreateTaskInput) (t : Task)
  (r : string * list RaciRow) : CreateTaskResponse :=
  {| ctr_task :=
       {| twr_task := TaskEntity.toObject t;
          twr_raci := TaskService.organise (snd r);
          twr_subtasks := [];
          twr_profilesImpacted :=
            match ci_profilesImpacted input with Some l => l | None => [] end |};
     ctr_message := "Tâche créée avec succès" |}.

Definition updateTask_response (dto : TaskWithRaciDTO) : UpdateTaskResponse :=
  {| utr_task := dto; utr_message := "Tâche mise à jour avec succès" |}.

Definition createSubTask_dto (E : Env) (s : SubTask) (subtaskId : string) : SubTaskDTO :=
  {| st_id := subtaskId; st_taskId := st_taskId s; st_title := st_title s;
     st_description := None; st_completed := st_completed s;
     st_createdBy := st_createdBy s;
     st_createdAt := env_now E; st_updatedAt := env_now E |}.

Definition createSubTask_response (E : Env) (s : SubTask) (r : string * list RaciRow)
  : CreateSubTaskResponse :=
  {| csr_subtask := {| swr_subtask := createSubTask_dto E s (fst r);
                       swr_raci := TaskService.organise (snd r) |};
     csr_message := "Sous-tâche créée avec succès" |}.

(** [SubTask.create] as [createSubTask] calls it. *)
Definition newSubTask (E : Env) (taskId subtaskTitle : string) (done : option bool)
  (user : string) : Result SubTask :=
  SubTaskEntity.create (env_now E) (env_fresh E)
    {| sp_id := None; sp_taskId := taskId; sp_title := subtaskTitle;
       sp_description := None;
       sp_completed := match done with Some b => b | None => false end;
       sp_createdBy := user;
       sp_createdAt := None; sp_updatedAt := None |}.

(** What a call of a transactional use case did, from the world [w] it
    started in. Either it succeeded and added to the trace the beginning of
    its transaction, one notification of the expected kind and the commit, in
    this order. Or it failed and the store is as it was: it added nothing to
    the trace, or a transaction that committed without a statement, or a
    transaction rolled back without a notification, or, the commit itself
    having failed, the beginning of the transaction, the notification and the
    rollback. *)
Definition transactional {T} (E : Env) (expected : Event -> Prop) (w : World)
  (out : Outcome (Result T) * World) : Prop :=
  (exists v ev,
      fst out = Ret (success v) /\ expected ev /\ env_commit E = None
      /\ trace (snd out) = (trace w ++ [TransactionBegin; ev; TransactionCommit])%list)
  \/ (exists e,
         fst out = Ret (failure e) /\ db (snd out) = db w
         /\ (trace (snd out) = trace w
             \/ trace (snd out) = (trace w ++ [TransactionBegin; TransactionCommit])%list
             \/ trace (snd out) = (trace w ++ [TransactionBegin; TransactionRollback])%list
             \/ exists ev,
                  expected ev /\ env_commit E = Some e
                  /\ trace (snd out)
                     = (trace w ++ [TransactionBegin; ev; TransactionRollback])%list)).

(** The (user, letter) pairs of a set of RACI rows. *)
Definition raci_pairs (rows : list RaciRow) : list (string * RaciLetter.t) :=
  map (fun r => (rc_user_uuid r, rc_letter r)) rows.

(** The clock of the call is later than the creation of every subtask that
    the look-up of [createSubTask] could confuse with the new one. *)
Definition later_than_namesakes (E : Env) (taskId subtaskTitle user : string) (d : DB)
  : Prop :=
  forall r, In r (subtask d) ->
            sb_title r = subtaskTitle -> sb_task_id r = taskId -> sb_created_by r = user ->
            sb_created_at r < env_now E.

(** The foreign key of [subtask_raci]: its rows belong to stored subtasks. *)
Definition subtask_raci_references (d : DB) : Prop :=
  forall r, In r (subtask_raci d) -> exists s, In s (subtask d) /\ sb_id s = rc_entity r.

(** A call returned a success. *)
Definition succeeded {T} (o : Outcome (Result T)) : bool :=
  match o with
  | Ret (success _) => true
  | _ => false
  end.

(** The stored progress of the task rows of an identifier. *)
Definition stored_progress (d : DB) (taskId : string) : list Q :=
  map tk_progress (filter (task_is taskId) (task d)).

(** The progress as the specification words it:
    round(100 x count(completed subtasks) / count(all subtasks)), rounding
    to the nearest integer, halves upwards. *)
Definition claimed_progress (rows : list SubTaskRow) : Z :=
  let total := Z.of_nat (List.length rows) in
  let done := Z.of_nat (List.length (filter sb_completed rows)) in
  (2 * (100 * done) + total) / (2 * total).

(* ===================================================================== *)
(** ** Predicates of the further properties *)
(* ===================================================================== *)

(** One call of a mutating method of a [SubTask], with its argument. *)
Inductive SubTaskMutation : Type :=
| SubTaskUpdateTitle (v : string)
| SubTaskUpdateDescription (v : option string)
| SubTaskMarkCompleted
| SubTaskMarkIncomplete
| SubTaskToggleCompleted.

Definition applySubTask (now : Z) (m : SubTaskMutation) (s : SubTask)
  : Result unit * SubTask :=
  match m with
  | SubTaskUpdateTitle v => SubTaskEntity.updateTitle now v s
  | SubTaskUpdateDescription v => SubTaskEntity.updateDescription now v s
  | SubTaskMarkCompleted => (success tt, SubTaskEntity.markCompleted now s)
  | SubTaskMarkIncomplete => (success tt, SubTaskEntity.markIncomplete now s)
  | SubTaskToggleCompleted => (success tt, SubTaskEntity.toggleCompleted now s)
  end.

(** Calls in sequence, each at its own instant, on the same entity. *)
Fixpoint applyAllSubTask (calls : list (Z * SubTaskMutation)) (s : SubTask) : SubTask :=
  match calls with
  | [] => s
  | (now, m) :: rest => applyAllSubTask rest (snd (applySubTask now m s))
  end.

(** What every constructed [SubTask] satisfies. *)
Definition subtask_invariant (s : SubTask) : Prop :=
  blank (st_title s) = false
  /\ UUID.isValid (st_taskId s) = true
  /\ UUID.isValid (st_createdBy s) = true.



(** The integer that a number is, when it is one. *)
Definition integer_value (x : float) : option Z :=
  match Prim2SF x with
  | S754_zero _ => Some 0
  | S754_finite s m e =>
      let v := if s then Z.neg m else Z.pos m in
      if 0 <=? e then Some (v * 2 ^ e)
      else if (Z.pos m mod 2 ^ (- e)) =? 0 then Some (v / 2 ^ (- e))
      else None
  | _ => None
  end.

(** The number that [calculateTaskProgress] computes from the count of the
    completed subtasks and the count of all subtasks. *)
Definition computed_progress (completed total : nat) : float :=
  if PrimFloat.eqb (SubTaskKnexRepository.toNumber total) PrimFloat.zero
  then PrimFloat.zero
  else SubTaskKnexRepository.Math_round
         (PrimFloat.mul
            (PrimFloat.div (SubTaskKnexRepository.toNumber completed)
                           (SubTaskKnexRepository.toNumber total))
            100%float).

(** It is an integer between 0 and 100, 0 for no subtask, one of the
    integers nearest to 100 x completed / total, and round(100 x completed /
    total), halves upwards, unless 100 x completed / total is exactly half
    way between two integers. *)
Definition nearest_percentage (completed total v : Z) : bool :=
  ((0 <=? v) && (v <=? 100)
   && (negb (total =? 0) || (v =? 0))
   && (2 * Z.abs (v * total - 100 * completed) <=? total)
   && (((200 * completed) mod (2 * total) =? total)
       || (v =? (2 * (100 * completed) + total) / (2 * total))))%bool.

Definition progress_agrees (completed total : nat) : bool :=
  match integer_value (computed_progress completed total) with
  | Some v => nearest_percentage (Z.of_nat completed) (Z.of_nat total) v
  | None => false
  end.

(** A test holds for every count of completed subtasks up to the total,
    and every total up to a bound. *)
Definition holds_upto (test : nat -> nat -> bool) (bound : nat) : bool :=
  forallb (fun total =>
             forallb (fun completed => test completed total) (seq 0 (S total)))
          (seq 0 (S bound)).


(** The primary key of a RACI row: the entity and the user. A table
    respects it when no two of its rows have the same key. *)
Definition raci_pk (r : RaciRow) : string * string := (rc_entity r, rc_user_uuid r).

(** The rows of a RACI table after [saveTaskRaci] or [saveSubTaskRaci]. *)
Definition raci_saved (E : Env) (e u : string) (l : RaciLetter.t) (rows : list RaciRow)
  : list RaciRow :=
  match find (raci_key e u) rows with
  | Some _ => RaciKnexRepository.reletter E e u l rows
  | None => (rows ++ [RaciKnexRepository.new_row e u l])%list
  end.


(** The (user, letter) pairs a RACI input asks for, in the order in which
    the loops of the use cases insert them: letter by letter, R, A, C, I. *)
Definition asked_pairs (raci : RaciInput) : list (string * RaciLetter.t) :=
  flat_map (fun l => match TaskService.users_of raci l with
                     | Some users => map (fun u => (u, l)) users
                     | None => []
                     end)
           TaskService.letters.







(** No string occurs twice in the list. *)
Fixpoint distinct (l : list string) : bool :=
  match l with
  | [] => true
  | x :: rest => (negb (existsb (String.eqb x) rest) && distinct rest)%bool
  end.

(** The foreign keys of the schema hold in the store: the subtasks, the
    task RACI rows and the profile links belong to stored tasks, the subtask
    RACI rows to stored subtasks, the profile links to profiles of the
    catalogue. *)
Definition references_hold (d : DB) : bool :=
  (forallb (fun s => existsb (task_is (sb_task_id s)) (task d)) (subtask d)
   && forallb (fun r => existsb (task_is (rc_entity r)) (task d)) (task_raci d)
   && forallb (fun l => existsb (task_is (tp_task_id l)) (task d)) (task_profile d)
   && forallb (fun r => existsb (subtask_is (rc_entity r)) (subtask d)) (subtask_raci d)
   && forallb (fun l => existsb (fun p => String.eqb (pf_code p) (tp_profile_code l))
                                (profile d))
              (task_profile d))%bool.


(* ===================================================================== *)
(** ** Sample data *)
(* ===================================================================== *)

Module Sample.

Definition alice : string := "00000000-0000-4000-8000-000000000001".
Definition bob : string := "00000000-0000-4000-8000-000000000002".
Definition taskA : string := "00000000-0000-4000-8000-0000000000a1".
Definition sub1 : string := "00000000-0000-4000-8000-0000000000b1".
Definition sub2 : string := "00000000-0000-4000-8000-0000000000b2".
Definition sub3 : string := "00000000-0000-4000-8000-0000000000b3".

(** A store with the profile catalogue only. *)
Definition empty : World :=
  {| db := {| task := []; subtask := []; task_raci := []; subtask_raci := [];
              task_profile := [];
              profile := [ {| pf_code := "TEC"; pf_name := "Technicien" |} ] |};
     trace := [] |}.

Definition at_ (now : Z) (fresh : string) : Env :=
  {| env_now := now; env_fresh := fresh; env_commit := None |}.

(** The same, for a call whose commit fails. *)
Definition commit_fails (now : Z) (fresh : string) : Env :=
  {| env_now := now; env_fresh := fresh;
     env_commit := Some "Connection terminated unexpectedly" |}.

(** Priority 2, phase D, Alice responsible, Bob consulted, profile TEC. *)
Definition input : CreateTaskInput :=
  {| ci_phaseCode := "D"; ci_pageId := None; ci_title := "Migrate the pages";
     ci_description := None; ci_priority := 2; ci_ownerUuid := None;
     ci_profilesImpacted := Some ["TEC"];
     ci_raci := Some {| in_R := Some [alice]; in_A := None;
                        in_C := Some [bob]; in_I := None |} |}.

(** Alice is named for two letters: the second insertion breaks the key. *)
Definition input_twice : CreateTaskInput :=
  {| ci_phaseCode := "D"; ci_pageId := None; ci_title := "Migrate the pages";
     ci_description := None; ci_priority := 2; ci_ownerUuid := None;
     ci_profilesImpacted := Some ["TEC"];
     ci_raci := Some {| in_R := Some [alice]; in_A := Some [alice];
                        in_C := None; in_I := None |} |}.

(** The entity that [createTask] builds from [input] at instant 1000. *)
Definition created : Task :=
  {| id := taskA; phaseCode := "D"; pageId := None; title := "Migrate the pages";
     description := None; priority := 2; ownerUuid := None; progress := 0;
     createdBy := alice; createdAt := 1000; updatedAt := 1000;
     plannedStart := None; plannedEnd := None |}.

(** A task with both planned dates. *)
Definition planned : Task :=
  {| id := taskA; phaseCode := "D"; pageId := None; title := "Migrate the pages";
     description := None; priority := 2; ownerUuid := None; progress := 0;
     createdBy := alice; createdAt := 1000; updatedAt := 1000;
     plannedStart := Some 2000; plannedEnd := Some 3000 |}.

(** The world after Alice created the task. *)
Definition task_created : World :=
  Eval vm_compute in snd (TaskService.createTask (at_ 1000 taskA) input alice empty).

(** The world after three subtasks were added, none completed, the store
    running no trigger. *)
Definition three_subtasks : World :=
  Eval vm_compute in
    snd (TaskService.createSubTask no_trigger (at_ 4000 sub3) taskA "step3" None alice "CP"
      (snd (TaskService.createSubTask no_trigger (at_ 3000 sub2) taskA "step2" None alice "CP"
        (snd (TaskService.createSubTask no_trigger (at_ 2000 sub1) taskA "step1" None alice
                "CP" task_created))))).

(** The parent task as the repository reads it in [task_created]. *)
Definition stored : Task :=
  Eval vm_compute in
    match TaskKnexRepository.findById (at_ 5000 "") (db task_created) taskA with
    | success t => t
    | failure _ => created
    end.

(** The RACI entries of the task in [task_created]. *)
Definition entries : list RaciEntry :=
  Eval vm_compute in
    match RaciKnexRepository.findByTaskId (db task_created) taskA with
    | success l => l
    | failure _ => []
    end.


(** The properties of a first subtask of the sample task, and the entity
    that [SubTask.create] builds from them at instant 2000. *)
Definition step1_props : SubTaskProps :=
  {| sp_id := None; sp_taskId := taskA; sp_title := "step1";
     sp_description := None; sp_completed := false; sp_createdBy := alice;
     sp_createdAt := None; sp_updatedAt := None |}.

Definition step1 : SubTask :=
  {| st_id := sub1; st_taskId := taskA; st_title := "step1";
     st_description := None; st_completed := false; st_createdBy := alice;
     st_createdAt := 2000; st_updatedAt := 2000 |}.

(** Forty subtasks of the sample task, the first twenty-three completed. *)
Definition forty_subtasks : DB :=
  with_subtask
    (map (fun n =>
            {| sb_id := "00000000-0000-4000-8000-0000000000"
                        ++ UUID.toString16 (N.of_nat (16 + n));
               sb_task_id := taskA; sb_title := "step"; sb_description := None;
               sb_completed := Nat.ltb n 23; sb_created_by := alice;
               sb_created_at := 2000; sb_updated_at := 2000 |})
         (seq 0 40))
    (db task_created).


Definition carol : string := "00000000-0000-4000-8000-000000000003".

(** The sample task after Alice, of role CP, added its subtask [step1] at
    instant 9000 (the subtask took the two RACI rows of the task, Alice
    responsible and Bob consulted) and then, at instant 9500, replaced the
    RACI rows of the task: Carol is accountable, nobody else is named. *)
Definition reassigned : World :=
  Eval vm_compute in
    snd (TaskService.updateTask (at_ 9500 "") taskA
           {| ui_phaseCode := None; ui_pageId := None; ui_title := None;
              ui_description := None; ui_priority := None; ui_ownerUuid := None;
              ui_plannedStart := None; ui_plannedEnd := None;
              ui_profilesImpacted := None;
              ui_raci := Some {| in_R := None; in_A := Some [carol];
                                 in_C := None; in_I := None |} |}
           alice "CP"
           (snd (TaskService.createSubTask no_trigger (at_ 9000 sub1) taskA "step1" None
                   alice "CP" task_created))).
End Sample.
(* ===================================================================== *)
(** * Properties *)
(* ===================================================================== *)

(** ** The Task entity *)

Lemma Qltb_false_le (a b : Q) : Qltb a b = false -> (b <= a)%Q.
Proof.
  unfold Qltb. intro H. apply negb_false_iff in H. now apply Qle_bool_iff.
Qed.

Lemma progress_range (v : Q) :
  (Qltb v 0 || Qltb 100 v)%bool = false -> (0 <= v /\ v <= 100)%Q.
Proof.
  intro H. apply orb_false_iff in H. destruct H as [H0 H1].
  split; now apply Qltb_false_le.
Qed.

Lemma priority_range (v : Z) : Priority.isValid v = true -> 1 <= v <= 5.
Proof. unfold Priority.isValid. intro H. apply andb_true_iff in H. lia. Qed.

Lemma dates_in_order (s e : option Z) :
  TaskEntity.dates_out_of_order s e = false ->
  forall a b, s = Some a -> e = Some b -> a <= b.
Proof.
  intros H a b -> ->. simpl in H. apply Z.ltb_ge in H. exact H.
Qed.


(** On the numbers and the dates of the embedding (integers, rationals and
    instants: NaN and the invalid date are not among them), every mutating
    method of the Task entity validates its argument: on a failure the
    entity is exactly as it was; on a success the argument was acceptable to
    the invariants (priority within 1..5, progress within 0..100, planned
    start not after planned end, title not blank), the invariants still
    hold, and the updated-at timestamp is the instant of the call. *)
Lemma Task_mutation_revalidates (now : Z) (m : TaskEntity.Mutation) (t : Task) :
  TaskEntity.invariant t ->
  match TaskEntity.apply now m t with
  | (failure _, t') => t' = t
  | (success _, t') =>
      TaskEntity.acceptable m /\ TaskEntity.invariant t' /\ updatedAt t' = now
  end.
Proof.
  intros (Hp & Hg & Hd & Ht).
  destruct m as [v|v|v|v|v|v|s e]; simpl.
  - unfold TaskEntity.updatePhase, PhaseCode.new.
    destruct (PhaseCode.isValid v); [|reflexivity].
    repeat split; simpl; try tauto; try lia; try exact Hd.
  - unfold TaskEntity.updateTitle.
    destruct (blank v) eqn:Hb; [reflexivity|].
    repeat split; simpl; try tauto; try lia; try exact Hd.
  - unfold TaskEntity.updateDescription.
    repeat split; simpl; try tauto; try lia; try exact Hd.
  - unfold TaskEntity.updatePriority, Priority.new.
    destruct (Priority.isValid v) eqn:Hv; [|reflexivity].
    apply priority_range in Hv.
    repeat split; simpl; try tauto; try lia; try exact Hd.
  - unfold TaskEntity.updateOwner.
    destruct (TaskEntity.owner_of v); [|reflexivity].
    repeat split; simpl; try tauto; try lia; try exact Hd.
  - unfold TaskEntity.updateProgress.
    destruct (Qltb v 0 || Qltb 100 v)%bool eqn:Hv; [reflexivity|].
    apply progress_range in Hv.
    repeat split; simpl; try tauto; try lia; try exact Hd.
  - unfold TaskEntity.updatePlannedDates.
    destruct (TaskEntity.dates_out_of_order s e) eqn:Ho; [reflexivity|].
    repeat split; simpl; try tauto; try lia.
    + destruct s as [a|], e as [b|]; try exact Logic.I.
      now apply (dates_in_order _ _ Ho).
    + intros a b. now apply dates_in_order.
Qed.

(** ** The authorization policy *)

Lemma hasPermission_true entries user :
  holds_R_or_A entries user -> TaskService.hasPermission entries user = true.
Proof.
  intros (e & Hin & Hu & Hl). unfold TaskService.hasPermission.
  apply existsb_exists. exists e. split; [exact Hin|].
  rewrite Hu, String.eqb_refl. simpl.
  unfold letter_R_or_A. simpl. destruct Hl as [-> | ->]; reflexivity.
Qed.

Lemma hasPermission_false entries user :
  holds_only_C_or_I entries user -> TaskService.hasPermission entries user = false.
Proof.
  intro H. unfold TaskService.hasPermission.
  destruct (existsb _ entries) eqn:Hx; [|reflexivity].
  apply existsb_exists in Hx. destruct Hx as (e & Hin & Hb).
  apply andb_true_iff in Hb. destruct Hb as [Hu Hl].
  apply String.eqb_eq in Hu.
  destruct (H e Hin Hu) as [Hc | Hc]; rewrite Hc in Hl; discriminate.
Qed.

(** Without a role, an ownership or a repository failure that decides
    earlier, [canModifyTask] is the RACI test: the lock never changes it. *)
Lemma canModifyTask_by_raci (P : Ports) taskId user userRole task entries :
  elevated userRole = false ->
  taskRepository_findById P taskId = Ret (success task) ->
  isOwner task user = false ->
  raciRepository_findByTaskId P (Number P taskId) = Ret (success entries) ->
  TaskService.canModifyTask P taskId user userRole
  = success (TaskService.hasPermission entries user).
Proof.
  intros He Hf Ho Hr. unfold TaskService.canModifyTask.
  rewrite He, Hf. cbn [awaited]. rewrite Ho, Hr. cbn [awaited].
  destruct (TaskService.hasPermission entries user); reflexivity.
Qed.

(** The decision of [canModifyTask] as a function of what the two
    repositories answer: [success(true)] for an elevated role, for the owner
    of the task, and when the entries that the RACI repository returns for
    [Number(taskId)] give the user letter R or A; [success(false)] when
    those entries give the user C, I or nothing, the user having no elevated
    role and not owning the task. *)
Lemma canModifyTask_given_answers (P : Ports) (taskId user userRole : string)
  (task : Task) (entries : list RaciEntry) :
  (elevated userRole = true ->
   TaskService.canModifyTask P taskId user userRole = success true)
  /\ (taskRepository_findById P taskId = Ret (success task) ->
      isOwner task user = true ->
      TaskService.canModifyTask P taskId user userRole = success true)
  /\ (taskRepository_findById P taskId = Ret (success task) ->
      raciRepository_findByTaskId P (Number P taskId) = Ret (success entries) ->
      holds_R_or_A entries user ->
      TaskService.canModifyTask P taskId user userRole = success true)
  /\ (elevated userRole = false ->
      taskRepository_findById P taskId = Ret (success task) ->
      isOwner task user = false ->
      raciRepository_findByTaskId P (Number P taskId) = Ret (success entries) ->
      holds_only_C_or_I entries user ->
      TaskService.canModifyTask P taskId user userRole = success false).
Proof.
  repeat split.
  - intro He. unfold TaskService.canModifyTask. now rewrite He.
  - intros Hf Ho. unfold TaskService.canModifyTask.
    destruct (elevated userRole); [reflexivity|].
    rewrite Hf. cbn [awaited]. now rewrite Ho.
  - intros Hf Hr Hra. unfold TaskService.canModifyTask.
    destruct (elevated userRole); [reflexivity|]. rewrite Hf. cbn [awaited].
    destruct (isOwner task user); [reflexivity|].
    rewrite Hr. cbn [awaited]. rewrite (hasPermission_true _ _ Hra). reflexivity.
  - intros He Hf Ho Hr Hci.
    rewrite (canModifyTask_by_raci P taskId user userRole task entries He Hf Ho Hr).
    now rewrite hasPermission_false.
Qed.

(** C10. [isTaskLocked] answers [success({locked: false})] for every task
    and user, and [canModifyTask] ends in [success(true)], in
    [success(false)] or in the very failure that one of the two repositories
    returned or threw: the failure of the lock conflict is never its
    result. *)
Theorem canModifyTask_never_lock_conflict :
  (forall taskId user,
      TaskService.isTaskLocked taskId user
      = success {| locked := false; lockedBy := None |})
  /\ (forall (P : Ports) (taskId user userRole : string),
         TaskService.canModifyTask P taskId user userRole = success true
         \/ TaskService.canModifyTask P taskId user userRole = success false
         \/ exists e,
              TaskService.canModifyTask P taskId user userRole = failure e
              /\ (awaited (taskRepository_findById P taskId) = failure e
                  \/ awaited (raciRepository_findByTaskId P (Number P taskId))
                     = failure e)).
Proof.
  split; [reflexivity|].
  intros P taskId user userRole. unfold TaskService.canModifyTask.
  destruct (elevated userRole); [now left|].
  destruct (awaited (taskRepository_findById P taskId)) as [task|e] eqn:Hf.
  - destruct (isOwner task user); [now left|].
    destruct (awaited (raciRepository_findByTaskId P (Number P taskId)))
      as [entries|e] eqn:Hr.
    + destruct (TaskService.hasPermission entries user); simpl; [now left|right; now left].
    + right; right. exists e. split; [reflexivity|now right].
  - right; right. exists e. split; [reflexivity|now left].
Qed.

(** ** RACI assignments *)

Lemma find_filter {T} (p : T -> bool) (l : list T) :
  find p l = match filter p l with [] => None | x :: _ => Some x end.
Proof.
  induction l as [|a l IH]; simpl; [reflexivity|].
  destruct (p a); [reflexivity|exact IH].
Qed.

Lemma filter_map_comm {T U} (f : T -> U) (p : U -> bool) (l : list T) :
  filter p (map f l) = map f (filter (fun x => p (f x)) l).
Proof.
  induction l as [|a l IH]; simpl; [reflexivity|].
  destruct (p (f a)); simpl; now rewrite IH.
Qed.

Lemma filter_filter {T} (p q : T -> bool) (l : list T) :
  filter p (filter q l) = filter (fun x => (q x && p x)%bool) l.
Proof.
  induction l as [|a l IH]; simpl; [reflexivity|].
  destruct (q a); simpl; [destruct (p a); now rewrite IH | exact IH].
Qed.

Lemma raci_key_relettered E l e u r :
  raci_key e u (RaciKnexRepository.relettered E l r) = raci_key e u r.
Proof. reflexivity. Qed.

Lemma reletter_same_key E e u l rows :
  filter (raci_key e u) (RaciKnexRepository.reletter E e u l rows)
  = map (RaciKnexRepository.relettered E l) (filter (raci_key e u) rows).
Proof.
  unfold RaciKnexRepository.reletter.
  induction rows as [|r rows IH]; simpl; [reflexivity|].
  destruct (raci_key e u r) eqn:Hk.
  - rewrite raci_key_relettered, Hk. simpl. now rewrite IH.
  - rewrite Hk. exact IH.
Qed.

Lemma raci_key_both e u e' u' r :
  raci_key e u r = true -> raci_key e' u' r = true -> e' = e /\ u' = u.
Proof.
  unfold raci_key. intros H H'.
  apply andb_true_iff in H. apply andb_true_iff in H'.
  destruct H as [H1 H2], H' as [H1' H2'].
  apply String.eqb_eq in H1, H2, H1', H2'. split; congruence.
Qed.

Lemma reletter_other_key E e u l e' u' rows :
  (e' <> e \/ u' <> u) ->
  filter (raci_key e' u') (RaciKnexRepository.reletter E e u l rows)
  = filter (raci_key e' u') rows.
Proof.
  intro Hne. unfold RaciKnexRepository.reletter.
  induction rows as [|r rows IH]; simpl; [reflexivity|].
  destruct (raci_key e u r) eqn:Hk.
  - rewrite raci_key_relettered.
    destruct (raci_key e' u' r) eqn:Hk'.
    + destruct (raci_key_both _ _ _ _ _ Hk Hk') as [-> ->]. destruct Hne; congruence.
    + exact IH.
  - destruct (raci_key e' u' r); now rewrite IH.
Qed.

Lemma entries_of_user (mk : RaciRow -> RaciEntry) e u rows :
  (forall r, userUuid (mk r) = rc_user_uuid r) ->
  filter (fun en => String.eqb (userUuid en) u) (map mk (filter (raci_of e) rows))
  = map mk (filter (raci_key e u) rows).
Proof.
  intro Hmk. rewrite filter_map_comm, filter_filter. f_equal.
  apply filter_ext. intro r. now rewrite Hmk.
Qed.

(** What a read of the pair [(e, u)] returns: the letters of the entries of
    user [u] among the entries of entity [e]. *)
Lemma saveTaskRaci_run E e u l w old rest :
  filter (raci_key e u) (task_raci (db w)) = old :: rest ->
  RaciKnexRepository.saveTaskRaci E e u l w
  = (Ret (success tt),
     {| db := with_task_raci (RaciKnexRepository.reletter E e u l (task_raci (db w))) (db w);
        trace := trace w |}).
Proof.
  intro H. unfold RaciKnexRepository.saveTaskRaci, BaseKnexRepository.executeQuery,
    catch, bind, query, exec, ret.
  rewrite find_filter, H. reflexivity.
Qed.

Lemma saveSubTaskRaci_run E e u l w old rest :
  filter (raci_key e u) (subtask_raci (db w)) = old :: rest ->
  RaciKnexRepository.saveSubTaskRaci E e u l w
  = (Ret (success tt),
     {| db := with_subtask_raci
                (RaciKnexRepository.reletter E e u l (subtask_raci (db w))) (db w);
        trace := trace w |}).
Proof.
  intro H. unfold RaciKnexRepository.saveSubTaskRaci, BaseKnexRepository.executeQuery,
    catch, bind, query, exec, ret.
  rewrite find_filter, H. reflexivity.
Qed.

(** C4. When the pair (entity, user) already has its row, [saveTaskRaci]
    (task level) and [saveSubTaskRaci] (subtask level) succeed, leave the
    table with as many rows as before, turn the row of the pair into the same
    row with the new letter, leave the rows of every other pair as they were,
    and a read of the entity afterwards returns exactly one entry for the
    user, with the new letter. *)
Theorem saveRaci_replaces_letter (E : Env) (e u : string) (l : RaciLetter.t)
  (w : World) (old : RaciRow) :
  (filter (raci_key e u) (task_raci (db w)) = [old] ->
   let w' := snd (RaciKnexRepository.saveTaskRaci E e u l w) in
   fst (RaciKnexRepository.saveTaskRaci E e u l w) = Ret (success tt)
   /\ List.length (task_raci (db w')) = List.length (task_raci (db w))
   /\ filter (raci_key e u) (task_raci (db w')) = [RaciKnexRepository.relettered E l old]
   /\ (forall e' u', e' <> e \/ u' <> u ->
         filter (raci_key e' u') (task_raci (db w'))
         = filter (raci_key e' u') (task_raci (db w)))
   /\ exists entries,
        RaciKnexRepository.findByTaskId (db w') e = success entries
        /\ map letter (filter (fun en => String.eqb (userUuid en) u) entries) = [l])
  /\
  (filter (raci_key e u) (subtask_raci (db w)) = [old] ->
   let w' := snd (RaciKnexRepository.saveSubTaskRaci E e u l w) in
   fst (RaciKnexRepository.saveSubTaskRaci E e u l w) = Ret (success tt)
   /\ List.length (subtask_raci (db w')) = List.length (subtask_raci (db w))
   /\ filter (raci_key e u) (subtask_raci (db w'))
      = [RaciKnexRepository.relettered E l old]
   /\ (forall e' u', e' <> e \/ u' <> u ->
         filter (raci_key e' u') (subtask_raci (db w'))
         = filter (raci_key e' u') (subtask_raci (db w)))
   /\ exists entries,
        RaciKnexRepository.findBySubTaskId (db w') e = success entries
        /\ map letter (filter (fun en => String.eqb (userUuid en) u) entries) = [l]).
Proof.
  split; intro H.
  - rewrite (saveTaskRaci_run E e u l w old [] H).
    cbv zeta. cbn [fst snd db task_raci with_task_raci].
    split; [reflexivity|]. split.
    { unfold RaciKnexRepository.reletter. now rewrite length_map. }
    split. { now rewrite reletter_same_key, H. }
    split. { intros e' u' Hne. now apply reletter_other_key. }
    eexists. split; [reflexivity|].
    cbn [task_raci with_task_raci].
    change (raci_for (JS.Str e)) with (raci_of e).
    rewrite (entries_of_user RaciKnexRepository.task_entry) by reflexivity.
    now rewrite reletter_same_key, H.
  - rewrite (saveSubTaskRaci_run E e u l w old [] H).
    cbv zeta. cbn [fst snd db subtask_raci with_subtask_raci].
    split; [reflexivity|]. split.
    { unfold RaciKnexRepository.reletter. now rewrite length_map. }
    split. { now rewrite reletter_same_key, H. }
    split. { intros e' u' Hne. now apply reletter_other_key. }
    eexists. split; [reflexivity|].
    cbn [subtask_raci with_subtask_raci].
    change (raci_for (JS.Str e)) with (raci_of e).
    rewrite (entries_of_user RaciKnexRepository.subtask_entry) by reflexivity.
    now rewrite reletter_same_key, H.
Qed.

(** ** Effects *)

Lemma stable_ret {T X} (obs : World -> X) (v : T) : stable obs (ret v).
Proof. intros w o w' H. injection H as _ <-. reflexivity. Qed.

Lemma stable_throw {T X} (obs : World -> X) (e : Error) : stable obs (@throw T e).
Proof. intros w o w' H. injection H as _ <-. reflexivity. Qed.

Lemma stable_query {T X} (obs : World -> X) (f : DB -> T) : stable obs (query f).
Proof. intros w o w' H. injection H as _ <-. reflexivity. Qed.

Lemma stable_bind {T U X} (obs : World -> X) (m : M T) (k : T -> M U) :
  stable obs m -> (forall v, stable obs (k v)) -> stable obs (bind m k).
Proof.
  intros Hm Hk w o w' H. unfold bind in H.
  destruct (m w) as [[v|e] w1] eqn:Em.
  - rewrite (Hk v _ _ _ H). exact (Hm _ _ _ Em).
  - injection H as _ <-. exact (Hm _ _ _ Em).
Qed.

Lemma stable_forEach {T X} (obs : World -> X) (xs : list T) (body : T -> M unit) :
  (forall x, stable obs (body x)) -> stable obs (forEach xs body).
Proof.
  intro Hb. induction xs as [|x xs IH]; simpl.
  - apply stable_ret.
  - apply stable_bind; [apply Hb | intros _; exact IH].
Qed.

(** A statement never reaches the broker. *)
Lemma stable_exec_trace (f : DB -> Result DB) : stable trace (exec f).
Proof.
  intros w o w' H. unfold exec in H.
  destruct (f (db w)); injection H as _ <-; reflexivity.
Qed.

(** A statement keeps what it does not write. *)
Lemma stable_exec_db {X} (obs : DB -> X) (f : DB -> Result DB) :
  (forall d d', f d = success d' -> obs d' = obs d) ->
  stable (fun w => obs (db w)) (exec f).
Proof.
  intros Hf w o w' H. unfold exec in H.
  destruct (f (db w)) as [d'|e] eqn:Ef; injection H as _ <-; simpl.
  - now apply Hf.
  - reflexivity.
Qed.

Lemma insert_all_keeps {Row X} (obs : DB -> X) (ins : Row -> DB -> Result DB) rows :
  (forall r d d', ins r d = success d' -> obs d' = obs d) ->
  forall d d', insert_all ins rows d = success d' -> obs d' = obs d.
Proof.
  intro Hins. induction rows as [|r rows IH]; simpl; intros d d' H.
  - now injection H as <-.
  - destruct (ins r d) as [d1|e] eqn:E1; [|discriminate].
    rewrite (IH _ _ H). now apply (Hins r).
Qed.

(** The shape of the three transactional use cases: the statements, then the
    notification, then the response. When the statements do not reach the
    broker, the notification is the last thing that happens before the
    commit, and it does not happen when a statement throws. *)
Lemma transaction_then_notify {T U} (E : Env) (stmts : M T) (k : T -> M (Result U))
  (ev : T -> Event) (resp : T -> U) (w : World) :
  stable trace stmts ->
  (forall r w1, k r w1
                = (Ret (success (resp r)),
                   {| db := db w1; trace := trace w1 ++ [ev r] |})) ->
  BaseKnexRepository.transaction E (bind stmts k) w
  = match stmts {| db := db w; trace := trace w ++ [TransactionBegin] |} with
    | (Ret r, w1) =>
        match env_commit E with
        | None =>
            (Ret (success (resp r)),
             {| db := db w1;
                trace := trace w ++ [TransactionBegin; ev r; TransactionCommit] |})
        | Some e =>
            (Ret (failure e),
             {| db := db w;
                trace := trace w ++ [TransactionBegin; ev r; TransactionRollback] |})
        end
    | (Throw e, _) =>
        (Ret (failure e),
         {| db := db w;
            trace := trace w ++ [TransactionBegin; TransactionRollback] |})
    end.
Proof.
  intros Hq Hk.
  unfold BaseKnexRepository.transaction, catch, knex_transaction, bind.
  destruct (stmts {| db := db w; trace := trace w ++ [TransactionBegin] |})
    as [[r|e] w1] eqn:Es.
  - rewrite Hk. cbn [db trace]. rewrite (Hq _ _ _ Es). cbn [db trace].
    destruct (env_commit E); now rewrite <- !app_assoc.
  - rewrite (Hq _ _ _ Es). cbn [db trace]. now rewrite <- app_assoc.
Qed.

Ltac stable_trace :=
  repeat first
    [ apply stable_ret | apply stable_throw | apply stable_query
    | apply stable_exec_trace
    | apply stable_forEach; intro
    | apply stable_bind; [|intro]
    | match goal with
      | |- stable _ (match ?x with _ => _ end) => destruct x
      | |- stable _ (if ?x then _ else _) => destruct x
      end ].

Lemma insertRaci_quiet E taskId raci : stable trace (TaskService.insertRaci E taskId raci).
Proof. unfold TaskService.insertRaci. stable_trace. Qed.

Lemma createTask_statements_quiet E input t :
  stable trace (TaskService.createTask_statements E input t).
Proof.
  unfold TaskService.createTask_statements.
  stable_trace; apply insertRaci_quiet.
Qed.

Lemma updateTask_statements_quiet E taskId input t :
  stable trace (TaskService.updateTask_statements E taskId input t).
Proof.
  unfold TaskService.updateTask_statements.
  stable_trace; apply insertRaci_quiet.
Qed.

Lemma createSubTask_statements_quiet rule E taskId s :
  stable trace (TaskService.createSubTask_statements rule E taskId s).
Proof. unfold TaskService.createSubTask_statements. stable_trace. Qed.

(** *** The runs of the three transactional use cases *)

Lemma createTask_run E input creator w :
  TaskService.createTask E input creator w
  = match TaskService.unknownProfile (db w) input with
    | Some c => (Ret (failure ("Le profil " ++ c ++ " n'existe pas")), w)
    | None =>
        match TaskService.newTask E input creator with
        | failure e =>
            match env_commit E with
            | None =>
                (Ret (failure e),
                 {| db := db w;
                    trace := trace w ++ [TransactionBegin; TransactionCommit] |})
            | Some e' =>
                (Ret (failure e'),
                 {| db := db w;
                    trace := trace w ++ [TransactionBegin; TransactionRollback] |})
            end
        | success t =>
            match TaskService.createTask_statements E input t
                    {| db := db w; trace := trace w ++ [TransactionBegin] |} with
            | (Ret r, w1) =>
                match env_commit E with
                | None =>
                    (Ret (success (createTask_response input t r)),
                     {| db := db w1;
                        trace := trace w ++ [TransactionBegin;
                                             TaskCreated (TaskService.with_id (fst r)
                                                            (TaskEntity.toObject t));
                                             TransactionCommit] |})
                | Some e =>
                    (Ret (failure e),
                     {| db := db w;
                        trace := trace w ++ [TransactionBegin;
                                             TaskCreated (TaskService.with_id (fst r)
                                                            (TaskEntity.toObject t));
                                             TransactionRollback] |})
                end
            | (Throw e, _) =>
                (Ret (failure e),
                 {| db := db w;
                    trace := trace w ++ [TransactionBegin; TransactionRollback] |})
            end
        end
    end.
Proof.
  unfold TaskService.createTask.
  unfold catch at 1, bind at 1, query at 1.
  destruct (TaskService.unknownProfile (db w) input) as [c|]; [reflexivity|].
  unfold TaskService.createTask_callback.
  destruct (TaskService.newTask E input creator) as [t|e].
  - rewrite (transaction_then_notify E
               (TaskService.createTask_statements E input t) _
               (fun r => TaskCreated (TaskService.with_id (fst r) (TaskEntity.toObject t)))
               (createTask_response input t) w
               (createTask_statements_quiet E input t)).
    + destruct (TaskService.createTask_statements E input t _) as [[r|e] w1];
        [destruct (env_commit E)|]; reflexivity.
    + intros [taskId rows] w1. reflexivity.
  - unfold BaseKnexRepository.transaction, catch, knex_transaction, ret. cbn [db trace].
    destruct (env_commit E); now rewrite <- app_assoc.
Qed.

Lemma updateTask_run E taskId input user userRole w :
  TaskService.updateTask E taskId input user userRole w
  = match TaskKnexRepository.findById E (db w) taskId with
    | failure e => (Ret (failure e), w)
    | success t =>
        match TaskService.canModifyTask (TaskService.ports E (db w)) taskId user userRole
        with
        | failure e => (Ret (failure e), w)
        | success false =>
            (Ret (failure (TaskService.forbidden userRole "modify task" taskId
                             "(needs R or A or be owner/CP/RF)")), w)
        | success true =>
            match TaskService.applyInput (TaskService.ports E (db w)) E taskId user
                    userRole input t with
            | failure e => (Ret (failure e), w)
            | success t' =>
                match TaskService.updateTask_statements E taskId input t'
                        {| db := db w; trace := trace w ++ [TransactionBegin] |} with
                | (Ret dto, w1) =>
                    match env_commit E with
                    | None =>
                        (Ret (success (updateTask_response dto)),
                         {| db := db w1;
                            trace := trace w ++ [TransactionBegin;
                                                 TaskUpdated (TaskEntity.toObject t');
                                                 TransactionCommit] |})
                    | Some e =>
                        (Ret (failure e),
                         {| db := db w;
                            trace := trace w ++ [TransactionBegin;
                                                 TaskUpdated (TaskEntity.toObject t');
                                                 TransactionRollback] |})
                    end
                | (Throw e, _) =>
                    (Ret (failure e),
                     {| db := db w;
                        trace := trace w ++ [TransactionBegin; TransactionRollback] |})
                end
            end
        end
    end.
Proof.
  unfold TaskService.updateTask.
  unfold catch at 1, bind at 1, query at 1.
  destruct (TaskKnexRepository.findById E (db w) taskId) as [t|e]; [|reflexivity].
  destruct (TaskService.canModifyTask _ taskId user userRole) as [[|]|e];
    try reflexivity.
  destruct (TaskService.applyInput _ E taskId user userRole input t) as [t'|e];
    [|reflexivity].
  unfold TaskService.updateTask_callback.
  rewrite (transaction_then_notify E
             (TaskService.updateTask_statements E taskId input t') _
             (fun _ => TaskUpdated (TaskEntity.toObject t'))
             updateTask_response w
             (updateTask_statements_quiet E taskId input t')).
  - destruct (TaskService.updateTask_statements E taskId input t' _) as [[r|e] w1];
      [destruct (env_commit E)|]; reflexivity.
  - intros dto w1. reflexivity.
Qed.

Lemma createSubTask_run rule E taskId subtaskTitle done user userRole w :
  TaskService.createSubTask rule E taskId subtaskTitle done user userRole w
  = match TaskKnexRepository.findById E (db w) taskId with
    | failure _ => (Ret (failure ("Task with ID " ++ taskId ++ " not found")), w)
    | success _ =>
        match TaskService.canModifyTask (TaskService.ports E (db w)) taskId user userRole
        with
        | failure e => (Ret (failure e), w)
        | success false =>
            (Ret (failure (TaskService.forbidden userRole "add subtask to task" taskId
                             "(needs R or A or be owner/CP/RF)")), w)
        | success true =>
            match newSubTask E taskId subtaskTitle done user with
            | failure e => (Ret (failure e), w)
            | success s =>
                match TaskService.createSubTask_statements rule E taskId s
                        {| db := db w; trace := trace w ++ [TransactionBegin] |} with
                | (Ret r, w1) =>
                    match env_commit E with
                    | None =>
                        (Ret (success (createSubTask_response E s r)),
                         {| db := db w1;
                            trace := trace w
                                     ++ [TransactionBegin;
                                         SubTaskUpdated (createSubTask_dto E s (fst r));
                                         TransactionCommit] |})
                    | Some e =>
                        (Ret (failure e),
                         {| db := db w;
                            trace := trace w
                                     ++ [TransactionBegin;
                                         SubTaskUpdated (createSubTask_dto E s (fst r));
                                         TransactionRollback] |})
                    end
                | (Throw e, _) =>
                    (Ret (failure e),
                     {| db := db w;
                        trace := trace w ++ [TransactionBegin; TransactionRollback] |})
                end
            end
        end
    end.
Proof.
  unfold TaskService.createSubTask.
  unfold catch at 1, bind at 1, query at 1.
  destruct (TaskKnexRepository.findById E (db w) taskId) as [t|e]; [|reflexivity].
  destruct (TaskService.canModifyTask _ taskId user userRole) as [[|]|e];
    try reflexivity.
  fold (newSubTask E taskId subtaskTitle done user).
  destruct (newSubTask E taskId subtaskTitle done user) as [s|e]; [|reflexivity].
  unfold TaskService.createSubTask_callback.
  rewrite (transaction_then_notify E
             (TaskService.createSubTask_statements rule E taskId s) _
             (fun r => SubTaskUpdated (createSubTask_dto E s (fst r)))
             (createSubTask_response E s) w
             (createSubTask_statements_quiet rule E taskId s)).
  - destruct (TaskService.createSubTask_statements rule E taskId s _) as [[r|e] w1];
      [destruct (env_commit E)|]; reflexivity.
  - intros [sid rows] w1. reflexivity.
Qed.

(** ** Commit and notification *)

(** C2, as the code has it. In [createTask], [updateTask] and
    [createSubTask] the notification is emitted inside the callback of the
    transaction, after its last statement and before the commit. A call that
    succeeds adds to the trace the beginning of the transaction, its one
    notification, then the commit. A call that fails leaves the store as it
    was; it emits no notification when nothing ran, when the transaction
    committed without a statement or when a statement threw; when the commit
    itself fails, the notification has been emitted before the rollback. *)
Theorem notification_precedes_commit :
  (forall E input creator w,
      transactional E (fun ev => exists t, ev = TaskCreated t) w
        (TaskService.createTask E input creator w))
  /\ (forall E taskId input user userRole w,
         transactional E (fun ev => exists t, ev = TaskUpdated t) w
           (TaskService.updateTask E taskId input user userRole w))
  /\ (forall rule E taskId subtaskTitle done user userRole w,
         transactional E (fun ev => exists s, ev = SubTaskUpdated s) w
           (TaskService.createSubTask rule E taskId subtaskTitle done user userRole w)).
Proof.
  unfold transactional. repeat split.
  - intros E input creator w. rewrite createTask_run.
    destruct (TaskService.unknownProfile (db w) input) as [c|].
    { right. eexists. cbn [fst snd]. repeat split. now left. }
    destruct (TaskService.newTask E input creator) as [t|e].
    + destruct (TaskService.createTask_statements E input t _) as [[r|e] w1].
      * destruct (env_commit E) as [e|] eqn:Hc.
        -- right. exists e. cbn [fst snd db trace]. repeat split.
           right; right; right. eexists. repeat split. eexists. reflexivity.
        -- left. do 2 eexists. cbn [fst snd db trace]. repeat split.
           eexists. reflexivity.
      * right. eexists. cbn [fst snd db trace]. repeat split. right; right; now left.
    + destruct (env_commit E) as [e'|].
      * right. eexists. cbn [fst snd db trace]. repeat split. right; right; now left.
      * right. eexists. cbn [fst snd db trace]. repeat split. right; now left.
  - intros E taskId input user userRole w. rewrite updateTask_run.
    destruct (TaskKnexRepository.findById E (db w) taskId) as [t|e].
    2:{ right. eexists. cbn [fst snd]. repeat split. now left. }
    destruct (TaskService.canModifyTask _ taskId user userRole) as [[|]|e].
    2,3:(right; eexists; cbn [fst snd]; repeat split; now left).
    destruct (TaskService.applyInput _ E taskId user userRole input t) as [t'|e].
    2:{ right. eexists. cbn [fst snd]. repeat split. now left. }
    destruct (TaskService.updateTask_statements E taskId input t' _) as [[r|e] w1].
    + destruct (env_commit E) as [e|] eqn:Hc.
      * right. exists e. cbn [fst snd db trace]. repeat split.
        right; right; right. eexists. repeat split. eexists. reflexivity.
      * left. do 2 eexists. cbn [fst snd db trace]. repeat split.
        eexists. reflexivity.
    + right. eexists. cbn [fst snd db trace]. repeat split. right; right; now left.
  - intros rule E taskId subtaskTitle done user userRole w. rewrite createSubTask_run.
    destruct (TaskKnexRepository.findById E (db w) taskId) as [t|e].
    2:{ right. eexists. cbn [fst snd]. repeat split. now left. }
    destruct (TaskService.canModifyTask _ taskId user userRole) as [[|]|e].
    2,3:(right; eexists; cbn [fst snd]; repeat split; now left).
    destruct (newSubTask E taskId subtaskTitle done user) as [s|e].
    2:{ right. eexists. cbn [fst snd]. repeat split. now left. }
    destruct (TaskService.createSubTask_statements rule E taskId s _) as [[r|e] w1].
    + destruct (env_commit E) as [e|] eqn:Hc.
      * right. exists e. cbn [fst snd db trace]. repeat split.
        right; right; right. eexists. repeat split. eexists. reflexivity.
      * left. do 2 eexists. cbn [fst snd db trace]. repeat split.
        eexists. reflexivity.
    + right. eexists. cbn [fst snd db trace]. repeat split. right; right; now left.
Qed.

(** ** Atomicity of createTask *)

(** C3. When the profiles are known, the task is valid, its row is inserted
    and found again, and the insertion of the RACI rows then throws (after
    any number of them were inserted), [createTask] returns the failure, the
    store is what it was before the call (no task row, no RACI row, no
    profile row of the call remains), and the trace has the beginning of the
    transaction and its rollback, no "task created" event. *)
Theorem createTask_rolls_back_on_raci_failure (E : Env) (input : CreateTaskInput)
  (creator : string) (w : World) (t : Task) (d1 : DB) (record : TaskRow)
  (raci : RaciInput) (e : Error) (w2 : World) :
  TaskService.unknownProfile (db w) input = None ->
  TaskService.newTask E input creator = success t ->
  insert_task (TaskService.task_row t) (db w) = success d1 ->
  TaskService.savedTaskRecord t d1 = Some record ->
  ci_raci input = Some raci ->
  TaskService.insertRaci E (tk_id record) raci
    {| db := d1; trace := trace w ++ [TransactionBegin] |} = (Throw e, w2) ->
  TaskService.createTask E input creator w
  = (Ret (failure e),
     {| db := db w; trace := trace w ++ [TransactionBegin; TransactionRollback] |}).
Proof.
  intros Hu Hn Hi Hs Hr Ht.
  rewrite createTask_run, Hu, Hn.
  unfold TaskService.createTask_statements.
  unfold bind at 1, exec at 1. cbn [db trace]. rewrite Hi.
  unfold bind at 1, query at 1. cbn [db trace]. rewrite Hs, Hr.
  unfold bind at 1. rewrite Ht. reflexivity.
Qed.

(** ** Progress is not an input *)

Lemma create_progress now fresh props t :
  TaskEntity.create now fresh props = success t -> progress t = p_progress props.
Proof.
  unfold TaskEntity.create, TaskEntity.construct.
  repeat match goal with
         | |- context [if ?c then _ else _] => destruct c; try discriminate
         | |- context [match ?c with success _ => _ | failure _ => _ end] =>
             destruct c; try discriminate
         end.
  all: intro H; first [discriminate | now injection H as <-].
Qed.

Lemma inOrder_keeps {X} (obs : Task -> X) steps t t' :
  Forall (fun step => forall u, obs (snd (step u)) = obs u) steps ->
  TaskService.inOrder steps t = success t' -> obs t' = obs t.
Proof.
  intro Hs. revert t. induction Hs as [|step steps Hstep _ IH]; simpl; intros t H.
  - now injection H as <-.
  - specialize (Hstep t). destruct (step t) as [[[]|e] t1]; [|discriminate].
    simpl in Hstep. rewrite (IH _ H). exact Hstep.
Qed.

Lemma applyInput_progress P E taskId user userRole input t t' :
  TaskService.applyInput P E taskId user userRole input t = success t' ->
  progress t' = progress t.
Proof.
  unfold TaskService.applyInput. apply inOrder_keeps.
  repeat constructor; intro u0.
  - destruct (ui_title input) as [v|]; simpl; [|reflexivity].
    unfold TaskEntity.updateTitle. destruct (blank v); reflexivity.
  - destruct (ui_description input) as [v|]; reflexivity.
  - destruct (ui_priority input) as [v|]; simpl; [|reflexivity].
    unfold TaskEntity.updatePriority. destruct (Priority.new v); reflexivity.
  - unfold TaskService.changePhase.
    destruct (ui_phaseCode input) as [v|]; [|reflexivity].
    destruct (negb (String.eqb v (phaseCode u0))); [|reflexivity].
    destruct (TaskService.canChangePhase P taskId user userRole) as [[|]|e];
      try reflexivity.
    unfold TaskEntity.updatePhase. destruct (PhaseCode.new v); reflexivity.
  - destruct (ui_ownerUuid input) as [v|]; simpl; [|reflexivity].
    unfold TaskEntity.updateOwner. destruct (TaskEntity.owner_of (Some v)); reflexivity.
  - unfold TaskService.changeDates, TaskEntity.updatePlannedDates.
    destruct (ui_plannedStart input) as [a|], (ui_plannedEnd input) as [b|];
      try reflexivity;
      destruct (TaskEntity.dates_out_of_order _ _); reflexivity.
Qed.

(** What the statements on the RACI and profile tables leave alone. *)
Ltac keeps_statement H :=
  unfold insert_task_raci, insert_subtask_raci, insert_task_profile,
    TaskService.delete_task_raci, TaskService.delete_task_profile in H;
  repeat match type of H with
         | context [if ?c then _ else _] => destruct c
         end;
  first [discriminate | injection H as <-; reflexivity].

Ltac stable_store :=
  repeat first
    [ apply stable_ret | apply stable_throw | apply stable_query
    | apply stable_forEach; intro
    | apply stable_bind; [|intro]
    | apply stable_exec_db;
      first [ let H := fresh in intros ? ? H; keeps_statement H
            | apply insert_all_keeps; let H := fresh in intros ? ? ? H; keeps_statement H ]
    | match goal with
      | |- stable _ (match ?x with _ => _ end) => destruct x
      | |- stable _ (if ?x then _ else _) => destruct x
      end ].

Lemma insertRaci_keeps_tasks E taskId raci :
  stable (fun w => task (db w)) (TaskService.insertRaci E taskId raci).
Proof. unfold TaskService.insertRaci. stable_store. Qed.

Lemma createTask_statements_tasks E input t w r w1 :
  TaskService.createTask_statements E input t w = (Ret r, w1) ->
  task (db w1) = (task (db w) ++ [TaskService.task_row t])%list.
Proof.
  unfold TaskService.createTask_statements.
  unfold bind at 1, exec at 1, insert_task.
  destruct (existsb _ (task (db w))); [discriminate|].
  intro H.
  match type of H with
  | ?m ?w0 = _ =>
      assert (Hs : stable (fun w => task (db w)) m)
  end.
  { stable_store. all: apply insertRaci_keeps_tasks. }
  now rewrite (Hs _ _ _ H).
Qed.

Lemma updateTask_statements_tasks E taskId input t w r w1 :
  TaskService.updateTask_statements E taskId input t w = (Ret r, w1) ->
  task (db w1)
  = map (fun row => if task_is taskId row then TaskService.updated_row E t row else row)
        (task (db w)).
Proof.
  unfold TaskService.updateTask_statements.
  unfold bind at 1, exec at 1, TaskService.update_task.
  intro H.
  match type of H with
  | ?m ?w0 = _ =>
      assert (Hs : stable (fun w => task (db w)) m)
  end.
  { stable_store. all: apply insertRaci_keeps_tasks. }
  now rewrite (Hs _ _ _ H).
Qed.

Lemma unique_key_row {Row} (key : Row -> string) (l : list Row) (a b : Row) :
  NoDup (map key l) -> In a l -> In b l -> key a = key b -> a = b.
Proof.
  induction l as [|x l IH]; simpl; intros Hn Ha Hb Hk; [contradiction|].
  inversion Hn as [|? ? Hx Hl]; subst.
  destruct Ha as [-> | Ha], Hb as [-> | Hb].
  - reflexivity.
  - exfalso. apply Hx. rewrite Hk. now apply in_map.
  - exfalso. apply Hx. rewrite <- Hk. now apply in_map.
  - now apply IH.
Qed.

(** C9. [createTask] appends one task row whose progress is 0, whatever the
    input (which has no progress field), and answers with progress 0;
    [updateTask], whose input has no progress field either, leaves the
    stored progress of every task as it was, whatever fields are supplied
    and whether it succeeds or fails (task identifiers being unique, as the
    primary key makes them). *)
Theorem progress_is_never_an_input :
  (forall E input creator w resp w',
      TaskService.createTask E input creator w = (Ret (success resp), w') ->
      exists t,
        task (db w') = (task (db w) ++ [TaskService.task_row t])%list
        /\ tk_progress (TaskService.task_row t) = 0%Q
        /\ progress (twr_task (ctr_task resp)) = 0%Q)
  /\ (forall E taskId input user userRole w,
         NoDup (map tk_id (task (db w))) ->
         map (fun r => (tk_id r, tk_progress r))
             (task (db (snd (TaskService.updateTask E taskId input user userRole w))))
         = map (fun r => (tk_id r, tk_progress r)) (task (db w))).
Proof.
  split.
  - intros E input creator w resp w'. rewrite createTask_run.
    destruct (TaskService.unknownProfile (db w) input); [discriminate|].
    destruct (TaskService.newTask E input creator) as [t|e] eqn:Hn;
      [|destruct (env_commit E); discriminate].
    destruct (TaskService.createTask_statements E input t _) as [[r|e] w1] eqn:Hs;
      [|discriminate].
    destruct (env_commit E); [discriminate|].
    intro H. injection H as <- <-. exists t.
    apply createTask_statements_tasks in Hs.
    apply create_progress in Hn. simpl in Hn.
    repeat split; simpl; assumption.
  - intros E taskId input user userRole w Hnd. rewrite updateTask_run.
    destruct (TaskKnexRepository.findById E (db w) taskId) as [t|e] eqn:Hf;
      [|reflexivity].
    destruct (TaskService.canModifyTask _ taskId user userRole) as [[|]|e];
      try reflexivity.
    destruct (TaskService.applyInput _ E taskId user userRole input t) as [t'|e] eqn:Ha;
      [|reflexivity].
    destruct (TaskService.updateTask_statements E taskId input t' _) as [[r|e] w1] eqn:Hs;
      [|reflexivity].
    destruct (env_commit E); [reflexivity|].
    simpl. apply updateTask_statements_tasks in Hs. rewrite Hs. simpl.
    rewrite map_map. apply map_ext_in. intros row Hin.
    destruct (task_is taskId row) eqn:Hrow; [|reflexivity].
    simpl. f_equal.
    rewrite (applyInput_progress _ _ _ _ _ _ _ _ Ha).
    unfold TaskKnexRepository.findById in Hf.
    destruct (find (task_is taskId) (task (db w))) as [record|] eqn:Hfind;
      [|discriminate].
    apply create_progress in Hf. simpl in Hf. rewrite Hf.
    apply find_some in Hfind. destruct Hfind as [Hrec Hid].
    f_equal. apply (unique_key_row tk_id (task (db w))); try assumption.
    unfold task_is in *. apply String.eqb_eq in Hrow, Hid. congruence.
Qed.

(** ** The RACI set of a new subtask *)

Lemma newSubTask_fields E taskId subtaskTitle done user s :
  newSubTask E taskId subtaskTitle done user = success s ->
  st_id s = env_fresh E /\ st_taskId s = taskId /\ st_title s = subtaskTitle
  /\ st_createdBy s = user.
Proof.
  unfold newSubTask, SubTaskEntity.create, SubTaskEntity.construct, UUID.new. simpl.
  repeat match goal with
         | |- context [if ?c then _ else _] => destruct c; try discriminate
         end.
  all: intro H; first [discriminate | injection H as <-; repeat split; reflexivity].
Qed.

Lemma latest_snoc {Row} (key : Row -> Z) (l : list Row) (x : Row) :
  (forall y, In y l -> key y < key x) -> latest key (l ++ [x]) = Some x.
Proof.
  induction l as [|a l IH]; simpl; intro H; [reflexivity|].
  rewrite IH by (intros y Hy; apply H; now right).
  assert (Ha : key a < key x) by (apply H; now left).
  apply Z.ltb_lt in Ha. now rewrite Ha.
Qed.

Lemma with_subtask_raci_same d : with_subtask_raci (subtask_raci d) d = d.
Proof. now destruct d. Qed.

Lemma insert_all_subtask_raci rows d d' :
  insert_all insert_subtask_raci rows d = success d' ->
  d' = with_subtask_raci (subtask_raci d ++ rows) d.
Proof.
  revert d. induction rows as [|r rows IH]; simpl; intros d H.
  - injection H as <-. now rewrite app_nil_r, with_subtask_raci_same.
  - unfold insert_subtask_raci at 1 in H.
    destruct (existsb _ (subtask_raci d)); [discriminate|].
    apply IH in H. subst d'. unfold with_subtask_raci. simpl.
    now rewrite <- app_assoc.
Qed.

Lemma filter_none {T} (p : T -> bool) (l : list T) :
  (forall x, In x l -> p x = false) -> filter p l = [].
Proof.
  induction l as [|a l IH]; simpl; intro H; [reflexivity|].
  rewrite (H a) by now left. apply IH. intros x Hx. apply H. now right.
Qed.

Lemma filter_all {T} (p : T -> bool) (l : list T) :
  (forall x, In x l -> p x = true) -> filter p l = l.
Proof.
  induction l as [|a l IH]; simpl; intro H; [reflexivity|].
  rewrite (H a) by now left. f_equal. apply IH. intros x Hx. apply H. now right.
Qed.

Lemma existsb_false_forall {T} (p : T -> bool) (l : list T) :
  existsb p l = false -> forall x, In x l -> p x = false.
Proof.
  intros H x Hx. destruct (p x) eqn:Hp; [|reflexivity].
  assert (existsb p l = true) by (apply existsb_exists; now exists x). congruence.
Qed.

(** The statements of [createSubTask], when the look-up finds the new row. *)
Lemma createSubTask_statements_run rule E taskId s w sid rows w1 :
  st_taskId s = taskId ->
  later_than_namesakes E taskId (st_title s) (st_createdBy s) (db w) ->
  subtask_raci_references (db w) ->
  TaskService.createSubTask_statements rule E taskId s w = (Ret (sid, rows), w1) ->
  sid = st_id s
  /\ subtask (db w1) = (subtask (db w) ++ [TaskService.subtask_row E s])%list
  /\ task_raci (db w1) = task_raci (db w)
  /\ rows = filter (raci_of sid) (subtask_raci (db w1))
  /\ raci_pairs rows = raci_pairs (filter (raci_of taskId) (task_raci (db w))).
Proof.
  intros Htid Hclock Hfk.
  unfold TaskService.createSubTask_statements.
  unfold bind at 1, exec at 1, insert_subtask.
  destruct (existsb (subtask_is (sb_id (TaskService.subtask_row E s))) (subtask (db w)))
    eqn:Hex; [discriminate|].
  unfold bind at 1, query at 1. cbn [db trace].
  assert (Hsaved :
    TaskService.savedSubtaskRecord s
      (fire rule (sb_task_id (TaskService.subtask_row E s))
         (with_subtask (subtask (db w) ++ [TaskService.subtask_row E s]) (db w)))
    = Some (TaskService.subtask_row E s)).
  { unfold TaskService.savedSubtaskRecord. cbn [fire with_task with_subtask subtask].
    rewrite filter_app. cbn [filter].
    assert (Hme : TaskService.same_subtask s (TaskService.subtask_row E s) = true).
    { unfold TaskService.same_subtask. simpl. now rewrite !String.eqb_refl. }
    rewrite Hme. apply latest_snoc. intros y Hy.
    apply filter_In in Hy. destruct Hy as [Hin Hsame].
    unfold TaskService.same_subtask in Hsame.
    apply andb_true_iff in Hsame. destruct Hsame as [Hsame H3].
    apply andb_true_iff in Hsame. destruct Hsame as [H1 H2].
    apply String.eqb_eq in H1, H2, H3.
    simpl. apply (Hclock y Hin H1); congruence. }
  rewrite Hsaved. clear Hsaved.
  set (d1 := fire rule (sb_task_id (TaskService.subtask_row E s))
               (with_subtask (subtask (db w) ++ [TaskService.subtask_row E s]) (db w))).
  assert (Ht : task_raci d1 = task_raci (db w)) by reflexivity.
  assert (Hsr : subtask_raci d1 = subtask_raci (db w)) by reflexivity.
  assert (Hsb : subtask d1 = (subtask (db w) ++ [TaskService.subtask_row E s])%list)
    by reflexivity.
  clearbody d1.
  unfold bind at 1, query at 1. cbn [db trace]. rewrite Ht.
  set (taskRacis := filter (raci_of taskId) (task_raci (db w))).
  assert (Hold : filter (raci_of (st_id s)) (subtask_raci (db w)) = []).
  { apply filter_none. intros r Hr. unfold raci_of.
    destruct (String.eqb (rc_entity r) (st_id s)) eqn:Heq; [|reflexivity].
    apply String.eqb_eq in Heq.
    destruct (Hfk r Hr) as (s0 & Hs0 & Hid).
    pose proof (existsb_false_forall _ _ Hex s0 Hs0) as Hno.
    unfold subtask_is in Hno. simpl in Hno.
    rewrite Hid, Heq, String.eqb_refl in Hno. discriminate. }
  assert (Hnew : forall rs,
             filter (raci_of (st_id s))
               (map (fun raci => TaskService.stamped_row E (st_id s)
                                   (rc_user_uuid raci) (rc_letter raci)) rs)
             = map (fun raci => TaskService.stamped_row E (st_id s)
                                   (rc_user_uuid raci) (rc_letter raci)) rs).
  { intro rs. apply filter_all. intros x Hx. apply in_map_iff in Hx.
    destruct Hx as (r0 & <- & _). unfold raci_of. simpl. apply String.eqb_refl. }
  assert (Hpairs : forall rs,
             raci_pairs (map (fun raci => TaskService.stamped_row E (st_id s)
                                            (rc_user_uuid raci) (rc_letter raci)) rs)
             = raci_pairs rs).
  { intro rs. unfold raci_pairs. rewrite map_map. reflexivity. }
  change (sb_id (TaskService.subtask_row E s)) with (st_id s).
  unfold bind at 1.
  destruct (Nat.ltb 0 (List.length taskRacis)) eqn:Hlen.
  - unfold exec at 1. cbn [db trace].
    destruct (insert_all insert_subtask_raci _ d1) as [d2|e] eqn:Hins; [|discriminate].
    apply insert_all_subtask_raci in Hins.
    unfold bind, query, ret. cbn [db trace]. intro H. injection H as <- <- <-.
    subst d2. cbn [db subtask task_raci subtask_raci with_subtask_raci].
    rewrite Hsr, filter_app, Hold, Hnew. cbn [app].
    repeat split; try assumption. apply Hpairs.
  - unfold ret at 1. unfold bind, query, ret. cbn [db trace].
    intro H. injection H as <- <- <-. cbn [db].
    rewrite Hsr, Hold.
    assert (Hnil : taskRacis = []) by (destruct taskRacis; [reflexivity|discriminate]).
    rewrite Hnil. repeat split; assumption || reflexivity.
Qed.

Lemma saveSubTaskRaci_keeps_task_raci E e u l w :
  task_raci (db (snd (RaciKnexRepository.saveSubTaskRaci E e u l w))) = task_raci (db w).
Proof.
  unfold RaciKnexRepository.saveSubTaskRaci, BaseKnexRepository.executeQuery,
    catch, bind, query, exec, ret, insert_subtask_raci.
  destruct (find (raci_key e u) (subtask_raci (db w))); simpl.
  - reflexivity.
  - destruct (existsb _ (subtask_raci (db w))); reflexivity.
Qed.

Lemma deleteAllForSubTask_keeps_task_raci e w :
  task_raci (db (snd (RaciKnexRepository.deleteAllForSubTask e w))) = task_raci (db w).
Proof. reflexivity. Qed.

(** The copy of [createSubTask] when its look-up by title, task and creator
    finds the row it has just inserted, that is when the clock of the call
    is later than the creation of every subtask of the same title, task and
    creator (the rows of [subtask_raci] belonging to stored subtasks): the
    subtask of the response is the new one, its RACI rows read right after
    the call are, pair for pair and in the same order, the (user, letter)
    pairs that the parent task had, the RACI rows of the task are untouched,
    and no later write of the RACI set of the subtask ([saveSubTaskRaci],
    [deleteAllForSubTask]) changes the RACI rows of the task. *)
Lemma createSubTask_copies_raci (rule : Trigger) (E : Env)
  (taskId subtaskTitle : string) (done : option bool) (user userRole : string)
  (w : World) (resp : CreateSubTaskResponse) (w' : World) :
  later_than_namesakes E taskId subtaskTitle user (db w) ->
  subtask_raci_references (db w) ->
  TaskService.createSubTask rule E taskId subtaskTitle done user userRole w
  = (Ret (success resp), w') ->
  let sid := st_id (swr_subtask (csr_subtask resp)) in
  sid = env_fresh E
  /\ (exists row, In row (subtask (db w')) /\ sb_id row = sid /\ sb_task_id row = taskId)
  /\ raci_pairs (filter (raci_of sid) (subtask_raci (db w')))
     = raci_pairs (filter (raci_of taskId) (task_raci (db w)))
  /\ task_raci (db w') = task_raci (db w)
  /\ (forall E' u l w1,
         task_raci (db (snd (RaciKnexRepository.saveSubTaskRaci E' sid u l w1)))
         = task_raci (db w1))
  /\ (forall w1,
         task_raci (db (snd (RaciKnexRepository.deleteAllForSubTask sid w1)))
         = task_raci (db w1)).
Proof.
  intros Hclock Hfk. rewrite createSubTask_run.
  destruct (TaskKnexRepository.findById E (db w) taskId) as [t|e]; [|discriminate].
  destruct (TaskService.canModifyTask _ taskId user userRole) as [[|]|e];
    try discriminate.
  destruct (newSubTask E taskId subtaskTitle done user) as [s|e] eqn:Hn;
    [|discriminate].
  destruct (TaskService.createSubTask_statements rule E taskId s _) as [[[sid rows]|e] w1]
    eqn:Hs; [|discriminate].
  destruct (env_commit E); [discriminate|].
  intro H. injection H as <- <-. cbv zeta. cbn [csr_subtask swr_subtask
    createSubTask_response createSubTask_dto st_id fst db].
  destruct (newSubTask_fields _ _ _ _ _ _ Hn) as (Hid & Htid & Htitle & Hby).
  apply createSubTask_statements_run in Hs; try assumption.
  2:{ cbn [db]. now rewrite Htitle, Hby. }
  cbn [db] in Hs. destruct Hs as (-> & Hsub & Hraci & Hrows & Hpairs).
  split; [exact Hid|]. split.
  { exists (TaskService.subtask_row E s). rewrite Hsub. split.
    - apply in_or_app. right. now left.
    - split; [reflexivity|exact Htid]. }
  split. { now rewrite <- Hrows. }
  split; [exact Hraci|]. split.
  - intros. apply saveSubTaskRaci_keeps_task_raci.
  - intros. apply deleteAllForSubTask_keeps_task_raci.
Qed.

(** C5, as the code has it. [createSubTask] does not keep the identifier of
    the row it inserts: it looks the row up again by title, task and
    creator, most recent creation date first, and copies the RACI rows of
    the task to the subtask it finds. On the sample task, whose subtask
    [step1] was created at instant 9000 and whose only RACI row now makes
    Carol accountable, Alice adds a second subtask [step1] on a server whose
    clock reads 8000. The call succeeds; the look-up finds the older
    subtask, stamped later; the row of Carol is copied to that one, which
    now has three RACI rows, and the subtask just created has none, while
    its parent has one. The response describes the older subtask. *)
Theorem createSubTask_copies_to_the_namesake :
  exists resp w',
    TaskService.createSubTask no_trigger (Sample.at_ 8000 Sample.sub2) Sample.taskA
      "step1" None Sample.alice "CP" Sample.reassigned
    = (Ret (success resp), w')
    /\ map (fun r => (sb_id r, sb_task_id r, sb_title r, sb_created_at r))
           (subtask (db Sample.reassigned))
       = [(Sample.sub1, Sample.taskA, "step1", 9000)]
    /\ raci_pairs (filter (raci_of Sample.taskA) (task_raci (db Sample.reassigned)))
       = [(Sample.carol, RaciLetter.A)]
    /\ map (fun r => (sb_id r, sb_task_id r, sb_title r, sb_created_at r))
           (subtask (db w'))
       = [(Sample.sub1, Sample.taskA, "step1", 9000);
          (Sample.sub2, Sample.taskA, "step1", 8000)]
    /\ raci_pairs (filter (raci_of Sample.sub2) (subtask_raci (db w'))) = []
    /\ raci_pairs (filter (raci_of Sample.sub1) (subtask_raci (db w')))
       = [(Sample.alice, RaciLetter.R); (Sample.bob, RaciLetter.C);
          (Sample.carol, RaciLetter.A)]
    /\ st_id (swr_subtask (csr_subtask resp)) = Sample.sub1
    /\ swr_raci (csr_subtask resp)
       = {| raci_R := [Sample.alice]; raci_A := [Sample.carol];
            raci_C := [Sample.bob]; raci_I := [] |}.
Proof.
  eexists. eexists. split; [vm_compute; reflexivity|].
  vm_compute. repeat split.
Qed.

(** ** The progress of the parent task *)

Lemma subtask_findById_record E d sid s :
  SubTaskKnexRepository.findById E d sid = success s ->
  exists record,
    find (subtask_is sid) (subtask d) = Some record
    /\ st_taskId s = sb_task_id record
    /\ (sid <> "" -> st_id s = sid).
Proof.
  unfold SubTaskKnexRepository.findById.
  destruct (find (subtask_is sid) (subtask d)) as [record|] eqn:Hf; [|discriminate].
  intro H. exists record. split; [reflexivity|].
  apply find_some in Hf. destruct Hf as [_ Hid].
  unfold subtask_is in Hid. apply String.eqb_eq in Hid.
  revert H.
  unfold SubTaskKnexRepository.toDomain, SubTaskEntity.create,
    SubTaskEntity.construct, UUID.new. cbn [sp_id sp_taskId sp_title sp_createdBy
    sp_description sp_completed sp_createdAt sp_updatedAt falsy_opt].
  rewrite Hid.
  repeat match goal with
         | |- context [if ?c then _ else _] => destruct c eqn:?; try discriminate
         end.
  all: intro H; first [discriminate | injection H as <-]; simpl; split;
    try reflexivity; intro Hne.
  all: try reflexivity.
  all: destruct sid; [contradiction|discriminate].
Qed.

Lemma unique_key_filter {Row} (key : Row -> string) (l : list Row) (k : string) (a : Row) :
  NoDup (map key l) ->
  find (fun r => String.eqb (key r) k) l = Some a ->
  filter (fun r => String.eqb (key r) k) l = [a].
Proof.
  induction l as [|x l IH]; simpl; intros Hn Hf; [discriminate|].
  inversion Hn as [|? ? Hx Hl]; subst.
  destruct (String.eqb (key x) k) eqn:Hk.
  - injection Hf as ->. f_equal. apply filter_none. intros y Hy.
    destruct (String.eqb (key y) k) eqn:Hy'; [|reflexivity].
    apply String.eqb_eq in Hk, Hy'. exfalso. apply Hx.
    rewrite Hk, <- Hy'. now apply in_map.
  - now apply IH.
Qed.

(** [save] of a subtask whose row is stored: one [update], then the read. *)
Lemma save_existing rule E s w record :
  find (subtask_is (st_id s)) (subtask (db w)) = Some record ->
  SubTaskKnexRepository.save rule E s w
  = (Ret (SubTaskKnexRepository.findById E
            (SubTaskKnexRepository.fire_each rule
               (filter (subtask_is (st_id s)) (subtask (db w)))
               (with_subtask
                  (map (fun r => if subtask_is (st_id s) r
                                 then SubTaskKnexRepository.saved E s r else r)
                       (subtask (db w)))
                  (db w)))
            (st_id s)),
     {| db := SubTaskKnexRepository.fire_each rule
                (filter (subtask_is (st_id s)) (subtask (db w)))
                (with_subtask
                   (map (fun r => if subtask_is (st_id s) r
                                  then SubTaskKnexRepository.saved E s r else r)
                        (subtask (db w)))
                   (db w));
        trace := trace w |}).
Proof.
  intro H.
  unfold SubTaskKnexRepository.save, BaseKnexRepository.executeQuery, catch, bind,
    query, exec, SubTaskKnexRepository.update_where_id, SubTaskEntity.toObject.
  rewrite H. reflexivity.
Qed.

(** C1, as the code has it. A successful [updateSubTaskStatus] (subtask
    identifiers being unique and not empty) writes the row of the subtask and
    nothing else: the store afterwards is the store before with the
    completion flag and the updated-at of that row changed and with the
    subtask trigger of the store run once for the parent task. The service
    computes no progress and writes no task row: the row of the parent is
    what the trigger makes of it, and every other task row is as it was. The call emits "subtask updated" and then, whenever reading
    the parent task again succeeds, "task updated", whether its progress
    changed or not. *)
Theorem updateSubTaskStatus_writes_the_subtask_only (rule : Trigger) (E : Env)
  (sid : string) (done : bool) (user userRole : string) (w : World)
  (resp : SubTaskWithRaciDTO) (w' : World) :
  NoDup (map sb_id (subtask (db w))) ->
  sid <> "" ->
  TaskService.updateSubTaskStatus rule E sid done user userRole w
  = (Ret (success resp), w') ->
  exists s,
    SubTaskKnexRepository.findById E (db w) sid = success s
    /\ db w'
       = fire rule (st_taskId s)
           (with_subtask
              (map (fun r => if subtask_is sid r
                             then SubTaskKnexRepository.saved E
                                    (SubTaskEntity.set_completed (env_now E) done s) r
                             else r)
                   (subtask (db w)))
              (db w))
    /\ task (db w')
       = map (fun r => if task_is (st_taskId s) r
                       then rule (filter (subtask_of (st_taskId s)) (subtask (db w'))) r
                       else r)
             (task (db w))
    /\ trace w'
       = (trace w
          ++ SubTaskUpdated (swr_subtask resp)
             :: match TaskKnexRepository.findById E (db w') (st_taskId s) with
                | success t => [TaskUpdated (TaskEntity.toObject t)]
                | failure _ => []
                end)%list.
Proof.
  intros Hnd Hne. unfold TaskService.updateSubTaskStatus.
  unfold catch at 1, bind at 1, query at 1.
  destruct (SubTaskKnexRepository.findById E (db w) sid) as [s|e] eqn:Hf;
    [|discriminate].
  destruct (TaskService.canModifyTask _ (st_taskId s) user userRole) as [[|]|e];
    try discriminate.
  destruct (subtask_findById_record _ _ _ _ Hf) as (record & Hfind & Htask & Hid).
  specialize (Hid Hne).
  assert (Hs' : (if done then SubTaskEntity.markCompleted (env_now E) s
                 else SubTaskEntity.markIncomplete (env_now E) s)
                = SubTaskEntity.set_completed (env_now E) done s)
    by now destruct done.
  rewrite Hs'.
  set (s' := SubTaskEntity.set_completed (env_now E) done s).
  assert (Hid' : st_id s' = sid) by exact Hid.
  pose proof (unique_key_filter sb_id _ sid record Hnd Hfind) as Hfilter.
  change (filter (subtask_is sid) (subtask (db w)) = [record]) in Hfilter.
  rewrite <- Hid' in Hfind, Hfilter.
  unfold bind. rewrite (save_existing rule E s' w record Hfind).
  rewrite Hfilter. cbn [SubTaskKnexRepository.fire_each fold_left].
  rewrite <- Htask, Hid'.
  set (d' := fire rule (st_taskId s) _).
  destruct (SubTaskKnexRepository.findById E d' sid) as [updated|e] eqn:Hupd;
    [|discriminate].
  unfold query, emit, ret. cbn [db trace].
  destruct (TaskKnexRepository.findById E d' (st_taskId s)) as [t|e] eqn:Hparent.
  - cbn [db trace]. intro H. injection H as <- <-. exists s.
    cbn [db trace swr_subtask]. rewrite Hparent. repeat split.
    now rewrite <- app_assoc.
  - cbn [db trace]. intro H. injection H as <- <-. exists s.
    cbn [db trace swr_subtask]. rewrite Hparent. repeat split.
Qed.

(* ===================================================================== *)
(** * The properties on the sample data *)
(* ===================================================================== *)

Lemma sample_planned_invariant : TaskEntity.invariant Sample.planned.
Proof.
  unfold TaskEntity.invariant. simpl. repeat split; try lia; try discriminate.
  intros s e Hs He. injection Hs as <-. injection He as <-. lia.
Defined.

(** On the sample task: a priority of 4 is accepted and stamps the instant
    of the call; the invariants hold before and after. *)
Lemma Task_mutation_revalidates_sample :
  TaskEntity.invariant Sample.planned
  /\ TaskEntity.acceptable (TaskEntity.UpdatePriority 4)
  /\ TaskEntity.invariant
       (snd (TaskEntity.apply 5000 (TaskEntity.UpdatePriority 4) Sample.planned))
  /\ updatedAt (snd (TaskEntity.apply 5000 (TaskEntity.UpdatePriority 4) Sample.planned))
     = 5000.
Proof.
  split; [exact sample_planned_invariant|].
  exact (Task_mutation_revalidates 5000 (TaskEntity.UpdatePriority 4) Sample.planned
           sample_planned_invariant).
Defined.

Lemma sample_bob_consulted : holds_only_C_or_I Sample.entries Sample.bob.
Proof.
  intros e [<- | [<- | []]] Hu.
  - discriminate Hu.
  - now left.
Defined.


(** C4 on the sample task: Alice, responsible, is made accountable; the
    table keeps its two rows and a read returns the one letter A for her.
    The same at the level of the first subtask. *)
Lemma saveRaci_replaces_letter_sample :
  (List.length
     (task_raci (db (snd (RaciKnexRepository.saveTaskRaci (Sample.at_ 6000 "")
                            Sample.taskA Sample.alice RaciLetter.A
                            Sample.three_subtasks))))
   = 2%nat
   /\ exists entries,
        RaciKnexRepository.findByTaskId
          (db (snd (RaciKnexRepository.saveTaskRaci (Sample.at_ 6000 "")
                      Sample.taskA Sample.alice RaciLetter.A Sample.three_subtasks)))
          Sample.taskA = success entries
        /\ map letter (filter (fun en => String.eqb (userUuid en) Sample.alice) entries)
           = [RaciLetter.A])
  /\ (List.length
        (subtask_raci (db (snd (RaciKnexRepository.saveSubTaskRaci (Sample.at_ 6000 "")
                                  Sample.sub1 Sample.alice RaciLetter.A
                                  Sample.three_subtasks))))
      = 6%nat
      /\ exists entries,
           RaciKnexRepository.findBySubTaskId
             (db (snd (RaciKnexRepository.saveSubTaskRaci (Sample.at_ 6000 "")
                         Sample.sub1 Sample.alice RaciLetter.A Sample.three_subtasks)))
             Sample.sub1 = success entries
           /\ map letter (filter (fun en => String.eqb (userUuid en) Sample.alice) entries)
              = [RaciLetter.A]).
Proof.
  split.
  - destruct (proj1 (saveRaci_replaces_letter (Sample.at_ 6000 "") Sample.taskA Sample.alice
                       RaciLetter.A Sample.three_subtasks
                       (TaskService.stamped_row (Sample.at_ 1000 "") Sample.taskA
                          Sample.alice RaciLetter.R))
                    eq_refl) as (_ & Hlen & _ & _ & Hread).
    split; [exact Hlen | exact Hread].
  - destruct (proj2 (saveRaci_replaces_letter (Sample.at_ 6000 "") Sample.sub1 Sample.alice
                       RaciLetter.A Sample.three_subtasks
                       (TaskService.stamped_row (Sample.at_ 2000 "") Sample.sub1
                          Sample.alice RaciLetter.R))
                    eq_refl) as (_ & Hlen & _ & _ & Hread).
    split; [exact Hlen | exact Hread].
Defined.

(** C3 on the sample data: Alice is named for R and for A; the row of the
    task and her first RACI row are inserted, the second RACI row breaks the
    primary key; the call fails and the store is the empty one again. *)
Lemma createTask_rolls_back_on_raci_failure_sample :
  TaskService.createTask (Sample.at_ 1000 Sample.taskA) Sample.input_twice Sample.alice
    Sample.empty
  = (Ret (failure "duplicate key value violates unique constraint task_raci_pkey"),
     {| db := db Sample.empty;
        trace := [TransactionBegin; TransactionRollback] |}).
Proof.
  refine (createTask_rolls_back_on_raci_failure
            (Sample.at_ 1000 Sample.taskA) Sample.input_twice Sample.alice Sample.empty
            Sample.created
            (with_task [TaskService.task_row Sample.created] (db Sample.empty))
            (TaskService.task_row Sample.created)
            {| in_R := Some [Sample.alice]; in_A := Some [Sample.alice];
               in_C := None; in_I := None |}
            "duplicate key value violates unique constraint task_raci_pkey"
            (snd (TaskService.insertRaci (Sample.at_ 1000 Sample.taskA) Sample.taskA
                    {| in_R := Some [Sample.alice]; in_A := Some [Sample.alice];
                       in_C := None; in_I := None |}
                    {| db := with_task [TaskService.task_row Sample.created]
                               (db Sample.empty);
                       trace := [TransactionBegin] |}))
            _ _ _ _ _ _); reflexivity.
Defined.

(** On the sample task, which has no subtask yet: Alice, of role CP,
    creates the first subtask, and it has the two RACI pairs of the task,
    Alice responsible and Bob consulted. *)
Lemma createSubTask_copies_raci_sample :
  exists resp w',
    TaskService.createSubTask no_trigger (Sample.at_ 2000 Sample.sub1) Sample.taskA
      "step1" None Sample.alice "CP" Sample.task_created
    = (Ret (success resp), w')
    /\ st_id (swr_subtask (csr_subtask resp)) = Sample.sub1
    /\ raci_pairs (filter (raci_of Sample.sub1) (subtask_raci (db w')))
       = [(Sample.alice, RaciLetter.R); (Sample.bob, RaciLetter.C)]
    /\ task_raci (db w') = task_raci (db Sample.task_created).
Proof.
  destruct (TaskService.createSubTask no_trigger (Sample.at_ 2000 Sample.sub1)
              Sample.taskA "step1" None Sample.alice "CP" Sample.task_created)
    as [[[resp|e]|e] w'] eqn:Hrun; try (vm_compute in Hrun; discriminate).
  exists resp, w'. split; [reflexivity|].
  assert (Hclock : later_than_namesakes (Sample.at_ 2000 Sample.sub1) Sample.taskA
                     "step1" Sample.alice (db Sample.task_created))
    by (intros r []).
  assert (Hfk : subtask_raci_references (db Sample.task_created))
    by (intros r []).
  destruct (createSubTask_copies_raci no_trigger (Sample.at_ 2000 Sample.sub1)
              Sample.taskA "step1" None Sample.alice "CP" Sample.task_created
              resp w' Hclock Hfk Hrun) as (Hid & _ & Hpairs & Htask & _).
  change (st_id (swr_subtask (csr_subtask resp)) = Sample.sub1) in Hid.
  rewrite Hid in Hpairs.
  split; [exact Hid|]. split; [|exact Htask].
  rewrite Hpairs. reflexivity.
Defined.

(** C9 on the sample data: the task is created with progress 0, and an
    update that supplies every field leaves the stored progress at 0. *)
Lemma progress_is_never_an_input_sample :
  (exists t,
      task (db Sample.task_created)
      = (task (db Sample.empty) ++ [TaskService.task_row t])%list
      /\ tk_progress (TaskService.task_row t) = 0%Q)
  /\ map (fun r => (tk_id r, tk_progress r))
         (task (db (snd (TaskService.updateTask (Sample.at_ 7000 "") Sample.taskA
                           {| ui_phaseCode := Some "A"; ui_pageId := None;
                              ui_title := Some "Migrate all pages";
                              ui_description := Some "every page";
                              ui_priority := Some 5;
                              ui_ownerUuid := Some Sample.bob;
                              ui_plannedStart := Some 8000; ui_plannedEnd := Some 9000;
                              ui_profilesImpacted := Some [];
                              ui_raci := None |}
                           Sample.alice "CP" Sample.three_subtasks))))
     = [(Sample.taskA, 0%Q)].
Proof.
  split.
  - destruct (TaskService.createTask (Sample.at_ 1000 Sample.taskA) Sample.input
                Sample.alice Sample.empty) as [[[resp|e]|e] w'] eqn:Hrun;
      try (vm_compute in Hrun; discriminate).
    destruct (proj1 progress_is_never_an_input _ _ _ _ _ _ Hrun) as (t & Htasks & H0 & _).
    exists t. split; [|exact H0].
    rewrite <- Htasks.
    assert (Hw : w' = Sample.task_created).
    { assert (Hs : snd (TaskService.createTask (Sample.at_ 1000 Sample.taskA) Sample.input
                          Sample.alice Sample.empty) = Sample.task_created)
        by (vm_compute; reflexivity).
      now rewrite Hrun in Hs. }
    now rewrite Hw.
  - rewrite (proj2 progress_is_never_an_input (Sample.at_ 7000 "") Sample.taskA _
               Sample.alice "CP" Sample.three_subtasks).
    + reflexivity.
    + repeat constructor. intros [].
Defined.

(** C1 on the sample data, with the trigger function of the migration: the
    first of three subtasks is completed; the store runs
    [fn_task_progress] for the parent, whose stored progress becomes 33.33;
    the call emits "subtask updated", then "task updated". *)
Lemma updateSubTaskStatus_writes_the_subtask_only_sample :
  exists resp w',
    TaskService.updateSubTaskStatus (fn_task_progress 5000) (Sample.at_ 5000 "") Sample.sub1 true
      Sample.alice "CP" Sample.three_subtasks
    = (Ret (success resp), w')
    /\ stored_progress (db w') Sample.taskA = [3333 # 100]
    /\ map sb_completed (subtask (db w')) = [true; false; false]
    /\ task_raci (db w') = task_raci (db Sample.three_subtasks)
    /\ map is_notification
         (skipn (List.length (trace Sample.three_subtasks)) (trace w'))
       = [true; true].
Proof.
  destruct (TaskService.updateSubTaskStatus (fn_task_progress 5000) (Sample.at_ 5000 "")
              Sample.sub1 true Sample.alice "CP" Sample.three_subtasks)
    as [[[resp|e]|e] w'] eqn:Hrun; try (vm_compute in Hrun; discriminate).
  exists resp, w'. split; [reflexivity|].
  assert (Hnd : NoDup (map sb_id (subtask (db Sample.three_subtasks)))).
  { repeat constructor; simpl; intuition discriminate. }
  assert (Hne : Sample.sub1 <> "") by discriminate.
  destruct (updateSubTaskStatus_writes_the_subtask_only (fn_task_progress 5000)
              (Sample.at_ 5000 "") Sample.sub1 true Sample.alice "CP"
              Sample.three_subtasks resp w' Hnd Hne Hrun)
    as (s & Hfind & Hdb & _ & Htrace).
  vm_compute in Hfind. injection Hfind as <-.
  rewrite Htrace, Hdb. vm_compute. repeat split.
Defined.

(** C1 is not what the code does. Alice completes the first of three
    subtasks. The specification gives the parent round(100 x 1 / 3) = 33.
    With the trigger function of the migration the stored progress is 33.33;
    with no trigger fired it stays at 0: the service itself never writes
    it. *)
Lemma progress_is_not_the_rounded_ratio :
  succeeded (fst (TaskService.updateSubTaskStatus (fn_task_progress 5000) (Sample.at_ 5000 "")
                    Sample.sub1 true Sample.alice "CP" Sample.three_subtasks)) = true
  /\ claimed_progress
       (filter (subtask_of Sample.taskA)
          (subtask (db (snd (TaskService.updateSubTaskStatus (fn_task_progress 5000)
                               (Sample.at_ 5000 "") Sample.sub1 true Sample.alice "CP"
                               Sample.three_subtasks))))) = 33
  /\ stored_progress
       (db (snd (TaskService.updateSubTaskStatus (fn_task_progress 5000) (Sample.at_ 5000 "")
                   Sample.sub1 true Sample.alice "CP" Sample.three_subtasks)))
       Sample.taskA = [3333 # 100]
  /\ Qeq_bool (3333 # 100) (inject_Z 33) = false
  /\ succeeded (fst (TaskService.updateSubTaskStatus no_trigger (Sample.at_ 5000 "")
                       Sample.sub1 true Sample.alice "CP" Sample.three_subtasks)) = true
  /\ stored_progress
       (db (snd (TaskService.updateSubTaskStatus no_trigger (Sample.at_ 5000 "")
                   Sample.sub1 true Sample.alice "CP" Sample.three_subtasks)))
       Sample.taskA = [0%Q]
  /\ Qeq_bool 0 (inject_Z 33) = false.
Proof. vm_compute. repeat split. Qed.

(** C2 is not what the code does. Alice creates the sample task: the call
    succeeds and its trace is the beginning of the transaction, the "task
    created" notification, then the commit; the notification is not after
    the commit. And when the commit of the same call fails, the call fails
    and the store is rolled back to the empty one, yet the notification has
    been emitted. *)
Lemma notification_is_not_after_commit :
  succeeded (fst (TaskService.createTask (Sample.at_ 1000 Sample.taskA) Sample.input
                    Sample.alice Sample.empty)) = true
  /\ (exists t,
         trace (snd (TaskService.createTask (Sample.at_ 1000 Sample.taskA) Sample.input
                       Sample.alice Sample.empty))
         = [TransactionBegin; TaskCreated t; TransactionCommit])
  /\ notified_after_commit false
       (trace (snd (TaskService.createTask (Sample.at_ 1000 Sample.taskA) Sample.input
                      Sample.alice Sample.empty))) = false
  /\ fst (TaskService.createTask (Sample.commit_fails 1000 Sample.taskA) Sample.input
            Sample.alice Sample.empty)
     = Ret (failure "Connection terminated unexpectedly")
  /\ db (snd (TaskService.createTask (Sample.commit_fails 1000 Sample.taskA) Sample.input
                Sample.alice Sample.empty))
     = db Sample.empty
  /\ (exists t,
         trace (snd (TaskService.createTask (Sample.commit_fails 1000 Sample.taskA)
                       Sample.input Sample.alice Sample.empty))
         = [TransactionBegin; TaskCreated t; TransactionRollback]).
Proof.
  split; [vm_compute; reflexivity|]. split.
  { eexists. vm_compute. reflexivity. }
  split; [vm_compute; reflexivity|].
  split; [vm_compute; reflexivity|].
  split; [vm_compute; reflexivity|].
  eexists. vm_compute. reflexivity.
Qed.
(* ===================================================================== *)
(** * The authorization policy on the repositories of the service *)
(* ===================================================================== *)

(** ** Well-formed identifiers *)

Lemma hex_run_inv (n : nat) (s r : string) :
  UUID.hex_run n s = Some r ->
  exists p, s = p ++ r /\ String.length p = n
            /\ ProfileEntity.all_chars UUID.is_hex p = true.
Proof.
  revert s. induction n as [|n IH]; simpl; intros s H.
  - injection H as <-. exists EmptyString. now repeat split.
  - destruct s as [|c s]; [discriminate|].
    destruct (UUID.is_hex c) eqn:Hc; [|discriminate].
    destruct (IH _ H) as (p & -> & Hl & Hp).
    exists (String c p). simpl. rewrite Hc, Hp, Hl. now repeat split.
Qed.

Lemma dash_inv (s r : string) : UUID.dash s = Some r <-> s = String "-" r.
Proof.
  unfold UUID.dash. destruct s as [|c s]; [split; discriminate|].
  destruct (Ascii.eqb c "-") eqn:Hc; split; intro H.
  - apply Ascii.eqb_eq in Hc. now injection H as <-; subst.
  - now injection H as _ <-.
  - discriminate.
  - injection H as -> _. discriminate.
Qed.

Ltac create_inv_close :=
  repeat split;
  first [ assumption | discriminate | intros _; assumption | now intros ? [= <-] ].

Lemma TaskEntity_create_inv now fresh props t :
  TaskEntity.create now fresh props = success t ->
  id t = (if falsy_opt (p_id props) then fresh
          else match p_id props with Some s => s | None => "" end)
  /\ (falsy_opt (p_id props) = false -> UUID.isValid (id t) = true)
  /\ phaseCode t = p_phaseCode props
  /\ PhaseCode.isValid (phaseCode t) = true
  /\ pageId t = p_pageId props
  /\ title t = p_title props
  /\ description t = p_description props
  /\ priority t = p_priority props
  /\ ownerUuid t = match p_ownerUuid props with
                   | Some s => if falsy s then None else Some s
                   | None => None
                   end
  /\ (forall o, ownerUuid t = Some o -> UUID.isValid o = true)
  /\ progress t = p_progress props
  /\ createdBy t = p_createdBy props
  /\ UUID.isValid (createdBy t) = true
  /\ createdAt t = match p_createdAt props with Some d => d | None => now end
  /\ updatedAt t = match p_updatedAt props with Some d => d | None => now end
  /\ plannedStart t = p_plannedStart props
  /\ plannedEnd t = p_plannedEnd props.
Proof.
  unfold TaskEntity.create, TaskEntity.construct, TaskEntity.owner_of,
    UUID.new, PhaseCode.new, Priority.new.
  destruct (blank (p_title props)); [discriminate|].
  destruct (falsy (p_phaseCode props)); [discriminate|].
  destruct (falsy (p_createdBy props)); [discriminate|].
  destruct ((p_priority props <? 1) || (5 <? p_priority props))%bool; [discriminate|].
  destruct (Qltb (p_progress props) 0 || Qltb 100 (p_progress props))%bool;
    [discriminate|].
  destruct (TaskEntity.dates_out_of_order _ _); [discriminate|].
  destruct (falsy_opt (p_id props)) eqn:Hid.
  - destruct (PhaseCode.isValid (p_phaseCode props)) eqn:Hph; [|discriminate].
    destruct (Priority.isValid (p_priority props)); [|discriminate].
    destruct (p_ownerUuid props) as [o|].
    + destruct (falsy o).
      * destruct (UUID.isValid (p_createdBy props)) eqn:Hcb; [|discriminate].
        intros [= <-]. simpl. create_inv_close.
      * destruct (UUID.isValid o) eqn:Ho; [|discriminate].
        destruct (UUID.isValid (p_createdBy props)) eqn:Hcb; [|discriminate].
        intros [= <-]. simpl. create_inv_close.
    + destruct (UUID.isValid (p_createdBy props)) eqn:Hcb; [|discriminate].
      intros [= <-]. simpl. create_inv_close.
  - destruct (UUID.isValid (match p_id props with Some s => s | None => "" end))
      eqn:Hi; [|discriminate].
    destruct (PhaseCode.isValid (p_phaseCode props)) eqn:Hph; [|discriminate].
    destruct (Priority.isValid (p_priority props)); [|discriminate].
    destruct (p_ownerUuid props) as [o|].
    + destruct (falsy o).
      * destruct (UUID.isValid (p_createdBy props)) eqn:Hcb; [|discriminate].
        intros [= <-]. simpl. create_inv_close.
      * destruct (UUID.isValid o) eqn:Ho; [|discriminate].
        destruct (UUID.isValid (p_createdBy props)) eqn:Hcb; [|discriminate].
        intros [= <-]. simpl. create_inv_close.
    + destruct (UUID.isValid (p_createdBy props)) eqn:Hcb; [|discriminate].
      intros [= <-]. simpl. create_inv_close.
Qed.


(** ** [Number] of an identifier *)


















(** ** [canModifyTask] and [canChangePhase] *)

Lemma findById_row E d i t :
  TaskKnexRepository.findById E d i = success t ->
  exists r rest, filter (task_is i) (task d) = r :: rest
                 /\ TaskKnexRepository.toDomain E r = success t.
Proof.
  unfold TaskKnexRepository.findById. rewrite find_filter.
  destruct (filter (task_is i) (task d)) as [|r rest]; [discriminate|].
  intro H. now exists r, rest.
Qed.








(* ===================================================================== *)
(** * Further properties of the code

    The store checks the primary key of a table when a row is inserted. Of
    the foreign keys of the schema it has the [ON DELETE CASCADE]; it does
    not check that an inserted row refers to a stored one. A property that
    states that an insertion succeeds therefore takes the task, the subtask
    or the profiles referred to as hypotheses, and the use cases and the
    deletions are shown to keep the references of the tables of the store.
    Phases, pages and users are not tables of the store: the foreign keys
    towards them are taken to hold. *)
(* ===================================================================== *)

(** ** Result.ts *)

(** X1. [flatMap] chains results as a monad does: a success is passed to the
    function, a failure is passed through, chaining is associative, and
    [map] is [flatMap] followed by [success]. *)
Theorem Result_flatMap_chains {T U V : Type} (fn : T -> Result U) (g : U -> Result V)
  (h : T -> U) (r : Result T) (v : T) (e : Error) :
  Result.flatMap fn (success v) = fn v
  /\ Result.flatMap fn (failure e) = failure e
  /\ Result.flatMap success r = r
  /\ Result.flatMap g (Result.flatMap fn r)
     = Result.flatMap (fun x => Result.flatMap g (fn x)) r
  /\ Result.map h r = Result.flatMap (fun x => success (h x)) r
  /\ Result.match_ (fun x => Result.getValue (Result.map h r) = Ret (h x))
                   (fun err => Result.getErrorValue (Result.map h r) = Ret err) r.
Proof.
  repeat split; destruct r; reflexivity.
Qed.

(** ** ValueObjects.ts *)

Lemma toString16_digit (r : N) :
  (r < 16)%N ->
  exists c, UUID.toString16 r = String c EmptyString /\ UUID.is_hex c = true.
Proof.
  intro H.
  assert (Hin : In r [0; 1; 2; 3; 4; 5; 6; 7; 8; 9; 10; 11; 12; 13; 14; 15]%N).
  { simpl. lia. }
  simpl in Hin.
  repeat (destruct Hin as [<-|Hin]; [eexists; split; reflexivity|]).
  destruct Hin.
Qed.

Lemma variant_digit (r : N) :
  (r < 16)%N ->
  exists c, UUID.toString16 (N.lor (N.land r 3) 8) = String c EmptyString
            /\ UUID.is_hex c = true
            /\ In c ["8"; "9"; "a"; "b"]%char.
Proof.
  intro H.
  assert (Hin : In r [0; 1; 2; 3; 4; 5; 6; 7; 8; 9; 10; 11; 12; 13; 14; 15]%N).
  { simpl. lia. }
  simpl in Hin.
  repeat (destruct Hin as [<-|Hin];
          [eexists; split; [reflexivity|split; [reflexivity|simpl; tauto]]|]).
  destruct Hin.
Qed.

(** X2. [UUID.create] never throws: whatever the draws of [Math.random],
    the string it builds passes [UUID.isValid]; it has 36 characters, the
    version digit 4 and a variant digit among 8, 9, a, b. *)
Theorem UUID_create_is_valid (random : nat -> N) :
  (forall n, (random n < 16)%N) ->
  exists s,
    UUID.create random = success s
    /\ UUID.isValid s = true
    /\ String.length s = 36%nat
    /\ String.get 14 s = Some "4"%char
    /\ exists c, String.get 19 s = Some c /\ In c ["8"; "9"; "a"; "b"]%char.
Proof.
  intro Hr.
  unfold UUID.create.
  cbn [UUID.replace_xy Ascii.eqb Bool.eqb orb].
  unfold UUID.replacement. cbn [Ascii.eqb Bool.eqb].
  destruct (variant_digit (random 15%nat) (Hr _)) as (cv & Hcv & Hhv & Hinv).
  rewrite Hcv.
  repeat match goal with
         | |- context [UUID.toString16 (random ?k)] =>
             let c := fresh "c" in
             let Hc := fresh "Hc" in
             let Hh := fresh "Hh" in
             destruct (toString16_digit (random k) (Hr k)) as (c & Hc & Hh);
             rewrite Hc; clear Hc
         end.
  cbn [String.append].
  match goal with
  | |- exists s, UUID.new ?str = _ /\ _ =>
      assert (Hvalid : UUID.isValid str = true)
  end.
  { unfold UUID.isValid.
    repeat first
      [ match goal with
        | H : UUID.is_hex ?c = true |- context [UUID.is_hex ?c] => rewrite H
        end
      | progress cbn [UUID.hex_run UUID.andThen UUID.dash Ascii.eqb Bool.eqb]
      | match goal with
        | |- context [UUID.is_hex (Ascii ?a ?b ?c0 ?d ?e ?f ?g ?h)] =>
            change (UUID.is_hex (Ascii a b c0 d e f g h)) with true
        end ].
    reflexivity. }
  unfold UUID.new. rewrite Hvalid.
  eexists. split; [reflexivity|]. split; [exact Hvalid|].
  split; [reflexivity|]. split; [reflexivity|].
  exists cv. split; [reflexivity|exact Hinv].
Qed.

(** X2 on a sample: the draws 0, 1, ..., 15, 0, 1, ... *)
Lemma UUID_create_is_valid_sample :
  exists s,
    UUID.create (fun n => N.of_nat (n mod 16)) = success s
    /\ UUID.isValid s = true
    /\ String.length s = 36%nat
    /\ String.get 14 s = Some "4"%char
    /\ exists c, String.get 19 s = Some c /\ In c ["8"; "9"; "a"; "b"]%char.
Proof.
  apply (UUID_create_is_valid (fun n => N.of_nat (n mod 16))).
  intro n. pose proof (Nat.mod_upper_bound n 16). lia.
Defined.

Lemma hex_run_app (p r : string) :
  ProfileEntity.all_chars UUID.is_hex p = true ->
  UUID.hex_run (String.length p) (p ++ r) = Some r.
Proof.
  induction p as [|c p IH]; simpl; intro H; [reflexivity|].
  apply andb_prop in H as [Hc Hp]. rewrite Hc. now apply IH.
Qed.

(** X3. [UUID.isValid] accepts exactly the strings made of five groups of
    8, 4, 4, 4 and 12 hexadecimal digits, of either case, separated by
    dashes, with nothing before or after. *)
Theorem UUID_isValid_shape (value : string) :
  UUID.isValid value = true
  <-> exists a b c d e,
        value = a ++ "-" ++ b ++ "-" ++ c ++ "-" ++ d ++ "-" ++ e
        /\ map String.length [a; b; c; d; e] = [8; 4; 4; 4; 12]%nat
        /\ forallb (ProfileEntity.all_chars UUID.is_hex) [a; b; c; d; e] = true.
Proof.
  unfold UUID.isValid, UUID.andThen. split.
  - intro H.
    destruct (UUID.hex_run 8 value) as [s1|] eqn:H1; [|discriminate].
    destruct (UUID.dash s1) as [s2|] eqn:H2; [|discriminate].
    destruct (UUID.hex_run 4 s2) as [s3|] eqn:H3; [|discriminate].
    destruct (UUID.dash s3) as [s4|] eqn:H4; [|discriminate].
    destruct (UUID.hex_run 4 s4) as [s5|] eqn:H5; [|discriminate].
    destruct (UUID.dash s5) as [s6|] eqn:H6; [|discriminate].
    destruct (UUID.hex_run 4 s6) as [s7|] eqn:H7; [|discriminate].
    destruct (UUID.dash s7) as [s8|] eqn:H8; [|discriminate].
    destruct (UUID.hex_run 12 s8) as [[|x s9]|] eqn:H9; try discriminate.
    apply hex_run_inv in H1 as (a & -> & La & Ha).
    apply hex_run_inv in H3 as (b & -> & Lb & Hb).
    apply hex_run_inv in H5 as (c & -> & Lc & Hc).
    apply hex_run_inv in H7 as (d & -> & Ld & Hd).
    apply hex_run_inv in H9 as (e & -> & Le & He).
    apply dash_inv in H2 as ->. apply dash_inv in H4 as ->.
    apply dash_inv in H6 as ->. apply dash_inv in H8 as ->.
    exists a, b, c, d, e. simpl.
    rewrite La, Lb, Lc, Ld, Le, Ha, Hb, Hc, Hd, He.
    split; [|now split].
    assert (Hnil : forall s, s ++ "" = s)
      by (induction s as [|y s IH]; simpl; [reflexivity|now rewrite IH]).
    now rewrite Hnil.
  - intros (a & b & c & d & e & -> & Hl & Hh).
    simpl in Hl. injection Hl as La Lb Lc Ld Le.
    simpl in Hh. rewrite andb_true_r in Hh.
    apply andb_prop in Hh as [Ha Hh]. apply andb_prop in Hh as [Hb Hh].
    apply andb_prop in Hh as [Hc Hh]. apply andb_prop in Hh as [Hd He].
    assert (Hrun : forall p n r, String.length p = n ->
                     ProfileEntity.all_chars UUID.is_hex p = true ->
                     UUID.hex_run n (p ++ r) = Some r)
      by (intros p n r <-; apply hex_run_app).
    rewrite (Hrun a 8%nat _ La Ha). simpl UUID.dash; cbv beta iota.
    rewrite (Hrun b 4%nat _ Lb Hb). simpl UUID.dash; cbv beta iota.
    rewrite (Hrun c 4%nat _ Lc Hc). simpl UUID.dash; cbv beta iota.
    rewrite (Hrun d 4%nat _ Ld Hd). simpl UUID.dash; cbv beta iota.
    assert (Hnil : forall s, s ++ "" = s)
      by (induction s as [|y s IH]; simpl; [reflexivity|now rewrite IH]).
    rewrite <- (Hnil e).
    rewrite (Hrun e 12%nat _ Le He). reflexivity.
Qed.

(** ** Raci.ts *)

Lemma UUID_valid_not_falsy (s : string) : UUID.isValid s = true -> falsy s = false.
Proof. destruct s; [discriminate|reflexivity]. Qed.

Lemma RaciLetter_new_inv (v : string) (l : RaciLetter.t) :
  RaciLetter.new v = success l -> RaciLetter.getValue l = v.
Proof.
  unfold RaciLetter.new, RaciLetter.isValid, RaciLetter.validLetters, RaciLetter.held.
  cbn [existsb].
  destruct (String.eqb v "R") eqn:HR;
    [apply String.eqb_eq in HR; subst; cbn; now intros [= <-]|].
  destruct (String.eqb v "A") eqn:HA;
    [apply String.eqb_eq in HA; subst; cbn; now intros [= <-]|].
  destruct (String.eqb v "C") eqn:HC;
    [apply String.eqb_eq in HC; subst; cbn; now intros [= <-]|].
  destruct (String.eqb v "I") eqn:HI;
    [apply String.eqb_eq in HI; subst; cbn; now intros [= <-]|].
  discriminate.
Qed.

(** X4. [Raci.create] and [toObject] are inverse to each other: the object
    of an entity with well-formed identifiers is accepted and gives the
    entity back, and the properties that [create] accepts are the object of
    the entity it builds, whose identifiers are then well-formed UUIDs.
    [updateLetter] refuses what is not a RACI letter and leaves the entity
    as it was. *)
Theorem Raci_create_toObject :
  (forall r,
      UUID.isValid (ra_entityId r) = true ->
      UUID.isValid (ra_userUuid r) = true ->
      RaciEntity.create (RaciEntity.toObject r) = success r)
  /\ (forall props r,
         RaciEntity.create props = success r ->
         RaciEntity.toObject r = props
         /\ UUID.isValid (ra_entityId r) = true
         /\ UUID.isValid (ra_userUuid r) = true)
  /\ (forall v r,
         match RaciEntity.updateLetter v r with
         | (failure _, r') => r' = r /\ RaciLetter.isValid v = false
         | (success _, r') =>
             RaciEntity.toObject r'
             = {| rp_entityId := ra_entityId r; rp_userUuid := ra_userUuid r;
                  rp_letter := v |}
         end).
Proof.
  split; [|split].
  - intros [e u l] He Hu. simpl in He, Hu.
    unfold RaciEntity.create, RaciEntity.toObject, RaciEntity.construct, UUID.new.
    cbn [rp_entityId rp_userUuid rp_letter ra_entityId ra_userUuid ra_letter].
    rewrite (UUID_valid_not_falsy _ He), (UUID_valid_not_falsy _ Hu), He, Hu.
    destruct l; reflexivity.
  - intros [e u v] r. unfold RaciEntity.create, RaciEntity.construct, UUID.new.
    cbn [rp_entityId rp_userUuid rp_letter].
    destruct (falsy e); [discriminate|]. destruct (falsy u); [discriminate|].
    destruct (falsy v); [discriminate|].
    destruct (UUID.isValid e) eqn:He; [|discriminate].
    destruct (UUID.isValid u) eqn:Hu; [|discriminate].
    destruct (RaciLetter.new v) as [l|err] eqn:Hl; [|discriminate].
    intros [= <-]. unfold RaciEntity.toObject. simpl.
    now rewrite (RaciLetter_new_inv _ _ Hl).
  - intros v r. unfold RaciEntity.updateLetter.
    destruct (RaciLetter.new v) as [l|err] eqn:Hl.
    + unfold RaciEntity.toObject. simpl. now rewrite (RaciLetter_new_inv _ _ Hl).
    + split; [reflexivity|]. unfold RaciLetter.new in Hl.
      now destruct (RaciLetter.isValid v).
Qed.

(** X4 on a sample: Alice accountable for the sample task. *)
Lemma Raci_create_toObject_sample :
  RaciEntity.create {| rp_entityId := Sample.taskA; rp_userUuid := Sample.alice;
                       rp_letter := "A" |}
  = success {| ra_entityId := Sample.taskA; ra_userUuid := Sample.alice;
               ra_letter := RaciLetter.A |}.
Proof.
  exact (proj1 Raci_create_toObject
           {| ra_entityId := Sample.taskA; ra_userUuid := Sample.alice;
              ra_letter := RaciLetter.A |} eq_refl eq_refl).
Defined.

(** ** SubTask.ts *)

Lemma SubTask_create_invariant now fresh props s :
  SubTaskEntity.create now fresh props = success s -> subtask_invariant s.
Proof.
  unfold SubTaskEntity.create, SubTaskEntity.construct, UUID.new.
  destruct (blank (sp_title props)) eqn:Ht; [discriminate|].
  destruct (falsy (sp_taskId props)); [discriminate|].
  destruct (if falsy_opt (sp_id props) then _ else _); [|discriminate].
  destruct (UUID.isValid (sp_taskId props)) eqn:H1; [|discriminate].
  destruct (UUID.isValid (sp_createdBy props)) eqn:H2; [|discriminate].
  intros [= <-]. now repeat split.
Qed.

(** X5. Whatever sequence of mutating methods is called on a [SubTask]
    that [create] built, the entity keeps its identifier, its task, its
    creator and its creation date, and its title stays non-blank: a blank
    title is refused and leaves the entity as it was. *)
Theorem SubTask_mutators_keep_identity (now : Z) (fresh : string)
  (props : SubTaskProps) (s : SubTask) (calls : list (Z * SubTaskMutation)) :
  SubTaskEntity.create now fresh props = success s ->
  let s' := applyAllSubTask calls s in
  subtask_invariant s'
  /\ st_id s' = st_id s /\ st_taskId s' = st_taskId s
  /\ st_createdBy s' = st_createdBy s /\ st_createdAt s' = st_createdAt s
  /\ forall at_ v, blank v = true ->
       applySubTask at_ (SubTaskUpdateTitle v) s'
       = (failure "SubTask title is required", s').
Proof.
  intro Hc. apply SubTask_create_invariant in Hc.
  cbv zeta. revert s Hc.
  induction calls as [|[at_ m] calls IH]; intros s Hinv; simpl.
  - repeat split; try apply Hinv.
    intros at_ v Hv. unfold SubTaskEntity.updateTitle. now rewrite Hv.
  - assert (Hstep : subtask_invariant (snd (applySubTask at_ m s))
                    /\ st_id (snd (applySubTask at_ m s)) = st_id s
                    /\ st_taskId (snd (applySubTask at_ m s)) = st_taskId s
                    /\ st_createdBy (snd (applySubTask at_ m s)) = st_createdBy s
                    /\ st_createdAt (snd (applySubTask at_ m s)) = st_createdAt s).
    { destruct Hinv as (Ht & Hk & Hb).
      destruct m as [v|v| | |]; simpl;
        unfold SubTaskEntity.updateTitle, subtask_invariant;
        try (destruct (blank v) eqn:Hv); simpl; repeat split; assumption. }
    destruct Hstep as (Hinv' & E1 & E2 & E3 & E4).
    destruct (IH _ Hinv') as (I & F1 & F2 & F3 & F4 & F5).
    split; [exact I|]. rewrite F1, F2, F3, F4.
    repeat split; assumption.
Qed.

(** X5 on a sample: a subtask is created, completed, given a blank title
    (refused), then toggled. *)
Lemma SubTask_mutators_keep_identity_sample :
  SubTaskEntity.create 2000 Sample.sub1 Sample.step1_props = success Sample.step1
  /\ st_title (applyAllSubTask [(2100, SubTaskMarkCompleted);
                                (2200, SubTaskUpdateTitle "  ");
                                (2300, SubTaskToggleCompleted)] Sample.step1) = "step1"
  /\ st_id (applyAllSubTask [(2100, SubTaskMarkCompleted);
                             (2200, SubTaskUpdateTitle "  ");
                             (2300, SubTaskToggleCompleted)] Sample.step1) = Sample.sub1.
Proof.
  split; [reflexivity|]. split; [reflexivity|].
  exact (proj1 (proj2 (SubTask_mutators_keep_identity 2000 Sample.sub1
                         Sample.step1_props Sample.step1
                         [(2100, SubTaskMarkCompleted);
                          (2200, SubTaskUpdateTitle "  ");
                          (2300, SubTaskToggleCompleted)] eq_refl))).
Defined.

(** ** Task.ts and the task repository *)






Lemma find_map_same_key {Row} (p : Row -> bool) (f : Row -> Row) (l : list Row) :
  (forall r, p (f r) = p r) ->
  find p (map (fun r => if p r then f r else r) l) = option_map f (find p l).
Proof.
  intro Hk. induction l as [|r l IH]; simpl; [reflexivity|].
  destruct (p r) eqn:Hr.
  - now rewrite Hk, Hr.
  - now rewrite Hr.
Qed.



Lemma find_none_existsb {Row} (p : Row -> bool) (l : list Row) :
  find p l = None -> existsb p l = false.
Proof.
  induction l as [|r l IH]; simpl; [reflexivity|].
  destruct (p r); [discriminate|exact IH].
Qed.





(** ** Deletion of a task *)

Lemma filter_negb_none {Row} (p : Row -> bool) (l : list Row) :
  filter p l = [] -> filter (fun r => negb (p r)) l = l.
Proof.
  induction l as [|r l IH]; simpl; [reflexivity|].
  destruct (p r); [discriminate|]. intro H. simpl. now rewrite IH.
Qed.

Lemma filter_keep_all {Row} (l : list Row) : filter (fun _ => true) l = l.
Proof. induction l as [|r l IH]; simpl; [reflexivity|now rewrite IH]. Qed.

Lemma filter_drop_all {Row} (l : list Row) : filter (fun _ => false) l = [].
Proof. induction l as [|r l IH]; simpl; [reflexivity|exact IH]. Qed.

Lemma DB_eta (d : DB) :
  {| task := task d; subtask := subtask d; task_raci := task_raci d;
     subtask_raci := subtask_raci d; task_profile := task_profile d;
     profile := profile d |} = d.
Proof. now destruct d. Qed.

Lemma delete_subtasks_none (p : SubTaskRow -> bool) (d : DB) :
  filter p (subtask d) = [] -> delete_subtasks p d = (0%nat, d).
Proof.
  intro H. unfold delete_subtasks. rewrite H. simpl.
  unfold with_subtask_raci, with_subtask. simpl.
  rewrite (filter_negb_none _ _ H), filter_keep_all. now rewrite DB_eta.
Qed.

Lemma delete_tasks_none (p : TaskRow -> bool) (d : DB) :
  filter p (task d) = [] -> delete_tasks p d = (0%nat, d).
Proof.
  intro H. unfold delete_tasks. rewrite H. simpl.
  unfold delete_subtasks, with_subtask_raci, with_subtask, with_task_profile,
    with_task_raci, with_task. simpl.
  rewrite (filter_negb_none _ _ H), !filter_keep_all, filter_drop_all. simpl.
  rewrite !filter_keep_all. now rewrite DB_eta.
Qed.

Lemma of_deleted_id (i : string) (gone : list TaskRow) (x : string) :
  gone <> [] -> (forall t, In t gone -> tk_id t = i) ->
  of_deleted gone x = String.eqb x i.
Proof.
  intros Hne Hall. unfold of_deleted.
  destruct (String.eqb x i) eqn:Hx.
  - apply String.eqb_eq in Hx. subst x.
    destruct gone as [|t rest]; [now elim Hne|]. simpl.
    now rewrite (Hall t (or_introl eq_refl)), String.eqb_refl.
  - destruct (existsb (fun t => String.eqb (tk_id t) x) gone) eqn:He; [|reflexivity].
    apply existsb_exists in He as (t & Ht & Heq).
    apply String.eqb_eq in Heq. rewrite (Hall t Ht) in Heq.
    apply String.eqb_neq in Hx. now elim Hx.
Qed.

(** The store without a task and what depended on it. *)
Lemma delete_tasks_id (i : string) (d : DB) (r : TaskRow) (rest : list TaskRow) :
  filter (task_is i) (task d) = r :: rest ->
  delete_tasks (task_is i) d
  = (S (List.length rest),
     {| task := filter (fun x => negb (task_is i x)) (task d);
        subtask := filter (fun x => negb (subtask_of i x)) (subtask d);
        task_raci := filter (fun x => negb (raci_of i x)) (task_raci d);
        subtask_raci :=
          filter (fun x => negb (orphaned (filter (subtask_of i) (subtask d)) x))
                 (subtask_raci d);
        task_profile := filter (fun x => negb (profile_of i x)) (task_profile d);
        profile := profile d |}).
Proof.
  intro H. unfold delete_tasks. rewrite H.
  assert (Hid : forall x, of_deleted (r :: rest) x = String.eqb x i).
  { intro x. apply of_deleted_id; [discriminate|].
    intros t Ht. rewrite <- H in Ht. apply filter_In in Ht as [_ Ht].
    now apply String.eqb_eq in Ht. }
  unfold delete_subtasks, with_subtask_raci, with_subtask, with_task_profile,
    with_task_raci, with_task. simpl.
  rewrite (filter_ext (fun s => of_deleted (r :: rest) (sb_task_id s)) (subtask_of i))
    by (intro x; unfold subtask_of; now rewrite Hid).
  rewrite (filter_ext (fun x => negb (of_deleted (r :: rest) (sb_task_id x)))
             (fun x => negb (subtask_of i x)))
    by (intro x; unfold subtask_of; now rewrite Hid).
  rewrite (filter_ext (fun x => negb (of_deleted (r :: rest) (rc_entity x)))
             (fun x => negb (raci_of i x)))
    by (intro x; unfold raci_of; now rewrite Hid).
  rewrite (filter_ext (fun x => negb (of_deleted (r :: rest) (tp_task_id x)))
             (fun x => negb (profile_of i x)))
    by (intro x; unfold profile_of; now rewrite Hid).
  reflexivity.
Qed.

Lemma deleteTask_run E taskId user userRole w :
  TaskService.deleteTask E taskId user userRole w
  = match TaskKnexRepository.findById E (db w) taskId with
    | failure e => (Ret (failure e), w)
    | success task =>
        if (elevated userRole || isOwner task user)%bool
        then (Ret (success tt),
              {| db := snd (delete_tasks (task_is taskId) (db w));
                 trace := trace w ++ [TaskDeleted taskId] |})
        else (Ret (failure (TaskService.forbidden userRole "delete task" taskId
                              "(needs to be owner, CP or RF)")), w)
    end.
Proof.
  unfold TaskService.deleteTask, catch, bind, query.
  destruct (TaskKnexRepository.findById E (db w) taskId) as [t|e] eqn:Hf;
    [|reflexivity].
  destruct (elevated userRole || isOwner t user)%bool; [|reflexivity].
  destruct (findById_row _ _ _ _ Hf) as (r & rest & Hrows & _).
  cbn [negb].
  unfold TaskKnexRepository.delete, BaseKnexRepository.executeQuery, catch, bind,
    affected, emit, ret.
  rewrite (delete_tasks_id _ _ _ _ Hrows). cbn [fst snd Nat.eqb db trace].
  reflexivity.
Qed.

(** X8. What [deleteTask] does, case by case. When the task is not found,
    the call returns the failure of the look-up. When it is found and the
    user neither owns it nor has an elevated role, the call is refused. In
    both cases the store and the trace are as they were. When it is found
    and the user owns it or has an elevated role, the call succeeds: the
    task row is deleted together with its subtasks, its RACI rows, its
    profile links and the RACI rows of its subtasks, the rows of every other
    task stay, "task deleted" is emitted after the deletion, and the task is
    no longer found. The call never throws. *)
Theorem deleteTask_outcome (E : Env) (taskId user userRole : string) (w : World) :
  (forall e,
      TaskKnexRepository.findById E (db w) taskId = failure e ->
      TaskService.deleteTask E taskId user userRole w = (Ret (failure e), w))
  /\ (forall t,
         TaskKnexRepository.findById E (db w) taskId = success t ->
         (elevated userRole || isOwner t user)%bool = false ->
         TaskService.deleteTask E taskId user userRole w
         = (Ret (failure (TaskService.forbidden userRole "delete task" taskId
                            "(needs to be owner, CP or RF)")), w))
  /\ (forall t,
         TaskKnexRepository.findById E (db w) taskId = success t ->
         (elevated userRole || isOwner t user)%bool = true ->
         exists w',
           TaskService.deleteTask E taskId user userRole w = (Ret (success tt), w')
           /\ trace w' = (trace w ++ [TaskDeleted taskId])%list
           /\ task (db w') = filter (fun r => negb (task_is taskId r)) (task (db w))
           /\ subtask (db w')
              = filter (fun r => negb (subtask_of taskId r)) (subtask (db w))
           /\ task_raci (db w')
              = filter (fun r => negb (raci_of taskId r)) (task_raci (db w))
           /\ task_profile (db w')
              = filter (fun r => negb (profile_of taskId r)) (task_profile (db w))
           /\ subtask_raci (db w')
              = filter (fun r => negb (orphaned (filter (subtask_of taskId)
                                                   (subtask (db w))) r))
                       (subtask_raci (db w))
           /\ profile (db w') = profile (db w)
           /\ TaskKnexRepository.findById E (db w') taskId
              = failure ("Task with ID " ++ taskId ++ " not found")).
Proof.
  split; [|split].
  - intros e Hf. now rewrite deleteTask_run, Hf.
  - intros t Hf Hp. now rewrite deleteTask_run, Hf, Hp.
  - intros t Hf Hp. rewrite deleteTask_run, Hf, Hp. eexists. split; [reflexivity|].
    destruct (findById_row _ _ _ _ Hf) as (r & rest & Hrows & _).
    rewrite (delete_tasks_id _ _ _ _ Hrows). cbn [snd db trace task subtask task_raci
      task_profile subtask_raci profile].
    repeat (split; [reflexivity|]).
    unfold TaskKnexRepository.findById. cbn [task].
    rewrite find_filter, filter_filter.
    rewrite (filter_none (fun x => (negb (task_is taskId x) && task_is taskId x)%bool));
      [reflexivity|].
    intros x _. now destruct (task_is taskId x).
Qed.

(** X8 on the sample task with its three subtasks: Bob, of role DEV, is
    refused; Alice, of role CP, deletes the task, and the task, its
    subtasks, its RACI rows and theirs are gone. *)
Lemma deleteTask_outcome_sample :
  TaskService.deleteTask (Sample.at_ 5000 "") Sample.taskA Sample.bob "DEV"
    Sample.three_subtasks
  = (Ret (failure "Forbidden - user DEV cannot delete task 00000000-0000-4000-8000-0000000000a1 (needs to be owner, CP or RF)"),
     Sample.three_subtasks)
  /\ exists w',
       TaskService.deleteTask (Sample.at_ 5000 "") Sample.taskA Sample.alice "CP"
         Sample.three_subtasks = (Ret (success tt), w')
       /\ task (db w') = []
       /\ subtask (db w') = []
       /\ task_raci (db w') = []
       /\ subtask_raci (db w') = []
       /\ skipn (List.length (trace Sample.three_subtasks)) (trace w')
          = [TaskDeleted Sample.taskA].
Proof.
  pose proof (deleteTask_outcome (Sample.at_ 5000 "") Sample.taskA Sample.bob "DEV"
                Sample.three_subtasks) as (_ & Hrefused & _).
  pose proof (deleteTask_outcome (Sample.at_ 5000 "") Sample.taskA Sample.alice "CP"
                Sample.three_subtasks) as (_ & _ & Hdeleted).
  split.
  - exact (Hrefused Sample.stored eq_refl eq_refl).
  - destruct (Hdeleted Sample.stored eq_refl eq_refl)
      as (w' & Hrun & Htrace & Htask & Hsub & Hraci & _ & Hsraci & _).
    exists w'. split; [exact Hrun|].
    rewrite Htask, Hsub, Hraci, Hsraci, Htrace. now vm_compute.
Defined.


(** ** The two transaction helpers *)

(** X10. [KnexTransactionService.executeInTransaction] is all or nothing
    and never throws. It returns a success only when the handler returned
    that success and the commit succeeded, and the store is then the one the
    handler left. In every other case, a failure returned by the handler, an
    error it threw, or a failed commit, the result is a failure and the
    store is the one before the call. *)
Theorem executeInTransaction_all_or_nothing {T : Type} (E : Env)
  (handler : M (Result T)) (w : World) :
  match KnexTransactionService.executeInTransaction E handler w with
  | (Ret (success v), w') =>
      exists w1,
        handler {| db := db w; trace := trace w ++ [TransactionBegin] |}
        = (Ret (success v), w1)
        /\ env_commit E = None
        /\ db w' = db w1
        /\ trace w' = (trace w1 ++ [TransactionCommit])%list
  | (Ret (failure e), w') =>
      db w' = db w
      /\ exists w1 o,
           handler {| db := db w; trace := trace w ++ [TransactionBegin] |} = (o, w1)
           /\ trace w' = (trace w1 ++ [TransactionRollback])%list
           /\ (o = Ret (failure e) \/ o = Throw e
               \/ exists v, o = Ret (success v) /\ env_commit E = Some e)
  | (Throw _, _) => False
  end.
Proof.
  unfold KnexTransactionService.executeInTransaction, catch, bind, knex_transaction,
    throw, ret.
  destruct (handler {| db := db w; trace := trace w ++ [TransactionBegin] |})
    as [[[v|e]|e] w1] eqn:Hh.
  - destruct (env_commit E) as [e|] eqn:Hc; cbn [db trace].
    + split; [reflexivity|]. exists w1, (Ret (success v)).
      split; [reflexivity|]. split; [reflexivity|]. right. right. now exists v.
    + exists w1. now repeat split.
  - cbn [db trace]. split; [reflexivity|]. exists w1, (Ret (failure e)).
    split; [reflexivity|]. split; [reflexivity|]. now left.
  - cbn [db trace]. split; [reflexivity|]. exists w1, (Throw e).
    split; [reflexivity|]. split; [reflexivity|]. right. now left.
Qed.

(** X11. The two helpers differ on a callback that returns a failure: when
    the commit succeeds, [BaseKnexRepository.transaction] commits what the
    callback wrote before it returned the failure, and
    [executeInTransaction] rolls it back. Both return the failure. *)
Theorem failure_result_commits_or_rolls_back {T : Type} (E : Env)
  (callback : M (Result T)) (w w1 : World) (e : Error) :
  env_commit E = None ->
  callback {| db := db w; trace := trace w ++ [TransactionBegin] |}
  = (Ret (failure e), w1) ->
  BaseKnexRepository.transaction E callback w
  = (Ret (failure e), {| db := db w1; trace := trace w1 ++ [TransactionCommit] |})
  /\ KnexTransactionService.executeInTransaction E callback w
     = (Ret (failure e), {| db := db w; trace := trace w1 ++ [TransactionRollback] |}).
Proof.
  intros Hc Hcb.
  unfold BaseKnexRepository.transaction, KnexTransactionService.executeInTransaction,
    catch, bind, knex_transaction, throw, ret.
  rewrite Hcb, Hc. split; reflexivity.
Qed.

(** X11 on a sample: a callback inserts the row of the sample task and
    returns a failure; the repository helper keeps the row, the transaction
    service does not. *)
Lemma failure_result_commits_or_rolls_back_sample :
  task (db (snd (BaseKnexRepository.transaction (Sample.at_ 1000 "")
                   (bind (exec (insert_task (TaskService.task_row Sample.created)))
                         (fun _ => ret (@failure unit "refused")))
                   Sample.empty)))
  = [TaskService.task_row Sample.created]
  /\ task (db (snd (KnexTransactionService.executeInTransaction (Sample.at_ 1000 "")
                      (bind (exec (insert_task (TaskService.task_row Sample.created)))
                            (fun _ => ret (@failure unit "refused")))
                      Sample.empty)))
     = [].
Proof.
  destruct (failure_result_commits_or_rolls_back (Sample.at_ 1000 "")
              (bind (exec (insert_task (TaskService.task_row Sample.created)))
                    (fun _ => ret (@failure unit "refused")))
              Sample.empty
              {| db := with_task [TaskService.task_row Sample.created] (db Sample.empty);
                 trace := [TransactionBegin] |}
              "refused" eq_refl eq_refl) as [H1 H2].
  rewrite H1, H2. split; reflexivity.
Defined.

(** ** The subtask repository *)

Lemma SubTask_toDomain_fields E record s :
  SubTaskKnexRepository.toDomain E record = success s ->
  (sb_id record <> "" -> st_id s = sb_id record)
  /\ st_taskId s = sb_task_id record
  /\ st_title s = sb_title record
  /\ st_description s = sb_description record
  /\ st_completed s = sb_completed record
  /\ st_createdBy s = sb_created_by record
  /\ st_createdAt s = sb_created_at record
  /\ st_updatedAt s = sb_updated_at record.
Proof.
  unfold SubTaskKnexRepository.toDomain, SubTaskEntity.create,
    SubTaskEntity.construct, UUID.new.
  cbn [sp_id sp_taskId sp_title sp_createdBy sp_description sp_completed
       sp_createdAt sp_updatedAt falsy_opt].
  repeat match goal with
         | |- context [if ?c then _ else _] => destruct c eqn:?; try discriminate
         end.
  all: intros [= <-]; simpl; repeat split.
  all: intro Hne; destruct (sb_id record); [now elim Hne|discriminate].
Qed.

Lemma SubTask_toDomain_toggled E done record s :
  SubTaskKnexRepository.toDomain E record = success s ->
  sb_id record <> "" ->
  SubTaskKnexRepository.toDomain E (SubTaskKnexRepository.toggled E done record)
  = success (SubTaskEntity.set_completed (env_now E) done s).
Proof.
  unfold SubTaskKnexRepository.toDomain, SubTaskEntity.create,
    SubTaskEntity.construct, UUID.new, SubTaskKnexRepository.toggled.
  cbn [sp_id sp_taskId sp_title sp_createdBy sp_description sp_completed
       sp_createdAt sp_updatedAt falsy_opt sb_id sb_task_id sb_title sb_description
       sb_completed sb_created_by sb_created_at sb_updated_at].
  intros H Hne.
  destruct (blank (sb_title record)); [discriminate|].
  destruct (falsy (sb_task_id record)); [discriminate|].
  destruct (falsy (sb_id record)) eqn:Hf;
    [destruct (sb_id record); [now elim Hne|discriminate]|].
  destruct (UUID.isValid (sb_id record)); [|discriminate].
  destruct (UUID.isValid (sb_task_id record)); [|discriminate].
  destruct (UUID.isValid (sb_created_by record)); [|discriminate].
  injection H as <-. reflexivity.
Qed.

Lemma fire_keeps_subtasks rule t d : subtask (fire rule t d) = subtask d.
Proof. reflexivity. Qed.

Lemma fire_each_keeps_subtasks rule written d :
  subtask (SubTaskKnexRepository.fire_each rule written d) = subtask d.
Proof.
  unfold SubTaskKnexRepository.fire_each. revert d.
  induction written as [|r written IH]; intro d; simpl; [reflexivity|].
  now rewrite IH.
Qed.

(** X12. [toggleDone] of the subtask repository does what [save] does
    after [markCompleted] or [markIncomplete]: for a subtask that is read
    (identifiers being unique), both write the same store and return the
    same entity, the one read with its completion flag set and its
    updated-at stamped. For an identifier that no row has, [toggleDone]
    fails and leaves the store as it was. *)
Theorem toggleDone_is_save_of_mark (rule : Trigger) (E : Env) (i : string)
  (done : bool) (w : World) :
  (forall s,
      NoDup (map sb_id (subtask (db w))) -> i <> "" ->
      SubTaskKnexRepository.findById E (db w) i = success s ->
      SubTaskKnexRepository.toggleDone rule E i done w
      = SubTaskKnexRepository.save rule E
          (SubTaskEntity.set_completed (env_now E) done s) w
      /\ fst (SubTaskKnexRepository.toggleDone rule E i done w)
         = Ret (success (SubTaskEntity.set_completed (env_now E) done s)))
  /\ (find (subtask_is i) (subtask (db w)) = None ->
      SubTaskKnexRepository.toggleDone rule E i done w
      = (Ret (failure ("SubTask with ID " ++ i ++ " not found")), w)).
Proof.
  split.
  - intros s Hnd Hne Hf.
    pose proof Hf as Hf0.
    unfold SubTaskKnexRepository.findById in Hf.
    destruct (find (subtask_is i) (subtask (db w))) as [record|] eqn:Hfind;
      [|discriminate].
    pose proof (find_some _ _ Hfind) as [Hin Hkey].
    unfold subtask_is in Hkey. apply String.eqb_eq in Hkey.
    assert (Hrid : sb_id record <> "") by now rewrite Hkey.
    destruct (SubTask_toDomain_fields _ _ _ Hf) as (Eid & _ & Et & Ed & _).
    specialize (Eid Hrid).
    assert (Hsid : st_id (SubTaskEntity.set_completed (env_now E) done s) = i)
      by (simpl; congruence).
    assert (Hfilter : filter (subtask_is i) (subtask (db w)) = [record])
      by (apply (unique_key_filter sb_id); assumption).
    assert (Hmap :
      map (fun r => if subtask_is i r
                    then SubTaskKnexRepository.saved E
                           (SubTaskEntity.set_completed (env_now E) done s) r
                    else r) (subtask (db w))
      = map (fun r => if subtask_is i r
                      then SubTaskKnexRepository.toggled E done r else r)
            (subtask (db w))).
    { apply map_ext_in. intros r Hr.
      destruct (subtask_is i r) eqn:Hri; [|reflexivity].
      unfold subtask_is in Hri. apply String.eqb_eq in Hri.
      assert (r = record)
        by (apply (unique_key_row sb_id (subtask (db w))); congruence).
      subst r. unfold SubTaskKnexRepository.saved, SubTaskKnexRepository.toggled.
      simpl. rewrite Et, Ed. unfold orKept. now destruct (sb_description record). }
    assert (Hrun :
      SubTaskKnexRepository.toggleDone rule E i done w
      = (Ret (success (SubTaskEntity.set_completed (env_now E) done s)),
         {| db := SubTaskKnexRepository.fire_each rule [record]
                    (with_subtask
                       (map (fun r => if subtask_is i r
                                      then SubTaskKnexRepository.toggled E done r
                                      else r) (subtask (db w)))
                       (db w));
            trace := trace w |})).
    { unfold SubTaskKnexRepository.toggleDone, BaseKnexRepository.executeQuery,
        catch, bind, affected, query, SubTaskKnexRepository.toggle_where_id.
      rewrite Hfilter. cbn [fst snd List.length Nat.eqb db trace].
      unfold SubTaskKnexRepository.findById.
      rewrite fire_each_keeps_subtasks. cbn [subtask with_subtask].
      rewrite (find_map_same_key (subtask_is i) (SubTaskKnexRepository.toggled E done))
        by reflexivity.
      rewrite Hfind. cbn [option_map].
      now rewrite (SubTask_toDomain_toggled _ _ _ _ Hf Hrid). }
    split; [|now rewrite Hrun].
    rewrite Hrun.
    rewrite (save_existing rule E _ w record) by now rewrite Hsid.
    rewrite Hsid, Hfilter, Hmap.
    unfold SubTaskKnexRepository.findById.
    rewrite fire_each_keeps_subtasks. cbn [subtask with_subtask].
    rewrite (find_map_same_key (subtask_is i) (SubTaskKnexRepository.toggled E done))
      by reflexivity.
    rewrite Hfind. cbn [option_map].
    now rewrite (SubTask_toDomain_toggled _ _ _ _ Hf Hrid).
  - intro Hnone.
    assert (Hfilter : filter (subtask_is i) (subtask (db w)) = []).
    { rewrite find_filter in Hnone.
      now destruct (filter (subtask_is i) (subtask (db w))). }
    unfold SubTaskKnexRepository.toggleDone, BaseKnexRepository.executeQuery,
      catch, bind, affected, query, SubTaskKnexRepository.toggle_where_id, ret.
    rewrite Hfilter. cbn [fst snd List.length Nat.eqb db trace
      SubTaskKnexRepository.fire_each fold_left].
    assert (Hmap : map (fun r => if subtask_is i r
                                 then SubTaskKnexRepository.toggled E done r else r)
                       (subtask (db w)) = subtask (db w)).
    { rewrite <- (map_id (subtask (db w))) at 2. apply map_ext_in. intros r Hr.
      rewrite (existsb_false_forall _ _ (find_none_existsb _ _ Hnone) r Hr).
      reflexivity. }
    rewrite Hmap. unfold with_subtask. rewrite DB_eta. now destruct w.
Qed.

(** X12 on the sample data: the first of the three subtasks is toggled to
    completed; the entity returned is completed. *)
Lemma toggleDone_is_save_of_mark_sample :
  exists s,
    SubTaskKnexRepository.findById (Sample.at_ 5000 "") (db Sample.three_subtasks)
      Sample.sub1 = success s
    /\ SubTaskKnexRepository.toggleDone no_trigger (Sample.at_ 5000 "") Sample.sub1 true
         Sample.three_subtasks
       = SubTaskKnexRepository.save no_trigger (Sample.at_ 5000 "")
           (SubTaskEntity.set_completed 5000 true s) Sample.three_subtasks
    /\ fst (SubTaskKnexRepository.toggleDone no_trigger (Sample.at_ 5000 "") Sample.sub1
              true Sample.three_subtasks)
       = Ret (success (SubTaskEntity.set_completed 5000 true s)).
Proof.
  eexists. split; [vm_compute; reflexivity|].
  apply (proj1 (toggleDone_is_save_of_mark no_trigger (Sample.at_ 5000 "") Sample.sub1
                  true Sample.three_subtasks)).
  - repeat constructor; simpl; intuition discriminate.
  - discriminate.
  - vm_compute. reflexivity.
Defined.

Lemma orphaned_id (i : string) (gone : list SubTaskRow) (r : RaciRow) :
  gone <> [] -> (forall s, In s gone -> sb_id s = i) ->
  orphaned gone r = raci_of i r.
Proof.
  intros Hne Hall. unfold orphaned, raci_of.
  destruct (String.eqb (rc_entity r) i) eqn:Hx.
  - apply String.eqb_eq in Hx.
    destruct gone as [|s rest]; [now elim Hne|]. simpl.
    now rewrite (Hall s (or_introl eq_refl)), Hx, String.eqb_refl.
  - destruct (existsb (fun s => String.eqb (sb_id s) (rc_entity r)) gone) eqn:He;
      [|reflexivity].
    apply existsb_exists in He as (s & Hs & Heq).
    apply String.eqb_eq in Heq. rewrite (Hall s Hs) in Heq.
    apply String.eqb_neq in Hx. now elim Hx.
Qed.

(** X13. [delete] of the subtask repository, case by case. For an
    identifier that no row has, it fails and leaves the store as it was.
    For the identifier of a stored subtask it succeeds and removes the row
    of the subtask and, by cascade, its RACI rows, and nothing else: the
    task table is as it was, so the stored progress of the parent task is
    not recomputed, the subtask trigger being declared for insertions and
    updates only; the subtask is then no longer found. It never throws and
    emits nothing. *)
Theorem SubTask_delete_outcome (i : string) (w : World) :
  (find (subtask_is i) (subtask (db w)) = None ->
   SubTaskKnexRepository.delete i w
   = (Ret (failure ("SubTask with ID " ++ i ++ " not found")), w))
  /\ (forall r,
         find (subtask_is i) (subtask (db w)) = Some r ->
         exists w',
           SubTaskKnexRepository.delete i w = (Ret (success tt), w')
           /\ subtask (db w')
              = filter (fun r => negb (subtask_is i r)) (subtask (db w))
           /\ subtask_raci (db w')
              = filter (fun r => negb (raci_of i r)) (subtask_raci (db w))
           /\ task (db w') = task (db w)
           /\ task_raci (db w') = task_raci (db w)
           /\ task_profile (db w') = task_profile (db w)
           /\ profile (db w') = profile (db w)
           /\ trace w' = trace w
           /\ forall E, SubTaskKnexRepository.findById E (db w') i
                        = failure ("SubTask with ID " ++ i ++ " not found")).
Proof.
  split.
  - intro Hfind. rewrite find_filter in Hfind.
    destruct (filter (subtask_is i) (subtask (db w))) as [|r rest] eqn:Hrows;
      [|discriminate].
    unfold SubTaskKnexRepository.delete, BaseKnexRepository.executeQuery, catch, bind,
      affected, ret.
    rewrite (delete_subtasks_none _ _ Hrows). cbn [fst snd Nat.eqb].
    now destruct w.
  - intros r0 Hfind. rewrite find_filter in Hfind.
    destruct (filter (subtask_is i) (subtask (db w))) as [|r rest] eqn:Hrows;
      [discriminate|].
    unfold SubTaskKnexRepository.delete, BaseKnexRepository.executeQuery, catch, bind,
      affected, ret.
    unfold delete_subtasks. rewrite Hrows.
    cbn [fst snd List.length Nat.eqb]. eexists. split; [reflexivity|].
    cbn [db trace subtask subtask_raci task task_raci task_profile profile
         with_subtask with_subtask_raci].
    split; [reflexivity|]. split.
    { apply filter_ext. intro x. f_equal. apply orphaned_id; [discriminate|].
      intros s Hs. rewrite <- Hrows in Hs. apply filter_In in Hs as [_ Hs].
      now apply String.eqb_eq in Hs. }
    repeat (split; [reflexivity|]).
    intro E. unfold SubTaskKnexRepository.findById.
    cbn [db subtask with_subtask with_subtask_raci].
    rewrite find_filter, filter_filter.
    rewrite (filter_none (fun x => (negb (subtask_is i x) && subtask_is i x)%bool));
      [reflexivity|].
    intros x _. now destruct (subtask_is i x).
Qed.

(** X13 on the sample data: of the three subtasks of the sample task the
    first is deleted, with its two RACI rows; the task row is as it was; a
    second deletion of the same subtask fails. *)
Lemma SubTask_delete_outcome_sample :
  exists w',
    SubTaskKnexRepository.delete Sample.sub1 Sample.three_subtasks
    = (Ret (success tt), w')
    /\ map sb_id (subtask (db w')) = [Sample.sub2; Sample.sub3]
    /\ map rc_entity (subtask_raci (db w'))
       = [Sample.sub2; Sample.sub2; Sample.sub3; Sample.sub3]
    /\ task (db w') = task (db Sample.three_subtasks)
    /\ SubTaskKnexRepository.delete Sample.sub1 w'
       = (Ret (failure "SubTask with ID 00000000-0000-4000-8000-0000000000b1 not found"),
          w').
Proof.
  destruct (proj2 (SubTask_delete_outcome Sample.sub1 Sample.three_subtasks) _ eq_refl)
    as (w' & Hrun & Hsub & Hraci & Htask & _).
  exists w'. split; [exact Hrun|].
  rewrite Hsub, Hraci. split; [reflexivity|]. split; [reflexivity|].
  split; [exact Htask|].
  apply (proj1 (SubTask_delete_outcome Sample.sub1 w')).
  rewrite find_filter, Hsub. reflexivity.
Defined.

Lemma forallb_seq (f : nat -> bool) (n k : nat) :
  forallb f (seq 0 n) = true -> (k < n)%nat -> f k = true.
Proof.
  intros H Hk. rewrite forallb_forall in H. apply H. apply in_seq. lia.
Qed.

Lemma holds_upto_within (test : nat -> nat -> bool) (bound completed total : nat) :
  holds_upto test bound = true ->
  (completed <= total)%nat -> (total <= bound)%nat ->
  test completed total = true.
Proof.
  unfold holds_upto. intros H Hc Ht.
  apply (forallb_seq (fun c => test c total) (S total)); [|lia].
  apply (forallb_seq (fun t => forallb (fun c => test c t) (seq 0 (S t))) (S bound));
    [exact H|lia].
Qed.

Lemma progress_agrees_upto_200 : holds_upto progress_agrees 200 = true.
Proof. vm_compute. reflexivity. Qed.

(** X14. [calculateTaskProgress], computed in double precision as the code
    does, for a task of at most 200 subtasks: it returns an integer between
    0 and 100, 0 when the task has no subtask, which is one of the integers
    nearest to 100 x completed / total; it is round(100 x completed / total),
    halves upwards, unless 100 x completed / total lies exactly half way
    between two integers. *)
Theorem calculateTaskProgress_nearest_percentage (d : DB) (taskId : string) :
  let rows := filter (subtask_of taskId) (subtask d) in
  let total := Z.of_nat (List.length rows) in
  let completed := Z.of_nat (List.length (filter sb_completed rows)) in
  (List.length rows <= 200)%nat ->
  exists p v,
    SubTaskKnexRepository.calculateTaskProgress d taskId = success p
    /\ integer_value p = Some v
    /\ 0 <= v <= 100
    /\ (total = 0 -> v = 0)
    /\ 2 * Z.abs (v * total - 100 * completed) <= total
    /\ ((200 * completed) mod (2 * total) <> total -> v = claimed_progress rows).
Proof.
  intros rows total completed Hle.
  assert (Hc : (List.length (filter sb_completed rows) <= List.length rows)%nat)
    by apply filter_length_le.
  assert (Hag : progress_agrees (List.length (filter sb_completed rows))
                  (List.length rows) = true)
    by (apply (holds_upto_within progress_agrees 200);
        [exact progress_agrees_upto_200|assumption|assumption]).
  unfold progress_agrees in Hag.
  destruct (integer_value (computed_progress _ _)) as [v|] eqn:Hv; [|discriminate].
  exists (computed_progress (List.length (filter sb_completed rows)) (List.length rows)), v.
  split.
  { unfold SubTaskKnexRepository.calculateTaskProgress, computed_progress.
    fold rows. now destruct (PrimFloat.eqb _ _). }
  split; [exact Hv|].
  unfold nearest_percentage in Hag. fold total completed in Hag.
  apply andb_prop in Hag as [Hag Htie]. apply andb_prop in Hag as [Hag Hnear].
  apply andb_prop in Hag as [Hag Hzero]. apply andb_prop in Hag as [H0 H100].
  apply Z.leb_le in H0, H100, Hnear.
  split; [lia|]. split.
  { intro Hz. rewrite Hz in Hzero. cbn in Hzero. now apply Z.eqb_eq in Hzero. }
  split; [exact Hnear|].
  intro Hnt. apply orb_prop in Htie as [Htie|Htie].
  - apply Z.eqb_eq in Htie. now elim Hnt.
  - apply Z.eqb_eq in Htie. exact Htie.
Qed.

(** X14 on the sample data: for twenty-three completed subtasks out of
    forty, 57.5 percent, the computation in double precision gives 57, one of
    the two nearest integers, where rounding halves upwards gives 58. *)
Lemma calculateTaskProgress_nearest_percentage_sample :
  exists p,
    SubTaskKnexRepository.calculateTaskProgress Sample.forty_subtasks Sample.taskA
    = success p
    /\ integer_value p = Some 57
    /\ claimed_progress (filter (subtask_of Sample.taskA) (subtask Sample.forty_subtasks))
       = 58.
Proof.
  destruct (calculateTaskProgress_nearest_percentage Sample.forty_subtasks Sample.taskA)
    as (p & v & Hp & Hv & _).
  { vm_compute. repeat constructor. }
  exists p. split; [exact Hp|]. 
  assert (Hp' : SubTaskKnexRepository.calculateTaskProgress Sample.forty_subtasks
                  Sample.taskA = success (computed_progress 23 40))
    by (vm_compute; reflexivity).
  rewrite Hp' in Hp. injection Hp as <-.
  split; vm_compute; reflexivity.
Defined.

(** ** The RACI repository *)

Lemma saveTaskRaci_rows E e u l w :
  RaciKnexRepository.saveTaskRaci E e u l w
  = (Ret (success tt),
     {| db := with_task_raci (raci_saved E e u l (task_raci (db w))) (db w);
        trace := trace w |}).
Proof.
  unfold RaciKnexRepository.saveTaskRaci, BaseKnexRepository.executeQuery, catch, bind,
    query, exec, ret, raci_saved.
  destruct (find (raci_key e u) (task_raci (db w))) eqn:Hf; [reflexivity|].
  unfold insert_task_raci. cbn [rc_entity rc_user_uuid RaciKnexRepository.new_row].
  now rewrite (find_none_existsb _ _ Hf).
Qed.

Lemma saveSubTaskRaci_rows E e u l w :
  RaciKnexRepository.saveSubTaskRaci E e u l w
  = (Ret (success tt),
     {| db := with_subtask_raci (raci_saved E e u l (subtask_raci (db w))) (db w);
        trace := trace w |}).
Proof.
  unfold RaciKnexRepository.saveSubTaskRaci, BaseKnexRepository.executeQuery, catch,
    bind, query, exec, ret, raci_saved.
  destruct (find (raci_key e u) (subtask_raci (db w))) eqn:Hf; [reflexivity|].
  unfold insert_subtask_raci. cbn [rc_entity rc_user_uuid RaciKnexRepository.new_row].
  now rewrite (find_none_existsb _ _ Hf).
Qed.

Lemma raci_key_pk e u r : raci_key e u r = true <-> raci_pk r = (e, u).
Proof.
  unfold raci_key, raci_pk. rewrite andb_true_iff, !String.eqb_eq.
  split; [intros [-> ->]; reflexivity|intros [= -> ->]; now split].
Qed.

Lemma unique_pk_filter (rows : list RaciRow) e u a :
  NoDup (map raci_pk rows) ->
  find (raci_key e u) rows = Some a ->
  filter (raci_key e u) rows = [a].
Proof.
  induction rows as [|x rows IH]; simpl; intros Hn Hf; [discriminate|].
  inversion Hn as [|? ? Hx Hl]; subst.
  destruct (raci_key e u x) eqn:Hk.
  - injection Hf as ->. f_equal. apply filter_none. intros y Hy.
    destruct (raci_key e u y) eqn:Hy'; [|reflexivity].
    apply raci_key_pk in Hk, Hy'. exfalso. apply Hx.
    rewrite Hk, <- Hy'. now apply in_map.
  - now apply IH.
Qed.

Lemma reletter_keeps_pk E e u l rows :
  map raci_pk (RaciKnexRepository.reletter E e u l rows) = map raci_pk rows.
Proof.
  unfold RaciKnexRepository.reletter. rewrite map_map. apply map_ext.
  intro r. now destruct (raci_key e u r).
Qed.

(** What [raci_saved] does to a table that respects its primary key. *)
Lemma raci_saved_spec E e u l rows :
  NoDup (map raci_pk rows) ->
  NoDup (map raci_pk (raci_saved E e u l rows))
  /\ map rc_letter (filter (raci_key e u) (raci_saved E e u l rows)) = [l]
  /\ (forall e' u', e' <> e \/ u' <> u ->
        filter (raci_key e' u') (raci_saved E e u l rows) = filter (raci_key e' u') rows)
  /\ List.length (raci_saved E e u l rows)
     = (List.length rows
        + match find (raci_key e u) rows with Some _ => 0 | None => 1 end)%nat.
Proof.
  intro Hn. unfold raci_saved.
  destruct (find (raci_key e u) rows) as [old|] eqn:Hf.
  - split; [now rewrite reletter_keeps_pk|]. split.
    { rewrite reletter_same_key, (unique_pk_filter _ _ _ _ Hn Hf). reflexivity. }
    split; [intros; now apply reletter_other_key|].
    unfold RaciKnexRepository.reletter. rewrite length_map. lia.
  - pose proof (existsb_false_forall _ _ (find_none_existsb _ _ Hf)) as Hno.
    split.
    { rewrite map_app. simpl. apply NoDup_app; [exact Hn|repeat constructor; now intros []|].
      intros k Hk [<-|[]]. apply in_map_iff in Hk as (r & Hr & Hin).
      assert (Hk' : raci_key e u r = true) by (apply raci_key_pk; exact Hr).
      rewrite (Hno r Hin) in Hk'. discriminate. }
    split.
    { rewrite filter_app, (filter_none _ _ Hno). simpl.
      unfold raci_key at 1. simpl. now rewrite !String.eqb_refl. }
    split.
    { intros e' u' Hne. rewrite filter_app. simpl.
      destruct (raci_key e' u' (RaciKnexRepository.new_row e u l)) eqn:Hk.
      - apply raci_key_pk in Hk. injection Hk as <- <-. destruct Hne; congruence.
      - apply app_nil_r. }
    rewrite length_app. simpl. lia.
Qed.

(** X15. [saveTaskRaci] and [saveSubTaskRaci] keep the primary key of
    their table. For a stored task, respectively a stored subtask (the
    foreign key of the table that the store has), and a table where no
    (entity, user) pair has two rows: the call succeeds whether the pair has a row or not, the pair
    has exactly one row afterwards, with the letter given, a read of the
    entity returns that one letter for the user, the rows of the other pairs
    are untouched, the table grows by one row exactly when the pair had none,
    and no pair has two rows afterwards. *)
Theorem saveRaci_keeps_one_letter_per_pair (E : Env) (e u : string) (l : RaciLetter.t)
  (w : World) :
  (existsb (task_is e) (task (db w)) = true ->
   NoDup (map raci_pk (task_raci (db w))) ->
   let w' := snd (RaciKnexRepository.saveTaskRaci E e u l w) in
   fst (RaciKnexRepository.saveTaskRaci E e u l w) = Ret (success tt)
   /\ NoDup (map raci_pk (task_raci (db w')))
   /\ map rc_letter (filter (raci_key e u) (task_raci (db w'))) = [l]
   /\ (exists entries,
          RaciKnexRepository.findByTaskId (db w') e = success entries
          /\ map letter (filter (fun en => String.eqb (userUuid en) u) entries) = [l])
   /\ (forall e' u', e' <> e \/ u' <> u ->
          filter (raci_key e' u') (task_raci (db w'))
          = filter (raci_key e' u') (task_raci (db w)))
   /\ List.length (task_raci (db w'))
      = (List.length (task_raci (db w))
         + match find (raci_key e u) (task_raci (db w)) with
           | Some _ => 0
           | None => 1
           end)%nat)
  /\
  (existsb (subtask_is e) (subtask (db w)) = true ->
   NoDup (map raci_pk (subtask_raci (db w))) ->
   let w' := snd (RaciKnexRepository.saveSubTaskRaci E e u l w) in
   fst (RaciKnexRepository.saveSubTaskRaci E e u l w) = Ret (success tt)
   /\ NoDup (map raci_pk (subtask_raci (db w')))
   /\ map rc_letter (filter (raci_key e u) (subtask_raci (db w'))) = [l]
   /\ (exists entries,
          RaciKnexRepository.findBySubTaskId (db w') e = success entries
          /\ map letter (filter (fun en => String.eqb (userUuid en) u) entries) = [l])
   /\ (forall e' u', e' <> e \/ u' <> u ->
          filter (raci_key e' u') (subtask_raci (db w'))
          = filter (raci_key e' u') (subtask_raci (db w)))
   /\ List.length (subtask_raci (db w'))
      = (List.length (subtask_raci (db w))
         + match find (raci_key e u) (subtask_raci (db w)) with
           | Some _ => 0
           | None => 1
           end)%nat).
Proof.
  split; intros _ Hn; cbv zeta.
  - rewrite saveTaskRaci_rows. cbn [fst snd db task_raci with_task_raci].
    destruct (raci_saved_spec E e u l _ Hn) as (H1 & H2 & H3 & H4).
    split; [reflexivity|]. split; [exact H1|]. split; [exact H2|].
    split; [|split; assumption].
    eexists. split; [reflexivity|].
    change (raci_for (JS.Str e)) with (raci_of e).
    rewrite (entries_of_user RaciKnexRepository.task_entry) by reflexivity.
    rewrite map_map. exact H2.
  - rewrite saveSubTaskRaci_rows. cbn [fst snd db subtask_raci with_subtask_raci].
    destruct (raci_saved_spec E e u l _ Hn) as (H1 & H2 & H3 & H4).
    split; [reflexivity|]. split; [exact H1|]. split; [exact H2|].
    split; [|split; assumption].
    eexists. split; [reflexivity|].
    change (raci_for (JS.Str e)) with (raci_of e).
    rewrite (entries_of_user RaciKnexRepository.subtask_entry) by reflexivity.
    rewrite map_map. exact H2.
Qed.

(** X15 on the sample task: Bob, consulted on the first subtask, is made
    accountable for it; his row is rewritten and the table keeps its six
    rows. *)
Lemma saveRaci_keeps_one_letter_per_pair_sample :
  map rc_letter
    (filter (raci_key Sample.sub1 Sample.bob)
       (subtask_raci (db (snd (RaciKnexRepository.saveSubTaskRaci (Sample.at_ 6000 "")
                                 Sample.sub1 Sample.bob RaciLetter.A
                                 Sample.three_subtasks)))))
  = [RaciLetter.A]
  /\ List.length
       (subtask_raci (db (snd (RaciKnexRepository.saveSubTaskRaci (Sample.at_ 6000 "")
                                 Sample.sub1 Sample.bob RaciLetter.A
                                 Sample.three_subtasks))))
     = 6%nat.
Proof.
  destruct (proj2 (saveRaci_keeps_one_letter_per_pair (Sample.at_ 6000 "") Sample.sub1
                     Sample.bob RaciLetter.A Sample.three_subtasks))
    as (_ & _ & H & _ & _ & Hlen).
  { reflexivity. }
  { vm_compute. repeat constructor; simpl; intuition discriminate. }
  split; [exact H|]. rewrite Hlen. reflexivity.
Defined.

(** A selection of the rows of a table respects the primary key that the
    table respects. *)
Lemma selected_rows_keep_pk (keep : RaciRow -> bool) (rows : list RaciRow) :
  NoDup (map raci_pk rows) -> NoDup (map raci_pk (filter keep rows)).
Proof.
  intro Hpk. induction rows as [|row rows IH]; [constructor|].
  cbn [map] in Hpk. apply NoDup_cons_iff in Hpk as [Hfresh Hpk].
  cbn [filter]. destruct (keep row); [|exact (IH Hpk)].
  cbn [map]. apply NoDup_cons; [|exact (IH Hpk)].
  intro Hin. apply Hfresh. apply in_map_iff in Hin as (y & Hy & Hin).
  apply filter_In in Hin as [Hin _]. rewrite <- Hy. now apply in_map.
Qed.

Lemma insert_all_subtask_raci_ok rows d :
  NoDup (map raci_pk rows) ->
  (forall r, In r rows ->
             existsb (raci_key (rc_entity r) (rc_user_uuid r)) (subtask_raci d) = false) ->
  insert_all insert_subtask_raci rows d
  = success (with_subtask_raci (subtask_raci d ++ rows) d).
Proof.
  revert d. induction rows as [|r rows IH]; intros d Hn Hfree; simpl.
  - now rewrite app_nil_r, with_subtask_raci_same.
  - inversion Hn as [|? ? Hr Hrest]; subst.
    unfold insert_subtask_raci at 1. rewrite (Hfree r (or_introl eq_refl)).
    rewrite IH; [|exact Hrest|].
    + unfold with_subtask_raci. simpl. now rewrite <- app_assoc.
    + intros r' Hr'. cbn [subtask_raci with_subtask_raci].
      rewrite existsb_app, (Hfree r' (or_intror Hr')). simpl.
      rewrite orb_false_r.
      destruct (raci_key (rc_entity r') (rc_user_uuid r') r) eqn:Hk; [|reflexivity].
      apply raci_key_pk in Hk. exfalso. apply Hr. rewrite Hk.
      now apply (in_map raci_pk).
Qed.

(** X16. [copyFromTaskToSubTask] towards a stored subtask, on a task
    table that respects its primary key, with the transaction of the caller
    or one of its own that commits: it succeeds and writes the RACI table of
    the subtasks only. When the task has RACI rows, the rows of the subtask
    are replaced and the subtask then has, pair for pair and in the same
    order, the (user, letter) pairs of the task. When the task has none,
    nothing is written: the subtask keeps the rows it had. The rows of the
    other subtasks are untouched. *)
Theorem copyFromTaskToSubTask_mirrors (E : Env) (taskId subtaskId : string)
  (inTrx : bool) (w : World) :
  existsb (subtask_is subtaskId) (subtask (db w)) = true ->
  NoDup (map raci_pk (task_raci (db w))) ->
  (inTrx = false -> env_commit E = None) ->
  let rows := filter (raci_of taskId) (task_raci (db w)) in
  let w' := snd (RaciKnexRepository.copyFromTaskToSubTask E taskId subtaskId inTrx w) in
  fst (RaciKnexRepository.copyFromTaskToSubTask E taskId subtaskId inTrx w)
  = Ret (success tt)
  /\ task_raci (db w') = task_raci (db w)
  /\ filter (fun r => negb (raci_of subtaskId r)) (subtask_raci (db w'))
     = filter (fun r => negb (raci_of subtaskId r)) (subtask_raci (db w))
  /\ (rows <> [] ->
      raci_pairs (filter (raci_of subtaskId) (subtask_raci (db w'))) = raci_pairs rows)
  /\ (rows = [] -> subtask_raci (db w') = subtask_raci (db w)).
Proof.
  intros _ Hn Hcommit. cbv zeta.
  remember (filter (raci_of taskId) (task_raci (db w))) as rows eqn:Erows.
  remember (map (fun raci => RaciKnexRepository.new_row subtaskId
                               (rc_user_uuid raci) (rc_letter raci)) rows)
    as copies eqn:Ecopies.
  remember (filter (fun r => negb (raci_of subtaskId r)) (subtask_raci (db w)))
    as kept eqn:Ekept.
  assert (Hcopies : filter (raci_of subtaskId) copies = copies).
  { apply filter_all. intros x Hx. rewrite Ecopies in Hx.
    apply in_map_iff in Hx as (r1 & <- & _). unfold raci_of. simpl.
    apply String.eqb_refl. }
  assert (Hcopies' : filter (fun r => negb (raci_of subtaskId r)) copies = []).
  { apply filter_none. intros x Hx.
    assert (Hin : In x (filter (raci_of subtaskId) copies)) by now rewrite Hcopies.
    apply filter_In in Hin as [_ Hin]. now rewrite Hin. }
  assert (Hkept : filter (raci_of subtaskId) kept = []).
  { apply filter_none. intros x Hx. rewrite Ekept in Hx.
    apply filter_In in Hx as [_ Hx]. now destruct (raci_of subtaskId x). }
  assert (Hkept' : filter (fun r => negb (raci_of subtaskId r)) kept = kept).
  { apply filter_all. intros x Hx. rewrite Ekept in Hx.
    now apply filter_In in Hx as [_ Hx]. }
  assert (Hpairs : raci_pairs copies = raci_pairs rows).
  { rewrite Ecopies. unfold raci_pairs. now rewrite map_map. }
  assert (Hlen : List.length copies = List.length rows)
    by (rewrite Ecopies; apply length_map).
  assert (Hins : insert_all insert_subtask_raci copies (with_subtask_raci kept (db w))
                 = success (with_subtask_raci (kept ++ copies) (db w))).
  { rewrite insert_all_subtask_raci_ok.
    - reflexivity.
    - rewrite Ecopies, map_map.
      change (fun x => raci_pk (RaciKnexRepository.new_row subtaskId
                                  (rc_user_uuid x) (rc_letter x)))
        with (fun x : RaciRow => (subtaskId, rc_user_uuid x)).
      assert (Hrn : NoDup (map raci_pk rows))
        by (rewrite Erows; now apply selected_rows_keep_pk).
      assert (Hent : forall r, In r rows -> rc_entity r = taskId).
      { intros r Hr. rewrite Erows in Hr. apply filter_In in Hr as [_ Hr].
        now apply String.eqb_eq in Hr. }
      clear -Hrn Hent. induction rows as [|r rs IH]; simpl; [constructor|].
      inversion Hrn as [|? ? Hx Hl]; subst. constructor.
      + intro Hin. apply Hx. apply in_map_iff in Hin as (y & Hy & Hin).
        injection Hy as Hy. apply in_map_iff. exists y. split; [|exact Hin].
        unfold raci_pk. rewrite Hy, (Hent y (or_intror Hin)),
          (Hent r (or_introl eq_refl)). reflexivity.
      + apply IH; [exact Hl|]. intros y Hy. apply Hent. now right.
    - intros r Hr. rewrite Ecopies in Hr. apply in_map_iff in Hr as (r1 & <- & _).
      cbn [rc_entity rc_user_uuid RaciKnexRepository.new_row subtask_raci
           with_subtask_raci].
      destruct (existsb (raci_key subtaskId (rc_user_uuid r1)) kept) eqn:Hex;
        [|reflexivity].
      apply existsb_exists in Hex as (x & Hx & Hk).
      rewrite Ekept in Hx. apply filter_In in Hx as [_ Hx].
      unfold raci_key in Hk. apply andb_true_iff in Hk as [Hk _].
      unfold raci_of in Hx. rewrite Hk in Hx. discriminate. }
  assert (Hrun : forall w0,
             db w0 = db w ->
             RaciKnexRepository.performCopyFromTaskToSubTask taskId subtaskId w0
             = (Ret (success tt),
                {| db := match rows with
                         | [] => db w
                         | _ => with_subtask_raci (kept ++ copies) (db w)
                         end;
                   trace := trace w0 |})).
  { intros w0 Hw0.
    unfold RaciKnexRepository.performCopyFromTaskToSubTask, bind, query, exec, ret.
    rewrite Hw0, <- Erows, <- Ecopies, Hlen.
    destruct rows as [|r0 rest].
    - cbn [List.length Nat.eqb]. rewrite <- Hw0. now destruct w0.
    - cbn [List.length Nat.eqb Nat.ltb Nat.leb db trace].
      rewrite Hw0, <- Ekept, Hins. reflexivity. }
  assert (Hall : RaciKnexRepository.copyFromTaskToSubTask E taskId subtaskId inTrx w
                 = (Ret (success tt),
                    {| db := match rows with
                             | [] => db w
                             | _ => with_subtask_raci (kept ++ copies) (db w)
                             end;
                       trace := if inTrx then trace w
                                else trace w ++ [TransactionBegin; TransactionCommit] |})).
  { unfold RaciKnexRepository.copyFromTaskToSubTask.
    destruct inTrx.
    - unfold catch. cbv beta iota. rewrite (Hrun w eq_refl). now destruct w.
    - unfold BaseKnexRepository.transaction, catch, knex_transaction.
      cbv beta iota. rewrite (Hrun {| db := db w; trace := trace w ++ [TransactionBegin] |} eq_refl),
        (Hcommit eq_refl). cbn [db trace].
      now rewrite <- app_assoc. }
  rewrite Hall. cbn [fst snd db].
  split; [reflexivity|].
  clear Hall Hrun Hins.
  destruct rows as [|r0 rest].
  - split; [reflexivity|]. split; [now symmetry|].
    split; [intro H; now elim H|reflexivity].
  - cbn [task_raci subtask_raci with_subtask_raci].
    split; [reflexivity|]. split.
    { now rewrite filter_app, Hkept', Hcopies', app_nil_r. }
    split; [|discriminate].
    intros _. rewrite filter_app, Hkept, Hcopies. cbn [app]. exact Hpairs.
Qed.

(** X16 on the sample data: Bob is made accountable for the first
    subtask, then the RACI rows of the sample task are copied to it again, in
    a transaction of the repository: Bob is consulted again. *)
Lemma copyFromTaskToSubTask_mirrors_sample :
  raci_pairs
    (filter (raci_of Sample.sub1)
       (subtask_raci
          (db (snd (RaciKnexRepository.copyFromTaskToSubTask (Sample.at_ 6000 "")
                      Sample.taskA Sample.sub1 false
                      (snd (RaciKnexRepository.saveSubTaskRaci (Sample.at_ 5000 "")
                              Sample.sub1 Sample.bob RaciLetter.A
                              Sample.three_subtasks)))))))
  = [(Sample.alice, RaciLetter.R); (Sample.bob, RaciLetter.C)].
Proof.
  destruct (copyFromTaskToSubTask_mirrors (Sample.at_ 6000 "") Sample.taskA Sample.sub1
              false
              (snd (RaciKnexRepository.saveSubTaskRaci (Sample.at_ 5000 "")
                      Sample.sub1 Sample.bob RaciLetter.A Sample.three_subtasks)))
    as (_ & _ & _ & H & _).
  - reflexivity.
  - vm_compute. repeat constructor; simpl; intuition discriminate.
  - reflexivity.
  - rewrite H; [reflexivity|discriminate].
Defined.

(** ** The use cases and the RACI rows of the task *)

Lemma bind_returns {T U} (m : M T) (k : T -> M U) w v w' :
  bind m k w = (Ret v, w') ->
  exists x w1, m w = (Ret x, w1) /\ k x w1 = (Ret v, w').
Proof.
  unfold bind. destruct (m w) as [[x|e] w1]; [|discriminate].
  intro H. now exists x, w1.
Qed.

(** The RACI rows of a task for a list of (user, letter) pairs. *)
Lemma insert_task_raci_run r w w1 :
  exec (insert_task_raci r) w = (Ret tt, w1) ->
  task_raci (db w1) = (task_raci (db w) ++ [r])%list
  /\ (NoDup (map raci_pk (task_raci (db w))) ->
      NoDup (map raci_pk (task_raci (db w1)))).
Proof.
  unfold exec, insert_task_raci.
  destruct (existsb _ (task_raci (db w))) eqn:Hex; [discriminate|].
  intro H. injection H as <-. split; [reflexivity|].
  intro Hn. cbn [db task_raci with_task_raci]. rewrite map_app.
  apply NoDup_app; [exact Hn|repeat constructor; intros []|].
  intros k Hk [<-|[]].
  apply in_map_iff in Hk as (x & Hx & Hin).
  assert (Htrue : existsb (raci_key (rc_entity r) (rc_user_uuid r)) (task_raci (db w))
                  = true).
  { apply existsb_exists. exists x. split; [exact Hin|]. now apply raci_key_pk. }
  rewrite Htrue in Hex. discriminate.
Qed.

Lemma insert_users_run E taskId l users w w1 :
  forEach users
    (fun u => exec (insert_task_raci (TaskService.stamped_row E taskId u l))) w
  = (Ret tt, w1) ->
  task_raci (db w1)
  = (task_raci (db w) ++ map (fun u => TaskService.stamped_row E taskId u l) users)%list
  /\ (NoDup (map raci_pk (task_raci (db w))) ->
      NoDup (map raci_pk (task_raci (db w1)))).
Proof.
  revert w. induction users as [|u users IH]; intros w H.
  - injection H as <-. split; [now rewrite app_nil_r|trivial].
  - cbn [forEach] in H. apply bind_returns in H as ([] & w2 & H1 & H2).
    apply insert_task_raci_run in H1 as [Hrows Hn].
    apply IH in H2 as [Hrows' Hn'].
    split; [|now intro; apply Hn', Hn].
    rewrite Hrows', Hrows, <- app_assoc. reflexivity.
Qed.

Lemma insertRaci_run E taskId raci w w1 :
  TaskService.insertRaci E taskId raci w = (Ret tt, w1) ->
  task_raci (db w1)
  = (task_raci (db w)
     ++ map (fun p => TaskService.stamped_row E taskId (fst p) (snd p))
            (asked_pairs raci))%list
  /\ (NoDup (map raci_pk (task_raci (db w))) ->
      NoDup (map raci_pk (task_raci (db w1)))).
Proof.
  unfold TaskService.insertRaci, asked_pairs.
  generalize TaskService.letters as ls. intro ls. revert w.
  induction ls as [|l ls IH]; intros w H.
  - injection H as <-. split; [now rewrite app_nil_r|trivial].
  - cbn [forEach] in H. apply bind_returns in H as ([] & w2 & H1 & H2).
    apply IH in H2 as [Hrows' Hn'].
    assert (Hl : task_raci (db w2)
                 = (task_raci (db w)
                    ++ map (fun p => TaskService.stamped_row E taskId (fst p) (snd p))
                         match TaskService.users_of raci l with
                         | Some users => map (fun u => (u, l)) users
                         | None => []
                         end)%list
                 /\ (NoDup (map raci_pk (task_raci (db w))) ->
                     NoDup (map raci_pk (task_raci (db w2))))).
    { destruct (TaskService.users_of raci l) as [users|].
      - destruct users as [|u users].
        + injection H1 as <-. split; [now rewrite app_nil_r|trivial].
        + cbn [List.length Nat.ltb Nat.leb] in H1.
          apply insert_users_run in H1 as [Hrows Hn].
          split; [|exact Hn]. now rewrite Hrows, map_map.
      - injection H1 as <-. split; [now rewrite app_nil_r|trivial]. }
    destruct Hl as [Hrows Hn].
    split; [|now intro; apply Hn', Hn].
    cbn [flat_map]. rewrite Hrows', Hrows, map_app, <- app_assoc. reflexivity.
Qed.


Lemma updateTask_statements_raci E taskId input t w dto w1 :
  TaskService.updateTask_statements E taskId input t w = (Ret dto, w1) ->
  task_raci (db w1)
  = match ui_raci input with
    | Some raci =>
        (filter (fun r => negb (raci_of taskId r)) (task_raci (db w))
         ++ map (fun p => TaskService.stamped_row E taskId (fst p) (snd p))
                (asked_pairs raci))%list
    | None => task_raci (db w)
    end
  /\ (NoDup (map raci_pk (task_raci (db w))) ->
      NoDup (map raci_pk (task_raci (db w1))))
  /\ twr_raci dto = TaskService.organise (filter (raci_of taskId) (task_raci (db w1))).
Proof.
  unfold TaskService.updateTask_statements. intro H.
  apply bind_returns in H as ([] & w2 & H1 & H).
  apply bind_returns in H as ([] & w3 & H2 & H).
  apply bind_returns in H as ([] & w4 & H3 & H).
  unfold bind, query, ret in H. injection H as <- <-.
  unfold exec, TaskService.update_task in H1. injection H1 as <-.
  assert (Hkeep : task_raci (db w4) = task_raci (db w3)).
  { match type of H3 with
    | ?m _ = _ => assert (Hs : stable (fun w => task_raci (db w)) m) by stable_store
    end.
    exact (Hs _ _ _ H3). }
  rewrite Hkeep. cbn [twr_raci].
  split; [|split; [|reflexivity]].
  - destruct (ui_raci input) as [raci|].
    + apply bind_returns in H2 as ([] & w5 & Hd & Hi).
      unfold exec, TaskService.delete_task_raci in Hd. injection Hd as <-.
      apply insertRaci_run in Hi as [Hi _]. exact Hi.
    + now injection H2 as <-.
  - intro Hn. destruct (ui_raci input) as [raci|].
    + apply bind_returns in H2 as ([] & w5 & Hd & Hi).
      unfold exec, TaskService.delete_task_raci in Hd. injection Hd as <-.
      apply insertRaci_run in Hi as [_ Hi]. apply Hi.
      cbn [db task_raci with_task_raci with_task]. now apply selected_rows_keep_pk.
    + now injection H2 as <-.
Qed.








Lemma applyInput_origin P E taskId user userRole input t t' :
  TaskService.applyInput P E taskId user userRole input t = success t' ->
  (id t', pageId t', createdBy t', createdAt t')
  = (id t, pageId t, createdBy t, createdAt t).
Proof.
  unfold TaskService.applyInput.
  apply (inOrder_keeps (fun t => (id t, pageId t, createdBy t, createdAt t))).
  repeat constructor; intro u0.
  - destruct (ui_title input) as [v|]; simpl; [|reflexivity].
    unfold TaskEntity.updateTitle. destruct (blank v); reflexivity.
  - destruct (ui_description input) as [v|]; reflexivity.
  - destruct (ui_priority input) as [v|]; simpl; [|reflexivity].
    unfold TaskEntity.updatePriority. destruct (Priority.new v); reflexivity.
  - unfold TaskService.changePhase.
    destruct (ui_phaseCode input) as [v|]; [|reflexivity].
    destruct (negb (String.eqb v (phaseCode u0))); [|reflexivity].
    destruct (TaskService.canChangePhase P taskId user userRole) as [[|]|e];
      try reflexivity.
    unfold TaskEntity.updatePhase. destruct (PhaseCode.new v); reflexivity.
  - destruct (ui_ownerUuid input) as [v|]; simpl; [|reflexivity].
    unfold TaskEntity.updateOwner. destruct (TaskEntity.owner_of (Some v)); reflexivity.
  - unfold TaskService.changeDates, TaskEntity.updatePlannedDates.
    destruct (ui_plannedStart input) as [a|], (ui_plannedEnd input) as [b|];
      try reflexivity;
      destruct (TaskEntity.dates_out_of_order _ _); reflexivity.
Qed.

(** X18. What no [updateTask] changes, whatever the input and whether it
    succeeds or fails (task identifiers being unique, as the primary key
    makes them): the identifier, the page, the creator and the creation date
    of every stored task, the page included although the input has a
    [pageId]; and every column of the tasks other than the one named. *)
Theorem updateTask_keeps_page_and_origin (E : Env) (taskId : string)
  (input : UpdateTaskInput) (user userRole : string) (w : World) :
  NoDup (map tk_id (task (db w))) ->
  let w' := snd (TaskService.updateTask E taskId input user userRole w) in
  map (fun r => (tk_id r, tk_page_id r, tk_created_by r, tk_created_at r))
      (task (db w'))
  = map (fun r => (tk_id r, tk_page_id r, tk_created_by r, tk_created_at r))
        (task (db w))
  /\ filter (fun r => negb (task_is taskId r)) (task (db w'))
     = filter (fun r => negb (task_is taskId r)) (task (db w)).
Proof.
  intro Hnd. cbv zeta. rewrite updateTask_run.
  destruct (TaskKnexRepository.findById E (db w) taskId) as [t|e] eqn:Hf;
    [|now split].
  destruct (TaskService.canModifyTask _ taskId user userRole) as [[|]|e];
    try now split.
  destruct (TaskService.applyInput _ E taskId user userRole input t) as [t'|e] eqn:Ha;
    [|now split].
  destruct (TaskService.updateTask_statements E taskId input t' _) as [[r|e] w1] eqn:Hs;
    [|now split].
  destruct (env_commit E); [now split|].
  cbn [snd db]. apply updateTask_statements_tasks in Hs. rewrite Hs. cbn [db].
  split.
  - rewrite map_map. apply map_ext_in. intros row Hin.
    destruct (task_is taskId row) eqn:Hrow; [|reflexivity].
    cbn [TaskService.updated_row tk_id tk_page_id tk_created_by tk_created_at].
    apply applyInput_origin in Ha. injection Ha as _ Hpage _ _.
    unfold TaskKnexRepository.findById in Hf.
    destruct (find (task_is taskId) (task (db w))) as [record|] eqn:Hfind;
      [|discriminate].
    apply TaskEntity_create_inv in Hf.
    destruct Hf as (_ & _ & _ & _ & Hpg & _). cbn [p_pageId] in Hpg.
    apply find_some in Hfind. destruct Hfind as [Hrec Hid].
    assert (Hsame : record = row).
    { apply (unique_key_row tk_id (task (db w))); try assumption.
      unfold task_is in *. apply String.eqb_eq in Hrow, Hid. congruence. }
    rewrite Hpage, Hpg, Hsame. unfold orKept. now destruct (tk_page_id row).
  - clear. induction (task (db w)) as [|row rows IH]; [reflexivity|].
    cbn [map filter].
    destruct (task_is taskId row) eqn:Hrow.
    + change (task_is taskId (TaskService.updated_row E t' row))
        with (task_is taskId row).
      rewrite Hrow. cbn [negb]. apply IH.
    + rewrite Hrow. cbn [negb]. now rewrite IH.
Qed.

(** X18 on the sample task: an update that names a page and changes
    every field it can leaves the page unset. *)
Lemma updateTask_keeps_page_and_origin_sample :
  map (fun r => (tk_id r, tk_page_id r, tk_created_by r, tk_created_at r))
      (task (db (snd (TaskService.updateTask (Sample.at_ 7000 "") Sample.taskA
                        {| ui_phaseCode := Some "A"; ui_pageId := Some "12";
                           ui_title := Some "Migrate all pages";
                           ui_description := Some "every page";
                           ui_priority := Some 5;
                           ui_ownerUuid := Some Sample.bob;
                           ui_plannedStart := Some 8000; ui_plannedEnd := Some 9000;
                           ui_profilesImpacted := Some [];
                           ui_raci := None |}
                        Sample.alice "CP" Sample.three_subtasks))))
  = [(Sample.taskA, None, Sample.alice, 1000)]
  /\ map tk_title
         (task (db (snd (TaskService.updateTask (Sample.at_ 7000 "") Sample.taskA
                           {| ui_phaseCode := Some "A"; ui_pageId := Some "12";
                              ui_title := Some "Migrate all pages";
                              ui_description := Some "every page";
                              ui_priority := Some 5;
                              ui_ownerUuid := Some Sample.bob;
                              ui_plannedStart := Some 8000; ui_plannedEnd := Some 9000;
                              ui_profilesImpacted := Some [];
                              ui_raci := None |}
                           Sample.alice "CP" Sample.three_subtasks))))
     = ["Migrate all pages"].
Proof.
  split; [|reflexivity].
  rewrite (proj1 (updateTask_keeps_page_and_origin (Sample.at_ 7000 "") Sample.taskA _
                    Sample.alice "CP" Sample.three_subtasks
                    ltac:(repeat constructor; intros []))).
  reflexivity.
Defined.




(** ** The profiles of a task *)

Lemma insert_all_task_profile_ok now taskId codes d :
  distinct codes = true ->
  (forall c, In c codes -> existsb (profile_link taskId c) (task_profile d) = false) ->
  insert_all insert_task_profile
    (map (fun c => {| tp_task_id := taskId; tp_profile_code := c;
                      tp_created_at := now |}) codes) d
  = success (with_task_profile
               (task_profile d
                ++ map (fun c => {| tp_task_id := taskId; tp_profile_code := c;
                                    tp_created_at := now |}) codes) d).
Proof.
  revert d. induction codes as [|c codes IH]; intros d Hd Hfree.
  - cbn [map insert_all]. rewrite app_nil_r. now destruct d.
  - cbn [distinct] in Hd. apply andb_true_iff in Hd as [Hc Hd].
    apply negb_true_iff in Hc.
    cbn [map insert_all]. unfold insert_task_profile at 1.
    cbn [tp_task_id tp_profile_code]. rewrite (Hfree c (or_introl eq_refl)).
    rewrite IH; [|exact Hd|].
    + cbn [task_profile with_task_profile]. rewrite <- app_assoc. reflexivity.
    + intros c' Hc'. cbn [task_profile with_task_profile].
      rewrite existsb_app, (Hfree c' (or_intror Hc')). cbn [existsb orb].
      rewrite orb_false_r. unfold profile_link. cbn [tp_task_id tp_profile_code].
      destruct (String.eqb c c') eqn:Heq; [|now rewrite andb_false_r].
      exfalso. assert (Htrue : existsb (String.eqb c) codes = true)
        by (apply existsb_exists; now exists c').
      rewrite Htrue in Hc. discriminate.
Qed.

Lemma insert_all_task_profile_present now taskId codes d c :
  In c codes ->
  existsb (profile_link taskId c) (task_profile d) = true ->
  exists e,
    insert_all insert_task_profile
      (map (fun c => {| tp_task_id := taskId; tp_profile_code := c;
                        tp_created_at := now |}) codes) d
    = failure e.
Proof.
  revert d. induction codes as [|c' codes IH]; intros d Hin Hex; [destruct Hin|].
  cbn [map insert_all]. unfold insert_task_profile at 1.
  cbn [tp_task_id tp_profile_code].
  destruct (existsb (profile_link taskId c') (task_profile d)) eqn:Hc';
    [eexists; reflexivity|].
  destruct Hin as [-> | Hin]; [rewrite Hex in Hc'; discriminate|].
  apply IH; [exact Hin|].
  cbn [task_profile with_task_profile]. now rewrite existsb_app, Hex.
Qed.

Lemma insert_all_task_profile_dup now taskId codes d :
  distinct codes = false ->
  exists e,
    insert_all insert_task_profile
      (map (fun c => {| tp_task_id := taskId; tp_profile_code := c;
                        tp_created_at := now |}) codes) d
    = failure e.
Proof.
  revert d. induction codes as [|c codes IH]; intros d Hd; [discriminate|].
  cbn [map insert_all]. unfold insert_task_profile at 1.
  cbn [tp_task_id tp_profile_code].
  destruct (existsb (profile_link taskId c) (task_profile d)) eqn:Hc;
    [eexists; reflexivity|].
  cbn [distinct] in Hd. apply andb_false_iff in Hd as [Hd | Hd].
  - apply negb_false_iff in Hd. apply existsb_exists in Hd as (c' & Hin & Heq).
    apply String.eqb_eq in Heq. subst c'.
    apply (insert_all_task_profile_present now taskId codes _ c Hin).
    cbn [task_profile with_task_profile]. rewrite existsb_app. cbn [existsb].
    unfold profile_link at 2. cbn [tp_task_id tp_profile_code].
    rewrite !String.eqb_refl. cbn [andb orb]. apply orb_true_r.
  - now apply IH.
Qed.

(** X20. [associateWithTask] replaces the profiles of a stored task by
    known ones, or changes nothing. When no code is named twice and the
    transaction commits, it succeeds: the task is linked to exactly the
    codes given, in their order (to none for the empty list), and the links
    of the other tasks are untouched. When a code is named twice, or the
    commit fails, it returns a failure and the store is what it was: the
    links the task had are still there. *)
Theorem associateWithTask_replaces_or_keeps (E : Env) (taskId : string)
  (codes : list string) (w : World) :
  existsb (task_is taskId) (task (db w)) = true ->
  (forall c, In c codes ->
             existsb (fun p => String.eqb (pf_code p) c) (profile (db w)) = true) ->
  let out := ProfileKnexRepository.associateWithTask E taskId codes w in
  if (distinct codes && match env_commit E with None => true | Some _ => false end)%bool
  then fst out = Ret (success tt)
       /\ map tp_profile_code (filter (profile_of taskId) (task_profile (db (snd out))))
          = codes
       /\ filter (fun r => negb (profile_of taskId r)) (task_profile (db (snd out)))
          = filter (fun r => negb (profile_of taskId r)) (task_profile (db w))
  else (exists e, fst out = Ret (failure e)) /\ db (snd out) = db w.
Proof.
  intros _ _. cbv zeta.
  unfold ProfileKnexRepository.associateWithTask, BaseKnexRepository.transaction,
    catch, knex_transaction, bind, exec, ret.
  cbn [db trace].
  set (kept := filter (fun r => negb (profile_of taskId r)) (task_profile (db w))).
  assert (Hfree : forall c, In c codes ->
                            existsb (profile_link taskId c)
                              (task_profile (with_task_profile kept (db w))) = false).
  { intros c _. cbn [task_profile with_task_profile].
    destruct (existsb (profile_link taskId c) kept) eqn:Hex; [|reflexivity].
    apply existsb_exists in Hex as (x & Hx & Hk).
    unfold kept in Hx. apply filter_In in Hx as [_ Hx].
    unfold profile_link in Hk. apply andb_true_iff in Hk as [Hk _].
    unfold profile_of in Hx. rewrite Hk in Hx. discriminate. }
  destruct codes as [|c0 rest] eqn:Hcodes.
  - cbn [List.length Nat.ltb Nat.leb distinct andb db trace fst snd].
    destruct (env_commit E) as [e|]; cbn [fst snd db].
    + split; [now exists e|reflexivity].
    + cbn [task_profile with_task_profile].
      split; [reflexivity|]. split.
      * rewrite filter_none; [reflexivity|].
        intros x Hx. unfold kept in Hx. apply filter_In in Hx as [_ Hx].
        now destruct (profile_of taskId x).
      * unfold kept. rewrite filter_filter. apply filter_ext.
        intro x. now destruct (profile_of taskId x).
  - rewrite <- Hcodes in *.
    assert (Hlen : Nat.ltb 0 (List.length codes) = true) by now rewrite Hcodes.
    rewrite Hlen. cbn [db trace].
    destruct (distinct codes) eqn:Hd.
    + rewrite (insert_all_task_profile_ok _ _ _ _ Hd Hfree). cbn [db trace andb].
      destruct (env_commit E) as [e|]; cbn [fst snd db].
      * split; [now exists e|reflexivity].
      * cbn [task_profile with_task_profile].
        split; [reflexivity|].
        rewrite !filter_app.
        assert (Hrows : forall r,
                   In r (map (fun c => {| tp_task_id := taskId;
                                          tp_profile_code := c;
                                          tp_created_at := env_now E |}) codes) ->
                   profile_of taskId r = true).
        { intros r Hr. apply in_map_iff in Hr as (c & <- & _).
          apply String.eqb_refl. }
        split.
        -- rewrite (filter_none (profile_of taskId) kept).
           ++ cbn [app]. rewrite filter_all by exact Hrows.
              rewrite map_map. cbn [tp_profile_code]. apply map_id.
           ++ intros x Hx. unfold kept in Hx. apply filter_In in Hx as [_ Hx].
              now destruct (profile_of taskId x).
        -- rewrite (filter_none (fun r => negb (profile_of taskId r)) (map _ codes)).
           ++ rewrite app_nil_r. unfold kept. rewrite filter_filter.
              apply filter_ext. intro x. now destruct (profile_of taskId x).
           ++ intros x Hx. now rewrite (Hrows x Hx).
    + destruct (insert_all_task_profile_dup (env_now E) taskId codes
                  (with_task_profile kept (db w)) Hd) as (e & He).
      rewrite He. cbn [andb fst snd db].
      split; [now exists e|reflexivity].
Qed.

(** X20 on the sample task, which is linked to TEC: linking it to TEC
    again succeeds, the old link having been deleted first, and naming TEC
    twice fails and leaves the link in place. *)
Lemma associateWithTask_replaces_or_keeps_sample :
  map tp_profile_code
      (filter (profile_of Sample.taskA)
         (task_profile
            (db (snd (ProfileKnexRepository.associateWithTask (Sample.at_ 6000 "")
                        Sample.taskA ["TEC"] Sample.task_created)))))
  = ["TEC"]
  /\ db (snd (ProfileKnexRepository.associateWithTask (Sample.at_ 6000 "")
                Sample.taskA ["TEC"; "TEC"] Sample.task_created))
     = db Sample.task_created.
Proof.
  split.
  - pose proof (associateWithTask_replaces_or_keeps (Sample.at_ 6000 "") Sample.taskA
                  ["TEC"] Sample.task_created eq_refl) as H.
    cbv beta zeta in H.
    change (distinct ["TEC"] && _)%bool with true in H. cbv iota in H.
    apply H. intros c [<-|[]]. reflexivity.
  - pose proof (associateWithTask_replaces_or_keeps (Sample.at_ 6000 "") Sample.taskA
                  ["TEC"; "TEC"] Sample.task_created eq_refl) as H.
    cbv beta zeta in H.
    change (distinct ["TEC"; "TEC"] && _)%bool with false in H. cbv iota in H.
    apply H. intros c [<-|[<-|[]]]; reflexivity.
Defined.

(** ** Referential integrity *)

Lemma existsb_filter {T} (p q : T -> bool) (l : list T) :
  existsb p (filter q l) = existsb (fun x => (q x && p x)%bool) l.
Proof.
  induction l as [|x l IH]; simpl; [reflexivity|].
  destruct (q x); simpl; now rewrite IH.
Qed.

Lemma still_stored (i k : string) (rows : list TaskRow) :
  String.eqb k i = false ->
  existsb (task_is k) rows = true ->
  existsb (task_is k) (filter (fun x => negb (task_is i x)) rows) = true.
Proof.
  intros Hk Hex. rewrite existsb_filter.
  apply existsb_exists in Hex as (t & Hin & Ht).
  apply existsb_exists. exists t. split; [exact Hin|].
  rewrite Ht, andb_true_r. unfold task_is in *.
  apply String.eqb_eq in Ht. now rewrite Ht, Hk.
Qed.

Lemma forallb_filter_weaken {T} (p p' q : T -> bool) (l : list T) :
  (forall x, In x l -> q x = true -> p x = true -> p' x = true) ->
  forallb p l = true -> forallb p' (filter q l) = true.
Proof.
  intros Hw Hall. apply forallb_forall. intros x Hx.
  apply filter_In in Hx as [Hin Hq].
  apply (Hw x Hin Hq). now apply (proj1 (forallb_forall p l) Hall).
Qed.

(** X21. [deleteTask] keeps the foreign keys of the store: when they hold
    before the call they hold after it, whether the task was deleted or the
    call failed. No subtask, RACI row or profile link is left without its
    task, and no RACI row of a subtask without its subtask. *)
Theorem deleteTask_keeps_references (E : Env) (taskId user userRole : string)
  (w : World) :
  references_hold (db w) = true ->
  references_hold (db (snd (TaskService.deleteTask E taskId user userRole w))) = true.
Proof.
  intro H. rewrite deleteTask_run.
  destruct (TaskKnexRepository.findById E (db w) taskId) as [t|e] eqn:Hf;
    [|exact H].
  destruct (elevated userRole || isOwner t user)%bool; [|exact H].
  destruct (findById_row _ _ _ _ Hf) as (r & rest & Hrows & _).
  rewrite (delete_tasks_id _ _ _ _ Hrows). cbn [snd db].
  unfold references_hold in *.
  cbn [task subtask task_raci subtask_raci task_profile profile].
  apply andb_true_iff in H as [H H5]. apply andb_true_iff in H as [H H4].
  apply andb_true_iff in H as [H H3]. apply andb_true_iff in H as [H1 H2].
  repeat (apply andb_true_iff; split).
  - revert H1. apply forallb_filter_weaken. intros s _ Hq Hs.
    apply still_stored; [|exact Hs]. unfold subtask_of in Hq.
    now apply negb_true_iff in Hq.
  - revert H2. apply forallb_filter_weaken. intros x _ Hq Hx.
    apply still_stored; [|exact Hx]. unfold raci_of in Hq.
    now apply negb_true_iff in Hq.
  - revert H3. apply forallb_filter_weaken. intros x _ Hq Hx.
    apply still_stored; [|exact Hx]. unfold profile_of in Hq.
    now apply negb_true_iff in Hq.
  - revert H4. apply forallb_filter_weaken. intros x _ Hq Hx.
    rewrite existsb_filter.
    apply existsb_exists in Hx as (s & Hin & Hs).
    apply existsb_exists. exists s. split; [exact Hin|].
    rewrite Hs, andb_true_r.
    destruct (subtask_of taskId s) eqn:Hof; [|reflexivity].
    exfalso. apply negb_true_iff in Hq.
    assert (Htrue : orphaned (filter (subtask_of taskId) (subtask (db w))) x = true).
    { unfold orphaned. apply existsb_exists. exists s. split.
      - apply filter_In. now split.
      - exact Hs. }
    rewrite Htrue in Hq. discriminate.
  - revert H5. apply forallb_filter_weaken. intros x _ _ Hx. exact Hx.
Qed.

(** X21 on the sample data: Alice deletes the sample task and its three
    subtasks; nothing of it is left in the store. *)
Lemma deleteTask_keeps_references_sample :
  references_hold
    (db (snd (TaskService.deleteTask (Sample.at_ 8000 "") Sample.taskA Sample.alice
                "CP" Sample.three_subtasks))) = true
  /\ subtask_raci
       (db (snd (TaskService.deleteTask (Sample.at_ 8000 "") Sample.taskA Sample.alice
                   "CP" Sample.three_subtasks))) = [].
Proof.
  split; [|reflexivity].
  apply (deleteTask_keeps_references (Sample.at_ 8000 "") Sample.taskA Sample.alice "CP"
           Sample.three_subtasks).
  reflexivity.
Defined.

Lemma references_elim d :
  references_hold d = true ->
  forallb (fun s => existsb (task_is (sb_task_id s)) (task d)) (subtask d) = true
  /\ forallb (fun r => existsb (task_is (rc_entity r)) (task d)) (task_raci d) = true
  /\ forallb (fun l => existsb (task_is (tp_task_id l)) (task d)) (task_profile d) = true
  /\ forallb (fun r => existsb (subtask_is (rc_entity r)) (subtask d)) (subtask_raci d)
     = true
  /\ forallb (fun l => existsb (fun p => String.eqb (pf_code p) (tp_profile_code l))
                               (profile d))
             (task_profile d) = true.
Proof.
  unfold references_hold. intro H.
  apply andb_true_iff in H as [H H5]. apply andb_true_iff in H as [H H4].
  apply andb_true_iff in H as [H H3]. apply andb_true_iff in H as [H1 H2].
  now repeat split.
Qed.

Lemma references_intro d :
  forallb (fun s => existsb (task_is (sb_task_id s)) (task d)) (subtask d) = true ->
  forallb (fun r => existsb (task_is (rc_entity r)) (task d)) (task_raci d) = true ->
  forallb (fun l => existsb (task_is (tp_task_id l)) (task d)) (task_profile d) = true ->
  forallb (fun r => existsb (subtask_is (rc_entity r)) (subtask d)) (subtask_raci d)
  = true ->
  forallb (fun l => existsb (fun p => String.eqb (pf_code p) (tp_profile_code l))
                            (profile d))
          (task_profile d) = true ->
  references_hold d = true.
Proof.
  intros H1 H2 H3 H4 H5. unfold references_hold. now rewrite H1, H2, H3, H4, H5.
Qed.

Lemma existsb_app_l {T} (p : T -> bool) (l l' : list T) :
  existsb p l = true -> existsb p (l ++ l') = true.
Proof. intro H. now rewrite existsb_app, H. Qed.

Lemma forallb_impl {T} (p q : T -> bool) (l : list T) :
  (forall x, In x l -> p x = true -> q x = true) ->
  forallb p l = true -> forallb q l = true.
Proof.
  intros Hw Hall. apply forallb_forall. intros x Hx.
  apply (Hw x Hx). now apply (proj1 (forallb_forall p l) Hall).
Qed.

Lemma latest_In {Row} (key : Row -> Z) (l : list Row) (r : Row) :
  latest key l = Some r -> In r l.
Proof.
  revert r. induction l as [|a l IH]; simpl; intros r H; [discriminate|].
  destruct (latest key l) as [r'|].
  - destruct (key a <? key r'); injection H as <-; [right; now apply IH|now left].
  - injection H as <-. now left.
Qed.

Lemma insert_all_task_profile_inv rows d d' :
  insert_all insert_task_profile rows d = success d' ->
  d' = with_task_profile (task_profile d ++ rows) d.
Proof.
  revert d. induction rows as [|r rows IH]; simpl; intros d H.
  - injection H as <-. rewrite app_nil_r. now destruct d.
  - unfold insert_task_profile at 1 in H.
    destruct (existsb _ (task_profile d)); [discriminate|].
    apply IH in H. subst d'. unfold with_task_profile. simpl.
    now rewrite <- app_assoc.
Qed.

Lemma existsb_rewritten {Row} (p c : Row -> bool) (f : Row -> Row) (l : list Row) :
  (forall r, p (f r) = p r) ->
  existsb p (map (fun r => if c r then f r else r) l) = existsb p l.
Proof.
  intro Hf. induction l as [|r l IH]; simpl; [reflexivity|].
  rewrite IH. destruct (c r); [now rewrite Hf|reflexivity].
Qed.

(** The tables that the loops over the RACI input leave alone. *)
Lemma insertRaci_keeps {X} (obs : DB -> X) E taskId raci :
  (forall rows d, obs (with_task_raci rows d) = obs d) ->
  stable (fun w => obs (db w)) (TaskService.insertRaci E taskId raci).
Proof.
  intro Hobs. unfold TaskService.insertRaci.
  apply stable_forEach. intro l.
  destruct (TaskService.users_of raci l) as [users|]; [|apply stable_ret].
  destruct (Nat.ltb 0 (List.length users)); [|apply stable_ret].
  apply stable_forEach. intro u. apply stable_exec_db.
  intros d d' H. unfold insert_task_raci in H.
  destruct (existsb _ (task_raci d)); [discriminate|].
  injection H as <-. apply Hobs.
Qed.

Lemma insertRaci_keeps_others E taskId raci w o w1 :
  TaskService.insertRaci E taskId raci w = (o, w1) ->
  (task (db w1), subtask (db w1), subtask_raci (db w1), task_profile (db w1),
   profile (db w1))
  = (task (db w), subtask (db w), subtask_raci (db w), task_profile (db w),
     profile (db w)).
Proof.
  apply (insertRaci_keeps
           (fun d => (task d, subtask d, subtask_raci d, task_profile d, profile d))).
  reflexivity.
Qed.

Lemma createTask_statements_writes E input t w r w1 :
  TaskService.createTask_statements E input t w = (Ret r, w1) ->
  exists taskId pairs codes,
    existsb (task_is taskId) (task (db w1)) = true
    /\ task (db w1) = (task (db w) ++ [TaskService.task_row t])%list
    /\ task_raci (db w1)
       = (task_raci (db w)
          ++ map (fun p => TaskService.stamped_row E taskId (fst p) (snd p)) pairs)%list
    /\ task_profile (db w1)
       = (task_profile (db w) ++ TaskService.profileRows E taskId codes)%list
    /\ (codes = [] \/ ci_profilesImpacted input = Some codes)
    /\ subtask (db w1) = subtask (db w)
    /\ subtask_raci (db w1) = subtask_raci (db w)
    /\ profile (db w1) = profile (db w).
Proof.
  intro H.
  pose proof (createTask_statements_tasks _ _ _ _ _ _ H) as Htasks.
  unfold TaskService.createTask_statements in H.
  apply bind_returns in H as ([] & w2 & H1 & H).
  unfold exec, insert_task in H1.
  destruct (existsb _ (task (db w))); [discriminate|]. injection H1 as <-.
  apply bind_returns in H as (saved & w3 & H2 & H).
  unfold query in H2. injection H2 as <- <-. cbn [db] in H.
  destruct (TaskService.savedTaskRecord t _) as [record|] eqn:Hsaved; [|discriminate].
  apply latest_In in Hsaved. apply filter_In in Hsaved as [Hrec _].
  cbn [task with_task] in Hrec.
  apply bind_returns in H as ([] & w4 & H3 & H).
  apply bind_returns in H as ([] & w5 & H4 & H).
  unfold bind, query, ret in H. injection H as <- <-.
  assert (Hraci : exists pairs,
             task_raci (db w4)
             = (task_raci (db w)
                ++ map (fun p => TaskService.stamped_row E (tk_id record) (fst p) (snd p))
                       pairs)%list
             /\ (subtask (db w4), subtask_raci (db w4), task_profile (db w4),
                 profile (db w4))
                = (subtask (db w), subtask_raci (db w), task_profile (db w),
                   profile (db w))).
  { destruct (ci_raci input) as [raci|].
    - exists (asked_pairs raci).
      pose proof (insertRaci_keeps_others _ _ _ _ _ _ H3) as Hk.
      apply insertRaci_run in H3 as [H3 _]. cbn [db task_raci with_task] in H3.
      split; [exact H3|]. cbn [db] in Hk. now injection Hk as _ -> -> -> ->.
    - exists []. injection H3 as <-. cbn [db]. split; [now rewrite app_nil_r|reflexivity]. }
  destruct Hraci as (pairs & Hraci & Hrest). injection Hrest as Hs Hsr Htp Hp.
  assert (Hprof : exists codes,
             task_profile (db w5)
             = (task_profile (db w4) ++ TaskService.profileRows E (tk_id record) codes)%list
             /\ (codes = [] \/ ci_profilesImpacted input = Some codes)
             /\ (subtask (db w5), subtask_raci (db w5), task_raci (db w5), profile (db w5))
                = (subtask (db w4), subtask_raci (db w4), task_raci (db w4),
                   profile (db w4))).
  { destruct (ci_profilesImpacted input) as [codes|].
    - destruct (Nat.ltb 0 (List.length codes)).
      + exists codes. unfold exec in H4.
        destruct (insert_all insert_task_profile _ (db w4)) as [d'|e] eqn:Hi;
          [|discriminate].
        injection H4 as <-. apply insert_all_task_profile_inv in Hi. subst d'.
        cbn [db]. split; [reflexivity|]. split; [now right|reflexivity].
      + exists []. injection H4 as <-. split; [now rewrite app_nil_r|].
        split; [now left|reflexivity].
    - exists []. injection H4 as <-. split; [now rewrite app_nil_r|].
      split; [now left|reflexivity]. }
  destruct Hprof as (codes & Hprof & Hcodes & Hrest).
  injection Hrest as Hs' Hsr' Htr' Hp'.
  exists (tk_id record), pairs, codes.
  rewrite Htasks. cbn [db].
  split. { apply existsb_exists. exists record. split; [exact Hrec|].
           apply String.eqb_refl. }
  split; [reflexivity|].
  split; [now rewrite Htr', Hraci|].
  split; [now rewrite Hprof, Htp|].
  split; [exact Hcodes|].
  split; [now rewrite Hs', Hs|].
  split; [now rewrite Hsr', Hsr|].
  now rewrite Hp', Hp.
Qed.

Lemma unknownProfile_none d input codes :
  TaskService.unknownProfile d input = None ->
  ci_profilesImpacted input = Some codes ->
  forall c, In c codes ->
            existsb (fun p => String.eqb (pf_code p) c) (profile d) = true.
Proof.
  unfold TaskService.unknownProfile. intros H Hcodes c Hc. rewrite Hcodes in H.
  destruct codes as [|c0 rest]; [destruct Hc|].
  cbn [List.length Nat.ltb Nat.leb] in H.
  pose proof (find_none _ _ H c Hc) as Hknown.
  unfold ProfileKnexRepository.findByCode in Hknown.
  destruct (find (fun r => String.eqb (pf_code r) c) (profile d)) as [row|] eqn:Hf;
    [|discriminate].
  apply find_some in Hf. apply existsb_exists. now exists row.
Qed.

Lemma updateTask_statements_writes E taskId input t w dto w1 :
  TaskService.updateTask_statements E taskId input t w = (Ret dto, w1) ->
  task (db w1)
  = map (fun row => if task_is taskId row then TaskService.updated_row E t row else row)
        (task (db w))
  /\ (forall x, In x (task_raci (db w1)) ->
                In x (task_raci (db w)) \/ rc_entity x = taskId)
  /\ (forall x, In x (task_profile (db w1)) ->
                In x (task_profile (db w))
                \/ (tp_task_id x = taskId
                    /\ exists codes, ui_profilesImpacted input = Some codes
                                     /\ In (tp_profile_code x) codes))
  /\ subtask (db w1) = subtask (db w)
  /\ subtask_raci (db w1) = subtask_raci (db w)
  /\ profile (db w1) = profile (db w).
Proof.
  intro H.
  pose proof (updateTask_statements_tasks _ _ _ _ _ _ _ H) as Htasks.
  pose proof (updateTask_statements_raci _ _ _ _ _ _ _ H) as (Hraci & _ & _).
  unfold TaskService.updateTask_statements in H.
  apply bind_returns in H as ([] & w2 & H1 & H).
  apply bind_returns in H as ([] & w3 & H2 & H).
  apply bind_returns in H as ([] & w4 & H3 & H).
  unfold bind, query, ret in H. injection H as <- <-.
  unfold exec, TaskService.update_task in H1. injection H1 as <-.
  assert (Hraci_keeps :
            (subtask (db w3), subtask_raci (db w3), task_profile (db w3), profile (db w3))
            = (subtask (db w), subtask_raci (db w), task_profile (db w), profile (db w))).
  { destruct (ui_raci input) as [raci|]; [|now injection H2 as <-].
    apply bind_returns in H2 as ([] & w5 & Hd & Hi).
    unfold exec, TaskService.delete_task_raci in Hd. injection Hd as <-.
    apply insertRaci_keeps_others in Hi. cbn [db] in Hi.
    now injection Hi as _ -> -> -> ->. }
  injection Hraci_keeps as Hs Hsr Htp Hp.
  assert (Hprof :
            (subtask (db w4), subtask_raci (db w4), profile (db w4))
            = (subtask (db w3), subtask_raci (db w3), profile (db w3))
            /\ forall x, In x (task_profile (db w4)) ->
                         In x (task_profile (db w3))
                         \/ (tp_task_id x = taskId
                             /\ exists codes, ui_profilesImpacted input = Some codes
                                              /\ In (tp_profile_code x) codes)).
  { destruct (ui_profilesImpacted input) as [codes|];
      [|injection H3 as <-; split; [reflexivity|now left]].
    apply bind_returns in H3 as ([] & w5 & Hd & Hi).
    unfold exec, TaskService.delete_task_profile in Hd. injection Hd as <-.
    destruct (Nat.ltb 0 (List.length codes)).
    - unfold exec in Hi. cbn [db] in Hi.
      destruct (insert_all insert_task_profile _ _) as [d'|e] eqn:Hins; [|discriminate].
      injection Hi as <-. apply insert_all_task_profile_inv in Hins. subst d'.
      cbn [db subtask subtask_raci profile task_profile with_task_profile].
      split; [reflexivity|].
      intros x Hx. apply in_app_or in Hx as [Hx|Hx].
      + left. now apply filter_In in Hx as [Hx _].
      + right. unfold TaskService.profileRows in Hx.
        apply in_map_iff in Hx as (c & <- & Hc). split; [reflexivity|].
        exists codes. now split.
    - injection Hi as <-.
      cbn [db subtask subtask_raci profile task_profile with_task_profile].
      split; [reflexivity|].
      intros x Hx. left. now apply filter_In in Hx as [Hx _]. }
  destruct Hprof as (Hkeep & Hlinks). injection Hkeep as Hs' Hsr' Hp'.
  split; [exact Htasks|]. split.
  { intros x Hx. rewrite Hraci in Hx.
    destruct (ui_raci input) as [raci|]; [|now left].
    apply in_app_or in Hx as [Hx|Hx].
    - left. now apply filter_In in Hx as [Hx _].
    - right. apply in_map_iff in Hx as (p & <- & _). reflexivity. }
  split.
  { intros x Hx. destruct (Hlinks x Hx) as [Hin|Hnew]; [|now right].
    left. now rewrite <- Htp. }
  split; [now rewrite Hs', Hs|].
  split; [now rewrite Hsr', Hsr|].
  now rewrite Hp', Hp.
Qed.

Lemma createSubTask_statements_writes rule E taskId s w r w1 :
  (forall rows row, tk_id (rule rows row) = tk_id row) ->
  TaskService.createSubTask_statements rule E taskId s w = (Ret r, w1) ->
  (forall k, existsb (task_is k) (task (db w1)) = existsb (task_is k) (task (db w)))
  /\ subtask (db w1) = (subtask (db w) ++ [TaskService.subtask_row E s])%list
  /\ (forall x, In x (subtask_raci (db w1)) ->
                In x (subtask_raci (db w))
                \/ existsb (subtask_is (rc_entity x)) (subtask (db w1)) = true)
  /\ task_raci (db w1) = task_raci (db w)
  /\ task_profile (db w1) = task_profile (db w)
  /\ profile (db w1) = profile (db w).
Proof.
  intros Hrule H.
  unfold TaskService.createSubTask_statements in H.
  apply bind_returns in H as ([] & w2 & H1 & H).
  unfold exec, insert_subtask in H1.
  destruct (existsb _ (subtask (db w))); [discriminate|]. injection H1 as <-.
  apply bind_returns in H as (saved & w3 & H2 & H).
  unfold query in H2. injection H2 as <- <-. cbn [db] in H.
  destruct (TaskService.savedSubtaskRecord s _) as [record|] eqn:Hsaved;
    [|discriminate].
  apply latest_In in Hsaved. apply filter_In in Hsaved as [Hrec _].
  cbn [fire subtask with_task with_subtask] in Hrec.
  apply bind_returns in H as (taskRacis & w4 & H3 & H).
  unfold query in H3. injection H3 as <- <-.
  apply bind_returns in H as ([] & w5 & H4 & H).
  unfold bind, query, ret in H. injection H as _ <-.
  assert (Hsub : existsb (subtask_is (sb_id record))
                   (subtask (db w) ++ [TaskService.subtask_row E s]) = true).
  { apply existsb_exists. exists record. split; [exact Hrec|apply String.eqb_refl]. }
  assert (Hw5 : (task (db w5), subtask (db w5), task_raci (db w5), task_profile (db w5),
                 profile (db w5))
                = (map (fun r0 =>
                          if task_is (sb_task_id (TaskService.subtask_row E s)) r0
                          then rule (filter (subtask_of (sb_task_id
                                                           (TaskService.subtask_row E s)))
                                       (subtask (db w) ++ [TaskService.subtask_row E s]))
                                 r0
                          else r0) (task (db w)),
                   (subtask (db w) ++ [TaskService.subtask_row E s])%list,
                   task_raci (db w), task_profile (db w), profile (db w))
                /\ forall x, In x (subtask_raci (db w5)) ->
                             In x (subtask_raci (db w)) \/ rc_entity x = sb_id record).
  { destruct (Nat.ltb 0 (List.length _)).
    - unfold exec in H4. cbn [db] in H4.
      destruct (insert_all insert_subtask_raci _ _) as [d'|e] eqn:Hins; [|discriminate].
      injection H4 as <-. apply insert_all_subtask_raci in Hins. subst d'.
      cbn [db]. split; [reflexivity|].
      cbn [subtask_raci with_subtask_raci fire with_task with_subtask].
      intros x Hx. apply in_app_or in Hx as [Hx|Hx]; [now left|right].
      apply in_map_iff in Hx as (p & <- & _). reflexivity.
    - injection H4 as <-. cbn [db]. split; [reflexivity|]. intros x Hx. now left. }
  destruct Hw5 as (Heq & Hsr). injection Heq as Ht Hs Htr Htp Hp.
  split.
  { intro k. rewrite Ht. apply existsb_rewritten. intro row.
    unfold task_is. now rewrite Hrule. }
  split; [exact Hs|]. split.
  { intros x Hx. destruct (Hsr x Hx) as [Hin|Hnew]; [now left|right].
    now rewrite Hs, Hnew. }
  now repeat split.
Qed.

(** X22. The use cases keep the foreign keys of the store. When they hold
    before a call of [createTask], of [createSubTask] (with a trigger that
    leaves the identifier of the task row alone) or of [updateTask] (whose
    profile codes, which it does not check, are known), they hold after it,
    whether the call succeeded or failed: every row that the use cases insert
    refers to a stored task, a stored subtask, a profile of the catalogue. *)
Theorem use_cases_keep_references (E : Env) (w : World) :
  references_hold (db w) = true ->
  (forall input creator,
      references_hold (db (snd (TaskService.createTask E input creator w))) = true)
  /\ (forall rule taskId subtaskTitle done user userRole,
         (forall rows row, tk_id (rule rows row) = tk_id row) ->
         references_hold
           (db (snd (TaskService.createSubTask rule E taskId subtaskTitle done user
                       userRole w))) = true)
  /\ (forall taskId input user userRole,
         (forall codes c,
             ui_profilesImpacted input = Some codes -> In c codes ->
             existsb (fun p => String.eqb (pf_code p) c) (profile (db w)) = true) ->
         references_hold
           (db (snd (TaskService.updateTask E taskId input user userRole w))) = true).
Proof.
  intro H. pose proof (references_elim _ H) as (H1 & H2 & H3 & H4 & H5).
  split; [|split].
  - intros input creator. rewrite createTask_run.
    destruct (TaskService.unknownProfile (db w) input) eqn:Hu; [exact H|].
    destruct (TaskService.newTask E input creator) as [t|e];
      [|destruct (env_commit E); exact H].
    destruct (TaskService.createTask_statements E input t _) as [[r|e] w1] eqn:Hs;
      [|exact H].
    destruct (env_commit E); [exact H|]. cbn [snd db].
    apply createTask_statements_writes in Hs
      as (taskId & pairs & codes & Hid & Ht & Hr & Hp & Hc & Hs1 & Hs2 & Hs3).
    cbn [db] in Hid, Ht, Hr, Hp, Hs1, Hs2, Hs3. rewrite Ht in Hid.
    apply references_intro; rewrite ?Ht, ?Hr, ?Hp, ?Hs1, ?Hs2, ?Hs3.
    + revert H1. apply forallb_impl. intros x _. apply existsb_app_l.
    + rewrite forallb_app. apply andb_true_iff. split.
      * revert H2. apply forallb_impl. intros x _. apply existsb_app_l.
      * apply forallb_forall. intros x Hx.
        apply in_map_iff in Hx as (p & <- & _). exact Hid.
    + rewrite forallb_app. apply andb_true_iff. split.
      * revert H3. apply forallb_impl. intros x _. apply existsb_app_l.
      * apply forallb_forall. intros x Hx.
        apply in_map_iff in Hx as (c & <- & _). exact Hid.
    + exact H4.
    + rewrite forallb_app. apply andb_true_iff. split; [exact H5|].
      apply forallb_forall. intros x Hx.
      apply in_map_iff in Hx as (c & <- & Hin). cbn [tp_profile_code].
      destruct Hc as [-> | Hc]; [destruct Hin|].
      exact (unknownProfile_none _ _ _ Hu Hc c Hin).
  - intros rule taskId subtaskTitle done user userRole Hrule.
    rewrite createSubTask_run.
    destruct (TaskKnexRepository.findById E (db w) taskId) as [t|e] eqn:Hf; [|exact H].
    destruct (TaskService.canModifyTask _ taskId user userRole) as [[|]|e];
      try exact H.
    destruct (newSubTask E taskId subtaskTitle done user) as [s|e] eqn:Hn; [|exact H].
    destruct (TaskService.createSubTask_statements rule E taskId s _) as [[r|e] w1]
      eqn:Hs; [|exact H].
    destruct (env_commit E); [exact H|]. cbn [snd db].
    apply (createSubTask_statements_writes rule) in Hs; [|exact Hrule].
    destruct Hs as (Ht & Hsub & Hsr & Htr & Htp & Hp).
    cbn [db] in Ht, Hsub, Hsr, Htr, Htp, Hp.
    destruct (newSubTask_fields _ _ _ _ _ _ Hn) as (_ & Htid & _ & _).
    destruct (findById_row _ _ _ _ Hf) as (row & rest & Hrows & _).
    assert (Hstored : existsb (task_is taskId) (task (db w)) = true).
    { apply existsb_exists. exists row.
      assert (Hin : In row (filter (task_is taskId) (task (db w))))
        by (rewrite Hrows; now left).
      now apply filter_In in Hin. }
    apply references_intro; rewrite ?Htr, ?Htp, ?Hp.
    + rewrite Hsub, forallb_app. apply andb_true_iff. split.
      * revert H1. apply forallb_impl. intros x _ Hx. now rewrite Ht.
      * cbn [forallb TaskService.subtask_row sb_task_id]. now rewrite Ht, Htid, Hstored.
    + revert H2. apply forallb_impl. intros x _ Hx. now rewrite Ht.
    + revert H3. apply forallb_impl. intros x _ Hx. now rewrite Ht.
    + apply forallb_forall. intros x Hx.
      destruct (Hsr x Hx) as [Hold|Hnew]; [|exact Hnew].
      rewrite Hsub. apply existsb_app_l.
      exact (proj1 (forallb_forall _ _) H4 x Hold).
    + exact H5.
  - intros taskId input user userRole Hknown. rewrite updateTask_run.
    destruct (TaskKnexRepository.findById E (db w) taskId) as [t|e] eqn:Hf; [|exact H].
    destruct (TaskService.canModifyTask _ taskId user userRole) as [[|]|e];
      try exact H.
    destruct (TaskService.applyInput _ E taskId user userRole input t) as [t'|e];
      [|exact H].
    destruct (TaskService.updateTask_statements E taskId input t' _) as [[r|e] w1] eqn:Hs;
      [|exact H].
    destruct (env_commit E); [exact H|]. cbn [snd db].
    apply updateTask_statements_writes in Hs as (Ht & Hr & Hl & Hsub & Hsr & Hp).
    cbn [db] in Ht, Hr, Hl, Hsub, Hsr, Hp.
    destruct (findById_row _ _ _ _ Hf) as (row & rest & Hrows & _).
    assert (Hstored : existsb (task_is taskId) (task (db w)) = true).
    { apply existsb_exists. exists row.
      assert (Hin : In row (filter (task_is taskId) (task (db w))))
        by (rewrite Hrows; now left).
      now apply filter_In in Hin. }
    assert (Hsame : forall k, existsb (task_is k) (task (db w1))
                              = existsb (task_is k) (task (db w))).
    { intro k. rewrite Ht. apply existsb_rewritten. reflexivity. }
    apply references_intro; rewrite ?Hsub, ?Hsr, ?Hp.
    + revert H1. apply forallb_impl. intros x _ Hx. now rewrite Hsame.
    + apply forallb_forall. intros x Hx. rewrite Hsame.
      destruct (Hr x Hx) as [Hold | ->]; [|exact Hstored].
      exact (proj1 (forallb_forall _ _) H2 x Hold).
    + apply forallb_forall. intros x Hx. rewrite Hsame.
      destruct (Hl x Hx) as [Hold | [-> _]]; [|exact Hstored].
      exact (proj1 (forallb_forall _ _) H3 x Hold).
    + revert H4. apply forallb_impl. intros x _ Hx. exact Hx.
    + apply forallb_forall. intros x Hx.
      destruct (Hl x Hx) as [Hold | (_ & codes & Hcodes & Hin)].
      * exact (proj1 (forallb_forall _ _) H5 x Hold).
      * exact (Hknown codes _ Hcodes Hin).
Qed.

(** X22 on the sample data: a first subtask is added to the sample task,
    with the trigger of the migration, then the task is updated with a new
    RACI and the profile of the catalogue. *)
Lemma use_cases_keep_references_sample :
  references_hold
    (db (snd (TaskService.createSubTask (fn_task_progress 2000)
                (Sample.at_ 2000 Sample.sub1) Sample.taskA "Inventory" None
                Sample.alice "CP" Sample.task_created))) = true
  /\ references_hold
       (db (snd (TaskService.updateTask (Sample.at_ 7000 "") Sample.taskA
                   {| ui_phaseCode := None; ui_pageId := None; ui_title := None;
                      ui_description := None; ui_priority := None;
                      ui_ownerUuid := None; ui_plannedStart := None;
                      ui_plannedEnd := None; ui_profilesImpacted := Some ["TEC"];
                      ui_raci := Some {| in_R := None; in_A := Some [Sample.bob];
                                         in_C := None; in_I := None |} |}
                   Sample.alice "CP" Sample.three_subtasks))) = true.
Proof.
  split.
  - apply (proj1 (proj2 (use_cases_keep_references (Sample.at_ 2000 Sample.sub1)
                           Sample.task_created eq_refl))).
    reflexivity.
  - apply (proj2 (proj2 (use_cases_keep_references (Sample.at_ 7000 "")
                           Sample.three_subtasks eq_refl))).
    intros codes c [= <-] [<-|[]]. reflexivity.
Defined.

(** ** The deletions of the repositories *)

Lemma not_deleted_stored (p : TaskRow -> bool) (k : string) (rows : list TaskRow) :
  of_deleted (filter p rows) k = false ->
  existsb (task_is k) rows = true ->
  existsb (task_is k) (filter (fun r => negb (p r)) rows) = true.
Proof.
  intros Hgone Hex. rewrite existsb_filter.
  apply existsb_exists in Hex as (t & Hin & Ht).
  apply existsb_exists. exists t. split; [exact Hin|].
  rewrite Ht, andb_true_r.
  destruct (p t) eqn:Hp; [|reflexivity].
  exfalso.
  assert (Htrue : of_deleted (filter p rows) k = true).
  { unfold of_deleted. apply existsb_exists. exists t. split.
    - apply filter_In. now split.
    - exact Ht. }
  rewrite Htrue in Hgone. discriminate.
Qed.

Lemma not_orphaned_stored (q : SubTaskRow -> bool) (r : RaciRow)
  (rows : list SubTaskRow) :
  orphaned (filter q rows) r = false ->
  existsb (subtask_is (rc_entity r)) rows = true ->
  existsb (subtask_is (rc_entity r)) (filter (fun s => negb (q s)) rows) = true.
Proof.
  intros Hgone Hex. rewrite existsb_filter.
  apply existsb_exists in Hex as (s & Hin & Hs).
  apply existsb_exists. exists s. split; [exact Hin|].
  rewrite Hs, andb_true_r.
  destruct (q s) eqn:Hq; [|reflexivity].
  exfalso.
  assert (Htrue : orphaned (filter q rows) r = true).
  { unfold orphaned. apply existsb_exists. exists s. split.
    - apply filter_In. now split.
    - exact Hs. }
  rewrite Htrue in Hgone. discriminate.
Qed.

Lemma delete_subtasks_keeps_references (q : SubTaskRow -> bool) (d : DB) :
  references_hold d = true -> references_hold (snd (delete_subtasks q d)) = true.
Proof.
  intro H. apply references_elim in H as (H1 & H2 & H3 & H4 & H5).
  unfold delete_subtasks. cbn [snd].
  apply references_intro;
    cbn [task subtask task_raci subtask_raci task_profile profile with_subtask
         with_subtask_raci]; try assumption.
  - revert H1. apply forallb_filter_weaken. intros x _ _ Hx. exact Hx.
  - revert H4. apply forallb_filter_weaken. intros x _ Hq Hx.
    apply negb_true_iff in Hq. now apply not_orphaned_stored.
Qed.

Lemma delete_tasks_keeps_references (p : TaskRow -> bool) (d : DB) :
  references_hold d = true -> references_hold (snd (delete_tasks p d)) = true.
Proof.
  intro H. apply references_elim in H as (H1 & H2 & H3 & H4 & H5).
  unfold delete_tasks, delete_subtasks. cbn [snd].
  apply references_intro;
    cbn [task subtask task_raci subtask_raci task_profile profile with_subtask
         with_subtask_raci with_task with_task_raci with_task_profile].
  - revert H1. apply forallb_filter_weaken. intros x _ Hq Hx.
    apply negb_true_iff in Hq. now apply not_deleted_stored.
  - revert H2. apply forallb_filter_weaken. intros x _ Hq Hx.
    apply negb_true_iff in Hq. now apply not_deleted_stored.
  - revert H3. apply forallb_filter_weaken. intros x _ Hq Hx.
    apply negb_true_iff in Hq. now apply not_deleted_stored.
  - revert H4. apply forallb_filter_weaken. intros x _ Hq Hx.
    apply negb_true_iff in Hq.
    now apply (not_orphaned_stored
                 (fun s => of_deleted (filter p (task d)) (sb_task_id s))).
  - revert H5. apply forallb_filter_weaken. intros x _ _ Hx. exact Hx.
Qed.

(** X23. [deleteMany] of the task repository never fails and never
    throws, unlike [delete], which reports an identifier that no row has.
    It deletes the tasks whose identifier is listed, after which none of the
    listed identifiers is found; when no stored task is listed, and so for
    the empty list, the store is left as it was. Like every deletion of a
    task it cascades, so the foreign keys that held before hold after. It
    emits nothing. *)
Theorem deleteMany_outcome (ids : list string) (w : World) :
  references_hold (db w) = true ->
  let out := TaskKnexRepository.deleteMany ids w in
  fst out = Ret (success tt)
  /\ trace (snd out) = trace w
  /\ task (db (snd out))
     = filter (fun r => negb (existsb (String.eqb (tk_id r)) ids)) (task (db w))
  /\ (forall i E, In i ids ->
                  TaskKnexRepository.findById E (db (snd out)) i
                  = failure ("Task with ID " ++ i ++ " not found"))
  /\ references_hold (db (snd out)) = true
  /\ (filter (fun r => existsb (String.eqb (tk_id r)) ids) (task (db w)) = [] ->
      snd out = w).
Proof.
  intro H. cbv zeta.
  assert (Hrun : TaskKnexRepository.deleteMany ids w
                 = (Ret (success tt),
                    {| db := snd (delete_tasks
                                    (fun r => existsb (String.eqb (tk_id r)) ids) (db w));
                       trace := trace w |})).
  { unfold TaskKnexRepository.deleteMany, BaseKnexRepository.executeQuery, catch, bind,
      affected, ret.
    destruct ids as [|i ids]; [|reflexivity].
    cbn [List.length Nat.eqb]. rewrite delete_tasks_none.
    - now destruct w.
    - apply filter_drop_all. }
  rewrite Hrun. cbn [fst snd db trace].
  split; [reflexivity|]. split; [reflexivity|]. split; [reflexivity|].
  split.
  { intros i E Hi. unfold TaskKnexRepository.findById.
    replace (task (snd (delete_tasks (fun r => existsb (String.eqb (tk_id r)) ids)
                          (db w))))
      with (filter (fun r => negb (existsb (String.eqb (tk_id r)) ids)) (task (db w)))
      by reflexivity.
    rewrite find_filter, filter_filter, filter_none; [reflexivity|].
    intros x _.
    destruct (task_is i x) eqn:Hx; [|apply andb_false_r].
    assert (Hl : existsb (String.eqb (tk_id x)) ids = true).
    { apply existsb_exists. exists i. split; [exact Hi|exact Hx]. }
    now rewrite Hl. }
  split; [now apply delete_tasks_keeps_references|].
  intro Hnone. rewrite (delete_tasks_none _ _ Hnone). now destruct w.
Qed.

(** X23 on the sample data: the sample task and an identifier that no
    task has are deleted together. *)
Lemma deleteMany_outcome_sample :
  fst (TaskKnexRepository.deleteMany [Sample.sub1; Sample.taskA] Sample.three_subtasks)
  = Ret (success tt)
  /\ db (snd (TaskKnexRepository.deleteMany [Sample.sub1; Sample.taskA]
                Sample.three_subtasks))
     = db Sample.empty.
Proof.
  split; [|reflexivity].
  exact (proj1 (deleteMany_outcome [Sample.sub1; Sample.taskA] Sample.three_subtasks
                  eq_refl)).
Defined.

(** X24. [deleteByTaskId] of the subtask repository never fails, whether
    the task has subtasks or not. It removes the subtasks of the task and, by
    cascade, their RACI rows; the subtasks of the other tasks, the task table
    (the stored progress of the parent included) and the other tables are as
    they were, the foreign keys that held before hold after, and nothing is
    emitted. *)
Theorem deleteByTaskId_outcome (taskId : string) (w : World) :
  references_hold (db w) = true ->
  let out := SubTaskKnexRepository.deleteByTaskId taskId w in
  fst out = Ret (success tt)
  /\ trace (snd out) = trace w
  /\ subtask (db (snd out))
     = filter (fun r => negb (subtask_of taskId r)) (subtask (db w))
  /\ (forall r, In r (subtask_raci (db (snd out))) <->
                In r (subtask_raci (db w))
                /\ forall s, In s (subtask (db w)) -> sb_id s = rc_entity r ->
                             sb_task_id s <> taskId)
  /\ task (db (snd out)) = task (db w)
  /\ task_raci (db (snd out)) = task_raci (db w)
  /\ task_profile (db (snd out)) = task_profile (db w)
  /\ profile (db (snd out)) = profile (db w)
  /\ references_hold (db (snd out)) = true.
Proof.
  intro H. cbv zeta.
  unfold SubTaskKnexRepository.deleteByTaskId, BaseKnexRepository.executeQuery, catch,
    bind, affected, ret.
  cbn [fst snd db trace].
  split; [reflexivity|]. split; [reflexivity|]. split; [reflexivity|].
  split.
  { intro r. unfold delete_subtasks. cbn [snd subtask_raci with_subtask_raci].
    rewrite filter_In. split.
    - intros [Hin Hno]. split; [exact Hin|].
      intros s Hs Hid Htask. apply negb_true_iff in Hno.
      assert (Htrue : orphaned (filter (subtask_of taskId) (subtask (db w))) r = true).
      { unfold orphaned. apply existsb_exists. exists s. split.
        - apply filter_In. split; [exact Hs|]. unfold subtask_of.
          now rewrite Htask, String.eqb_refl.
        - now rewrite Hid, String.eqb_refl. }
      rewrite Htrue in Hno. discriminate.
    - intros [Hin Hno]. split; [exact Hin|].
      apply negb_true_iff.
      destruct (orphaned (filter (subtask_of taskId) (subtask (db w))) r) eqn:Ho;
        [|reflexivity].
      exfalso. unfold orphaned in Ho. apply existsb_exists in Ho as (s & Hs & Hid).
      apply filter_In in Hs as [Hs Hof]. apply String.eqb_eq in Hid, Hof.
      exact (Hno s Hs Hid Hof). }
  repeat (split; [reflexivity|]).
  now apply delete_subtasks_keeps_references.
Qed.

(** X24 on the sample data: the three subtasks of the sample task are
    deleted with their six RACI rows. *)
Lemma deleteByTaskId_outcome_sample :
  subtask (db (snd (SubTaskKnexRepository.deleteByTaskId Sample.taskA
                      Sample.three_subtasks))) = []
  /\ subtask_raci (db (snd (SubTaskKnexRepository.deleteByTaskId Sample.taskA
                              Sample.three_subtasks))) = [].
Proof.
  split; [|reflexivity].
  rewrite (proj1 (proj2 (proj2 (deleteByTaskId_outcome Sample.taskA
                                  Sample.three_subtasks eq_refl)))).
  reflexivity.
Defined.

Lemma profile_toDomain_code record p :
  ProfileKnexRepository.toDomain record = success p -> code p = pf_code record.
Proof.
  unfold ProfileKnexRepository.toDomain, ProfileEntity.create.
  repeat match goal with
         | |- context [if ?c then _ else _] => destruct c; try discriminate
         end.
  now intros [= <-].
Qed.

Lemma entities_codes rows :
  (forall p, In p rows -> isSuccess (ProfileKnexRepository.toDomain p) = true) ->
  exists ps, ProfileKnexRepository.entities rows = success ps
             /\ map code ps = map pf_code rows.
Proof.
  induction rows as [|r rows IH]; intro Hok.
  - now exists [].
  - cbn [ProfileKnexRepository.entities].
    pose proof (Hok r (or_introl eq_refl)) as Hr.
    destruct (ProfileKnexRepository.toDomain r) as [p|e] eqn:Hp; [|discriminate].
    destruct IH as (ps & -> & Hcodes); [intros q Hq; apply Hok; now right|].
    exists (p :: ps). split; [reflexivity|].
    cbn [map]. now rewrite Hcodes, (profile_toDomain_code _ _ Hp).
Qed.

Lemma joined_In d taskId p :
  In p (ProfileKnexRepository.joined d taskId)
  <-> In p (profile d)
      /\ existsb (profile_link taskId (pf_code p)) (task_profile d) = true.
Proof.
  unfold ProfileKnexRepository.joined. rewrite in_flat_map. split.
  - intros (q & Hq & Hin). apply in_map_iff in Hin as (l & <- & Hl).
    split; [exact Hq|]. apply filter_In in Hl as [Hl Hk].
    apply existsb_exists. now exists l.
  - intros [Hp Hex]. exists p. split; [exact Hp|].
    apply existsb_exists in Hex as (l & Hl & Hk).
    apply in_map_iff. exists l. split; [reflexivity|]. apply filter_In. now split.
Qed.

Lemma associateWithTask_run E taskId codes w :
  distinct codes = true -> env_commit E = None ->
  ProfileKnexRepository.associateWithTask E taskId codes w
  = (Ret (success tt),
     {| db := with_task_profile
                (filter (fun r => negb (profile_of taskId r)) (task_profile (db w))
                 ++ map (fun c => {| tp_task_id := taskId; tp_profile_code := c;
                                     tp_created_at := env_now E |}) codes)
                (db w);
        trace := trace w ++ [TransactionBegin; TransactionCommit] |}).
Proof.
  intros Hd Hcommit.
  unfold ProfileKnexRepository.associateWithTask, BaseKnexRepository.transaction,
    catch, knex_transaction, bind, exec, ret.
  cbn [db trace]. rewrite Hcommit.
  destruct codes as [|c0 rest] eqn:Hcodes.
  - cbn [List.length Nat.ltb Nat.leb map db trace].
    now rewrite app_nil_r, <- app_assoc.
  - rewrite <- Hcodes in *.
    assert (Hlen : Nat.ltb 0 (List.length codes) = true) by now rewrite Hcodes.
    rewrite Hlen. cbn [db trace].
    rewrite (insert_all_task_profile_ok _ _ _ _ Hd).
    + cbn [db trace task_profile with_task_profile].
      now rewrite <- app_assoc.
    + intros c _. cbn [task_profile with_task_profile].
      destruct (existsb (profile_link taskId c) _) eqn:Hex; [|reflexivity].
      apply existsb_exists in Hex as (x & Hx & Hk).
      apply filter_In in Hx as [_ Hx].
      unfold profile_link in Hk. apply andb_true_iff in Hk as [Hk _].
      unfold profile_of in Hx. rewrite Hk in Hx. discriminate.
Qed.

(** X25. The profiles of a task, written and read back. After
    [associateWithTask] of a stored task with known codes, none named twice,
    in a catalogue of well-formed profiles, [findByTaskId] succeeds and
    returns profiles with exactly the codes given. [removeFromTask] without
    codes then leaves the task without profile, and with an empty list of
    codes it does the same as without: it removes every link of the task. *)
Theorem profiles_written_and_read_back (E : Env) (taskId : string)
  (codes : list string) (w : World) :
  existsb (task_is taskId) (task (db w)) = true ->
  (forall c, In c codes ->
             existsb (fun p => String.eqb (pf_code p) c) (profile (db w)) = true) ->
  (forall p, In p (profile (db w)) ->
             isSuccess (ProfileKnexRepository.toDomain p) = true) ->
  distinct codes = true ->
  env_commit E = None ->
  let w1 := snd (ProfileKnexRepository.associateWithTask E taskId codes w) in
  (exists ps,
      ProfileKnexRepository.findByTaskId (db w1) taskId = success ps
      /\ forall c, In c (map code ps) <-> In c codes)
  /\ ProfileKnexRepository.findByTaskId
       (db (snd (ProfileKnexRepository.removeFromTask taskId None w1))) taskId
     = success []
  /\ ProfileKnexRepository.removeFromTask taskId (Some []) w1
     = ProfileKnexRepository.removeFromTask taskId None w1.
Proof.
  intros _ Hknown Hwell Hd Hcommit. cbv zeta.
  rewrite (associateWithTask_run _ _ _ _ Hd Hcommit). cbn [snd db].
  split; [|split; [|reflexivity]].
  - unfold ProfileKnexRepository.findByTaskId.
    destruct (entities_codes
                (ProfileKnexRepository.joined
                   (with_task_profile
                      (filter (fun r => negb (profile_of taskId r)) (task_profile (db w))
                       ++ map (fun c => {| tp_task_id := taskId; tp_profile_code := c;
                                           tp_created_at := env_now E |}) codes)
                      (db w)) taskId))
      as (ps & Hps & Hcodes).
    { intros p Hp. apply joined_In in Hp as [Hp _]. now apply Hwell. }
    exists ps. split; [exact Hps|]. intro c. rewrite Hcodes, in_map_iff. split.
    + intros (p & <- & Hp). apply joined_In in Hp as [_ Hex].
      cbn [task_profile with_task_profile] in Hex.
      apply existsb_exists in Hex as (l & Hl & Hk).
      unfold profile_link in Hk. apply andb_true_iff in Hk as [Hk1 Hk2].
      apply in_app_or in Hl as [Hl|Hl].
      * apply filter_In in Hl as [_ Hl]. unfold profile_of in Hl.
        rewrite Hk1 in Hl. discriminate.
      * apply in_map_iff in Hl as (c & <- & Hc). cbn [tp_profile_code] in Hk2.
        apply String.eqb_eq in Hk2. now rewrite <- Hk2.
    + intro Hc. pose proof (Hknown c Hc) as Hex.
      apply existsb_exists in Hex as (p & Hp & Heq). apply String.eqb_eq in Heq.
      exists p. split; [exact Heq|]. apply joined_In. split; [exact Hp|].
      cbn [task_profile with_task_profile]. rewrite existsb_app.
      apply orb_true_iff. right. apply existsb_exists.
      exists {| tp_task_id := taskId; tp_profile_code := c;
                tp_created_at := env_now E |}.
      split; [apply in_map_iff; now exists c|].
      unfold profile_link. cbn [tp_task_id tp_profile_code].
      now rewrite Heq, !String.eqb_refl.
  - unfold ProfileKnexRepository.removeFromTask, BaseKnexRepository.executeQuery,
      catch, bind, exec, ret.
    cbn [snd db task_profile with_task_profile].
    unfold ProfileKnexRepository.findByTaskId.
    assert (Hnone : ProfileKnexRepository.joined
                      (with_task_profile
                         (filter (fun r => negb (ProfileKnexRepository.removed taskId
                                                   None r))
                            (filter (fun r => negb (profile_of taskId r))
                               (task_profile (db w))
                             ++ map (fun c => {| tp_task_id := taskId;
                                                 tp_profile_code := c;
                                                 tp_created_at := env_now E |}) codes))
                         (with_task_profile
                            (filter (fun r => negb (profile_of taskId r))
                               (task_profile (db w))
                             ++ map (fun c => {| tp_task_id := taskId;
                                                 tp_profile_code := c;
                                                 tp_created_at := env_now E |}) codes)
                            (db w))) taskId = []).
    { destruct (ProfileKnexRepository.joined _ taskId) as [|p rest] eqn:Hj;
        [reflexivity|].
      exfalso.
      assert (Hp : In p (p :: rest)) by now left.
      rewrite <- Hj in Hp. apply joined_In in Hp as [_ Hex].
      cbn [task_profile with_task_profile] in Hex.
      apply existsb_exists in Hex as (l & Hl & Hk).
      apply filter_In in Hl as [_ Hl].
      unfold ProfileKnexRepository.removed in Hl. rewrite andb_true_r in Hl.
      unfold profile_link in Hk. apply andb_true_iff in Hk as [Hk _].
      unfold profile_of in Hl. rewrite Hk in Hl. discriminate. }
    now rewrite Hnone.
Qed.

(** X25 on the sample task: it is linked to TEC again, read back, and
    its links are removed. *)
Lemma profiles_written_and_read_back_sample :
  ProfileKnexRepository.findByTaskId
    (db (snd (ProfileKnexRepository.associateWithTask (Sample.at_ 6000 "") Sample.taskA
                ["TEC"] Sample.task_created))) Sample.taskA
  = success [{| code := "TEC"; name := "Technicien" |}]
  /\ ProfileKnexRepository.findByTaskId
       (db (snd (ProfileKnexRepository.removeFromTask Sample.taskA None
                   (snd (ProfileKnexRepository.associateWithTask (Sample.at_ 6000 "")
                           Sample.taskA ["TEC"] Sample.task_created))))) Sample.taskA
     = success [].
Proof.
  split; [reflexivity|].
  apply (profiles_written_and_read_back (Sample.at_ 6000 "") Sample.taskA ["TEC"]
           Sample.task_created); try reflexivity.
  - intros c [<-|[]]. reflexivity.
  - intros p [<-|[]]. reflexivity.
Defined.

